(** * Goat - Pico Network Manager (NetworkManager.py), a shallow embedding

    The two classes of [NetworkManager.py] are embedded as functions in a
    state-and-exception monad over a record of the device state.  What the
    firmware cannot decide by itself (whether a link comes up, what a socket
    delivers, which library call fails) is read from an environment record
    that the theorems quantify over.

    Python [str] values are modelled by [string], one [ascii] per character
    (texts with code points above 255 are outside the model); [bytes] values
    are lists of [byte].  Exceptions are instances of [Exception]; task
    cancellation and keyboard interrupts are outside the model.  A
    coroutine that contains a [while True] loop takes fuel, and a run that
    has used it up is [Pending]: it has not returned. *)

From Stdlib Require Import String Ascii List ZArith Lia Bool DecimalString.
From Stdlib.Strings Require Import Byte.
From stdpp Require Import gmap strings.
Import ListNotations.
#[local] Open Scope string_scope.
#[local] Open Scope Z_scope.

(** ** Python built-ins used by the module *)

Module Py.

Definition bytes : Type := list byte.

Definition nl : string := String "010"%char EmptyString.
Definition cr : string := String "013"%char EmptyString.
Definition dq : string := String "034"%char EmptyString.
Definition chr169 : string := String "169"%char EmptyString.   (* the copyright sign *)
Definition crlf : string := cr ++ nl.

(** Concatenation of the pieces of a literal or of an f-string. *)
Definition cat (pieces : list string) : string :=
  fold_right String.append EmptyString pieces.

(** [sub in s] *)
Fixpoint contains (sub s : string) : bool :=
  String.prefix sub s ||
  match s with
  | EmptyString => false
  | String _ t => contains sub t
  end.

(** [s.find(sub)]: the lowest index at which [sub] occurs, [-1] if none. *)
Fixpoint find (sub s : string) : Z :=
  if String.prefix sub s then 0
  else match s with
       | EmptyString => -1
       | String _ t => let r := find sub t in if r <? 0 then -1 else r + 1
       end.

Fixpoint drop (n : nat) (s : string) : string :=
  match n, s with
  | O, _ => s
  | S _, EmptyString => EmptyString
  | S n', String _ t => drop n' t
  end.

(** [s[i:]], with Python's reading of a negative index. *)
Definition slice_from (i : Z) (s : string) : string :=
  let n := Z.of_nat (String.length s) in
  drop (Z.to_nat (if i <? 0 then Z.max 0 (n + i) else i)) s.

(** [s.split(c)] for a separator of one character. *)
Fixpoint split (c : ascii) (s : string) : list string :=
  match s with
  | EmptyString => [EmptyString]
  | String a t =>
      if Ascii.eqb a c then EmptyString :: split c t
      else match split c t with
           | h :: r => String a h :: r
           | [] => [String a EmptyString]
           end
  end.

(** [c.join(l)] *)
Fixpoint join (c : ascii) (l : list string) : string :=
  match l with
  | [] => EmptyString
  | [x] => x
  | x :: r => x ++ String c (join c r)
  end.

(** [s.split(c, 1)] when [c in s]: the text before the first [c] and the
    text after it. *)
Fixpoint split_once (c : ascii) (s : string) : string * string :=
  match s with
  | EmptyString => (EmptyString, EmptyString)
  | String a t =>
      if Ascii.eqb a c then (EmptyString, t)
      else let (k, v) := split_once c t in (String a k, v)
  end.

(** [s.replace(old, new)] for a non-empty [old]: occurrences are replaced
    from the left and do not overlap; [skip] counts the characters of a
    matched occurrence that are still to be passed over. *)
Fixpoint replace_from (old new : string) (skip : nat) (s : string) : string :=
  match s with
  | EmptyString => EmptyString
  | String c t =>
      match skip with
      | S k => replace_from old new k t
      | O =>
          if String.prefix old s
          then new ++ replace_from old new (String.length old - 1) t
          else String c (replace_from old new O t)
      end
  end.

Definition replace (old new s : string) : string := replace_from old new O s.

(** Truth value of a [str]. *)
Definition truthy (s : string) : bool := negb (String.eqb s EmptyString).

(** [str(n)] for an [int]. *)
Definition str_of_int (n : Z) : string := NilZero.string_of_int (Z.to_int n).

(** [x in l] for a list of [str]. *)
Definition mem (x : string) (l : list string) : bool :=
  existsb (String.eqb x) l.

(** [b[i:j]] for [0 <= i <= j]. *)
Definition bslice (i j : nat) (b : bytes) : bytes := firstn (j - i) (skipn i b).

(** Instances of [Exception].  [OSError] carries its [errno]; every other
    class is kept by name.  [msg] is what [str(e)] yields. *)
Inductive exn : Type :=
| OSError (errno : Z) (msg : string)
| Error (cls : string) (msg : string).

Definition str_exn (e : exn) : string :=
  match e with
  | OSError _ m => m
  | Error _ m => m
  end.

Definition is_eagain (e : exn) : bool :=
  match e with
  | OSError n _ => n =? 11
  | Error _ _ => false
  end.

End Py.
Import Py.

(** ** The device and its surroundings *)

Definition addr : Type := (string * Z)%type.

(** The four fields of [ifconfig]: address, subnet, gateway, DNS. *)
Definition netcfg : Type := (string * string * string * string)%type.

(** Calls that leave the module: the two [network.WLAN] interfaces, [uos],
    [ConfigManager], the station web server given to the constructor,
    [asyncio.start_server] and its handle, the UDP socket set-up and the
    client stream.  Each of them may raise. *)
Inductive Op : Type :=
| StaActive (on : bool)
| StaConnect (ssid password : string)
| StaIsConnected
| StaIfconfig
| StaScan
| StaDeinit
| ApConfig (essid password : string)
| ApActive (on : bool)
| ApSetIfconfig (c : netcfg)
| ApIfconfig
| ApIsConnected
| ApDeinit
| Hostname (name : string)
| Listdir (dir : string)
| CfgNew (dir file : string)
| CfgRead
| CfgGet (section key : string)
| CfgSet (section key value : string)
| CfgWrite
| AppRun
| AppStop
| StartServer (host : string) (port : Z)
| ServerClose
| ServerWaitClosed
| SockCreate
| SockSetBlocking (b : bool)
| SockBind (a : addr)
| ReaderRead (n : nat)
| WriterWrite (data : bytes)
| WriterDrain.

(** What an observer of the device sees, in the order it happens. *)
Inductive Event : Type :=
| Call (op : Op)
| Print (msg : string)
| Sleep
| SockRecvfrom
| SockSendto (data : bytes) (a : addr)
| SockClose
| WriterClose
| WriterWaitClosed.

(** One attempt of [recvfrom] on the non-blocking socket. *)
Inductive Rx : Type :=
| RxData (data : bytes) (a : addr)
| RxErr (e : exn).

(** What [self.server] can hold. *)
Inductive Handle : Type :=
| PortalListener
| AppServer.

Record Env : Type := {
  (* constructor arguments *)
  ap_ssid : string;
  ap_password : string;
  hostname : string;
  sta_web_server : bool;               (* a station web server was given *)
  (* library functions *)
  decode : bytes -> exn + string;      (* bytes.decode() *)
  encode : string -> bytes;            (* str.encode() *)
  inet_aton : string -> exn + bytes;   (* socket.inet_aton *)
  (* surroundings *)
  fault : Op -> option exn;            (* the exception a call raises, if any *)
  files : list string;                 (* uos.listdir(config_directory) *)
  stored_ssid : string;                (* get_entry("network", "ssid") *)
  stored_password : string;            (* get_entry("network", "password") *)
  link_up : nat -> bool;               (* does the n-th connect() get a link
                                          before its deadline *)
  sta_ip : string;                     (* sta_if.ifconfig()[0] once connected *)
  scan_result : list (bytes * Z)       (* (net[0], net[3]) of sta_if.scan() *)
}.

Record State : Type := {
  sta_active : bool;
  sta_connected : bool;
  ap_active : bool;
  ap_connected : bool;
  ap_essid : string;
  ap_key : string;
  ap_netcfg : netcfg;
  ip_address : option string;          (* self.ip_address *)
  server : option Handle;              (* self.server *)
  udp_server : bool;                   (* dns_server.udp_server is a socket *)
  attempts : nat;                      (* connect() calls issued so far *)
  rx : list Rx;                        (* what the next recvfrom calls meet *)
  tx : list (option exn);              (* what the next sendto calls meet *)
  trace : list Event
}.

Definition set_sta (a c : bool) (s : State) : State :=
  {| sta_active := a; sta_connected := c;
     ap_active := ap_active s; ap_connected := ap_connected s;
     ap_essid := ap_essid s; ap_key := ap_key s; ap_netcfg := ap_netcfg s;
     ip_address := ip_address s; server := server s;
     udp_server := udp_server s; attempts := attempts s;
     rx := rx s; tx := tx s; trace := trace s |}.

Definition set_attempts (n : nat) (s : State) : State :=
  {| sta_active := sta_active s; sta_connected := sta_connected s;
     ap_active := ap_active s; ap_connected := ap_connected s;
     ap_essid := ap_essid s; ap_key := ap_key s; ap_netcfg := ap_netcfg s;
     ip_address := ip_address s; server := server s;
     udp_server := udp_server s; attempts := n;
     rx := rx s; tx := tx s; trace := trace s |}.

Definition set_ap (a c : bool) (s : State) : State :=
  {| sta_active := sta_active s; sta_connected := sta_connected s;
     ap_active := a; ap_connected := c;
     ap_essid := ap_essid s; ap_key := ap_key s; ap_netcfg := ap_netcfg s;
     ip_address := ip_address s; server := server s;
     udp_server := udp_server s; attempts := attempts s;
     rx := rx s; tx := tx s; trace := trace s |}.

Definition set_ap_config (essid key : string) (s : State) : State :=
  {| sta_active := sta_active s; sta_connected := sta_connected s;
     ap_active := ap_active s; ap_connected := ap_connected s;
     ap_essid := essid; ap_key := key; ap_netcfg := ap_netcfg s;
     ip_address := ip_address s; server := server s;
     udp_server := udp_server s; attempts := attempts s;
     rx := rx s; tx := tx s; trace := trace s |}.

Definition set_ap_netcfg (c : netcfg) (s : State) : State :=
  {| sta_active := sta_active s; sta_connected := sta_connected s;
     ap_active := ap_active s; ap_connected := ap_connected s;
     ap_essid := ap_essid s; ap_key := ap_key s; ap_netcfg := c;
     ip_address := ip_address s; server := server s;
     udp_server := udp_server s; attempts := attempts s;
     rx := rx s; tx := tx s; trace := trace s |}.

Definition set_ip_address (ip : option string) (s : State) : State :=
  {| sta_active := sta_active s; sta_connected := sta_connected s;
     ap_active := ap_active s; ap_connected := ap_connected s;
     ap_essid := ap_essid s; ap_key := ap_key s; ap_netcfg := ap_netcfg s;
     ip_address := ip; server := server s;
     udp_server := udp_server s; attempts := attempts s;
     rx := rx s; tx := tx s; trace := trace s |}.

Definition set_server (h : option Handle) (s : State) : State :=
  {| sta_active := sta_active s; sta_connected := sta_connected s;
     ap_active := ap_active s; ap_connected := ap_connected s;
     ap_essid := ap_essid s; ap_key := ap_key s; ap_netcfg := ap_netcfg s;
     ip_address := ip_address s; server := h;
     udp_server := udp_server s; attempts := attempts s;
     rx := rx s; tx := tx s; trace := trace s |}.

Definition set_udp_server (u : bool) (s : State) : State :=
  {| sta_active := sta_active s; sta_connected := sta_connected s;
     ap_active := ap_active s; ap_connected := ap_connected s;
     ap_essid := ap_essid s; ap_key := ap_key s; ap_netcfg := ap_netcfg s;
     ip_address := ip_address s; server := server s;
     udp_server := u; attempts := attempts s;
     rx := rx s; tx := tx s; trace := trace s |}.

Definition set_rx (l : list Rx) (s : State) : State :=
  {| sta_active := sta_active s; sta_connected := sta_connected s;
     ap_active := ap_active s; ap_connected := ap_connected s;
     ap_essid := ap_essid s; ap_key := ap_key s; ap_netcfg := ap_netcfg s;
     ip_address := ip_address s; server := server s;
     udp_server := udp_server s; attempts := attempts s;
     rx := l; tx := tx s; trace := trace s |}.

Definition set_tx (l : list (option exn)) (s : State) : State :=
  {| sta_active := sta_active s; sta_connected := sta_connected s;
     ap_active := ap_active s; ap_connected := ap_connected s;
     ap_essid := ap_essid s; ap_key := ap_key s; ap_netcfg := ap_netcfg s;
     ip_address := ip_address s; server := server s;
     udp_server := udp_server s; attempts := attempts s;
     rx := rx s; tx := l; trace := trace s |}.

Definition log (ev : Event) (s : State) : State :=
  {| sta_active := sta_active s; sta_connected := sta_connected s;
     ap_active := ap_active s; ap_connected := ap_connected s;
     ap_essid := ap_essid s; ap_key := ap_key s; ap_netcfg := ap_netcfg s;
     ip_address := ip_address s; server := server s;
     udp_server := udp_server s; attempts := attempts s;
     rx := rx s; tx := tx s; trace := trace s ++ [ev] |}.

(** ** Control flow: return, raise, or still waiting

    [Pending] is the outcome of a coroutine that has not finished when the
    fuel given to its [while True] loops is used up: no code after it has
    run, no handler and no [finally] block either. *)

Inductive outcome (A : Type) : Type :=
| Ret (a : A)
| Raise (e : exn)
| Pending.
Arguments Ret {A} a.
Arguments Raise {A} e.
Arguments Pending {A}.

Definition M (A : Type) : Type := State -> outcome A * State.

Definition ret {A} (a : A) : M A := fun s => (Ret a, s).
Definition raise {A} (e : exn) : M A := fun s => (Raise e, s).
Definition pending {A} : M A := fun s => (Pending, s).

Definition bind {A B} (m : M A) (k : A -> M B) : M B := fun s =>
  match m s with
  | (Ret a, s') => k a s'
  | (Raise e, s') => (Raise e, s')
  | (Pending, s') => (Pending, s')
  end.

Declare Scope py_scope.
Delimit Scope py_scope with py.
Notation "x <- c1 ;; c2" := (bind c1 (fun x => c2))
  (at level 100, c1 at next level, right associativity) : py_scope.
Notation "c1 ;; c2" := (bind c1 (fun _ => c2))
  (at level 100, right associativity) : py_scope.
#[local] Open Scope py_scope.

(** [try: body except Exception as e: handler(e)] *)
Definition try_except {A} (body : M A) (handler : exn -> M A) : M A := fun s =>
  match body s with
  | (Raise e, s') => handler e s'
  | r => r
  end.

(** [try: body finally: fin].  The block [fin] runs after a return and after
    a raise; what it raises replaces the outcome of [body]. *)
Definition try_finally {A} (body : M A) (fin : M unit) : M A := fun s =>
  match body s with
  | (Ret a, s') =>
      match fin s' with
      | (Ret _, s'') => (Ret a, s'')
      | (Raise e, s'') => (Raise e, s'')
      | (Pending, s'') => (Pending, s'')
      end
  | (Raise e, s') =>
      match fin s' with
      | (Ret _, s'') => (Raise e, s'')
      | (Raise e', s'') => (Raise e', s'')
      | (Pending, s'') => (Pending, s'')
      end
  | (Pending, s') => (Pending, s')
  end.

Definition gets {A} (f : State -> A) : M A := fun s => (Ret (f s), s).
Definition modify (f : State -> State) : M unit := fun s => (Ret tt, f s).
Definition emit (ev : Event) : M unit := modify (log ev).
Definition print (msg : string) : M unit := emit (Print msg).

(** [await asyncio.sleep(t)] and [utime.sleep(t)]: the task gives way once. *)
Definition sleep : M unit := emit Sleep.

(** [while True: body] *)
Fixpoint forever (fuel : nat) (body : M unit) : M unit :=
  match fuel with
  | O => pending
  | S fuel' => body ;; forever fuel' body
  end.

(** The outcome of a library function that returns or raises. *)
Definition lift {A} (r : exn + A) : M A :=
  match r with
  | inl e => raise e
  | inr a => ret a
  end.

Section Firmware.

Variable env : Env.

(** A call that leaves the module: it is recorded, and raises when the
    environment says so. *)
Definition ext (op : Op) : M unit := fun s =>
  match fault env op with
  | Some e => (Raise e, log (Call op) s)
  | None => (Ret tt, log (Call op) s)
  end.

(** ** class NetworkManagerDNS *)

Definition dns_ip : string := "192.168.4.1".
Definition dns_port : Z := 53.
Definition buffer_size : nat := 512.

(** [self.udp_server.recvfrom(n)].  With no socket object the attribute
    access fails; an empty script is a socket with nothing to read; the
    script holds what the call hands over, at most [n] bytes of a datagram. *)
Definition recvfrom (n : nat) : M (bytes * addr) := fun s =>
  if udp_server s then
    match rx s with
    | [] => (Raise (OSError 11 "EAGAIN"), log SockRecvfrom s)
    | RxData d a :: rest => (Ret (d, a), set_rx rest (log SockRecvfrom s))
    | RxErr e :: rest => (Raise e, set_rx rest (log SockRecvfrom s))
    end
  else (Raise (Error "AttributeError" "'NoneType' object has no attribute 'recvfrom'"), s).

(** [self.udp_server.sendto(data, addr)] *)
Definition sendto (data : bytes) (a : addr) : M unit := fun s =>
  if udp_server s then
    match tx s with
    | Some e :: rest => (Raise e, set_tx rest s)
    | None :: rest => (Ret tt, set_tx rest (log (SockSendto data a) s))
    | [] => (Ret tt, log (SockSendto data a) s)
    end
  else (Raise (Error "AttributeError" "'NoneType' object has no attribute 'sendto'"), s).

(** [except OSError as e: if e.errno != 11: raise]: only a would-block
    error is absorbed, after which the task gives way once. *)
Definition on_would_block {A} (retry : M A) (e : exn) : M A :=
  if is_eagain e then sleep ;; retry else raise e.

Fixpoint _receive_from (fuel : nat) : M (bytes * addr) :=
  match fuel with
  | O => pending
  | S fuel' =>
      try_except
        (r <- recvfrom buffer_size ;; let (data, a) := r in ret (data, a))
        (on_would_block (_receive_from fuel'))
  end.

Fixpoint _send_to (fuel : nat) (data : bytes) (a : addr) : M unit :=
  match fuel with
  | O => pending
  | S fuel' =>
      try_except
        (sendto data a)
        (on_would_block (_send_to fuel' data a))
  end.

(** The loop of [_decode_domain_name], on the part of the query section
    from index [i] on.  Every round consumes the length byte, so [fuel]
    equal to the length of the section is never used up. *)
Fixpoint decode_labels (fuel : nat) (rest : bytes) : M (list string) :=
  match rest with
  | [] => raise (Error "IndexError" "bytes index out of range")
  | len :: after =>
      if N.eqb (Byte.to_N len) 0 then ret []
      else match fuel with
           | O => pending
           | S fuel' =>
               let length := N.to_nat (Byte.to_N len) in
               part <- lift (decode env (firstn length after)) ;;
               parts <- decode_labels fuel' (skipn length after) ;;
               ret (part :: parts)
           end
  end.

Definition join_dot (parts : list string) : string :=
  match parts with
  | [] => ""
  | p :: ps => fold_left (fun acc q => acc ++ "." ++ q) ps p
  end.

Definition _decode_domain_name (query_section : bytes) : M string :=
  domain_parts <- decode_labels (List.length query_section) query_section ;;
  ret (join_dot domain_parts).

Definition handle_dns_query (data : bytes) : M bytes :=
  try_except
    (let transaction_id := firstn 2 data in
     let flags := [x81; x80] in
     let question_count := bslice 4 6 data in
     let answer_count := [x00; x01] in
     let authority_rrs := [x00; x00] in
     let additional_rrs := [x00; x00] in
     let query_section := skipn 12 data in
     domain_name <- _decode_domain_name query_section ;;
     print ("Handling DNS query for domain: " ++ domain_name) ;;
     let answer_name := [xc0; x0c] in
     let answer_type := [x00; x01] in
     let answer_class := [x00; x01] in
     let ttl := [x00; x00; x00; x3c] in
     let data_length := [x00; x04] in
     answer_ip <- lift (inet_aton env dns_ip) ;;
     ret (transaction_id ++ flags ++ question_count ++ answer_count ++
          authority_rrs ++ additional_rrs ++ query_section ++
          answer_name ++ answer_type ++ answer_class ++ ttl ++
          data_length ++ answer_ip)%list)
    (fun e => print ("Error handling DNS query: " ++ str_exn e) ;; ret []).

Definition stop_dns : M unit :=
  u <- gets udp_server ;;
  if u then
    emit SockClose ;;
    modify (set_udp_server false) ;;
    print "DNS server stopped."
  else ret tt.

Definition start_dns (fuel : nat) : M unit :=
  try_finally
    (try_except
       (ext SockCreate ;;
        modify (set_udp_server true) ;;
        ext (SockSetBlocking false) ;;
        ext (SockBind (dns_ip, dns_port)) ;;
        print (cat ["DNS server started listening on IP address "; dns_ip;
                    " port "; str_of_int dns_port; "."]) ;;
        forever fuel
          (try_except
             (r <- _receive_from fuel ;;
              let (data, a) := r in
              match data with
              | [] => ret tt
              | _ :: _ =>
                  print (cat ["DNS query received from ('"; fst a; "', ";
                              str_of_int (snd a); ")"]) ;;
                  response <- handle_dns_query data ;;
                  _send_to fuel response a
              end)
             (fun e => print ("Error handling DNS query: " ++ str_exn e))))
       (fun e => print ("Error starting DNS server: " ++ str_exn e)))
    (u <- gets udp_server ;;
     if u then emit SockClose ;; print "DNS server socket closed." else ret tt).

(** ** class NetworkManager *)

Definition config_directory : string := "/config".
Definition config_file : string := "network_config.conf".
Definition VERSION : string := "1.0.1".
Definition captive_portal_http_port : Z := 80.
Definition ap_ip_address : string := "192.168.4.1".
Definition ap_subnet : string := "255.255.255.0".
Definition ap_gateway : string := "192.168.4.1".
Definition ap_dns : string := "192.168.4.1".

(** *** The two interfaces.  Deactivating an interface drops its link. *)

Definition sta_if_active (on : bool) : M unit :=
  ext (StaActive on) ;;
  modify (fun s => set_sta on (sta_connected s && on) s).

Definition sta_if_connect (ssid password : string) : M unit :=
  ext (StaConnect ssid password) ;;
  modify (fun s => set_attempts (S (attempts s)) s).

Definition sta_if_isconnected : M bool :=
  ext StaIsConnected ;; gets sta_connected.

Definition sta_if_ifconfig0 : M string :=
  ext StaIfconfig ;; ret (sta_ip env).

Definition sta_if_scan : M (list (bytes * Z)) :=
  ext StaScan ;; ret (scan_result env).

Definition sta_if_deinit : M unit :=
  ext StaDeinit ;; modify (set_sta false false).

Definition ap_if_config (essid password : string) : M unit :=
  ext (ApConfig essid password) ;; modify (set_ap_config essid password).

Definition ap_if_active (on : bool) : M unit :=
  ext (ApActive on) ;;
  modify (fun s => set_ap on (ap_connected s && on) s).

Definition ap_if_set_ifconfig (c : netcfg) : M unit :=
  ext (ApSetIfconfig c) ;; modify (set_ap_netcfg c).

Definition ap_if_ifconfig0 : M string :=
  ext ApIfconfig ;; gets (fun s => fst (fst (fst (ap_netcfg s)))).

Definition ap_if_isconnected : M bool :=
  ext ApIsConnected ;; gets ap_connected.

Definition ap_if_deinit : M unit :=
  ext ApDeinit ;; modify (set_ap false false).

(** [while not self.sta_if.isconnected() and utime.time() < timeout: sleep(0.5)].
    The wall clock bounds this loop, so it takes no fuel: it ends with the
    link up when the environment grants one to the current attempt before
    the deadline, and at the deadline otherwise. *)
Definition await_link : M unit :=
  c <- sta_if_isconnected ;;
  if c then ret tt
  else sleep ;; modify (fun s => set_sta (sta_active s) (link_up env (attempts s)) s).

Definition uos_listdir (dir : string) : M (list string) :=
  ext (Listdir dir) ;; ret (files env).

(** [self.server = await self.sta_web_server.run()] *)
Definition sta_web_server_run : M unit :=
  ext AppRun ;; modify (set_server (Some AppServer)).

(** *** load_config *)

Fixpoint connect_attempts (left : nat) (attempts : Z) (ssid password : string)
  : M unit :=
  match left with
  | O => ret tt
  | S left' =>
      sta_if_active true ;;
      sta_if_connect ssid password ;;
      print (cat ["Attempting to connect to "; ssid; "..."]) ;;
      await_link ;;
      c <- sta_if_isconnected ;;
      if c then
        ip <- sta_if_ifconfig0 ;;
        modify (set_ip_address (Some ip)) ;;
        print (cat ["Connected to "; ssid; ". IP: "; ip]) ;;
        if sta_web_server env then
          try_except sta_web_server_run
            (fun e => print ("Error starting web server: " ++ str_exn e))
        else ret tt
      else
        print (cat ["Attempt "; str_of_int (attempts + 1);
                    ": Failed to connect to Wi-Fi."]) ;;
        connect_attempts left' (attempts + 1) ssid password
  end.

Definition load_config : M unit :=
  try_except
    (listing <- uos_listdir config_directory ;;
     if mem config_file listing then
       ext (CfgNew config_directory config_file) ;;
       ext CfgRead ;;
       ext (CfgGet "network" "ssid") ;;
       let ssid := stored_ssid env in
       ext (CfgGet "network" "password") ;;
       let password := stored_password env in
       if negb (truthy ssid) then
         print "No SSID provided in configuration. Cannot connect to a network."
       else
         connect_attempts 3 0 ssid password ;;
         c <- sta_if_isconnected ;;
         if negb c then
           sta_if_active false ;;
           print "All connection attempts failed."
         else ret tt
     else print "No saved network configuration found.")
    (fun e =>
       sta_if_active false ;;
       print ("Error loading network configuration: " ++ str_exn e)).

Definition save_config (ssid password : string) : M unit :=
  try_except
    (ext (CfgNew config_directory config_file) ;;
     ext CfgRead ;;
     ext (CfgSet "network" "ssid" ssid) ;;
     ext (CfgSet "network" "password" password) ;;
     ext CfgWrite ;;
     print "Network configuration saved.")
    (fun e => print ("Error saving configuration: " ++ str_exn e)).

(** *** Access point *)

Definition start_ap : M unit :=
  let ip_address := ap_ip_address in
  let subnet := ap_subnet in
  let gateway := ap_gateway in
  let dns := ap_dns in
  if (String.length (ap_password env) <? 8)%nat then
    print "Password must be at least 8 characters long."
  else
    try_except
      (ap_if_config (ap_ssid env) (ap_password env) ;;
       ap_if_active true ;;
       ap_if_set_ifconfig (ip_address, subnet, gateway, dns) ;;
       ip <- ap_if_ifconfig0 ;;
       modify (set_ip_address (Some ip)) ;;
       print (cat ["Access point started. SSID: "; ap_ssid env; ", IP: "; ip]))
      (fun e => print ("Error starting Access point: " ++ str_exn e)).

Definition stop_ap : M unit :=
  c <- ap_if_isconnected ;;
  if negb c then print "The access point is not currently enabled."
  else
    try_except
      (ap_if_config "" "" ;;
       ap_if_active false ;;
       ap_if_deinit ;;
       modify (set_ip_address None) ;;
       print "Access point stopped.")
      (fun e => print ("Error stopping Access point: " ++ str_exn e)).

Definition disconnect_from_wifi : M unit :=
  c <- sta_if_isconnected ;;
  if negb c then print "The network is not connected."
  else
    try_except
      (sta_if_active false ;;
       sta_if_deinit ;;
       modify (set_ip_address None))
      (fun e => print ("Error disconnecting from wi-fi: " ++ str_exn e)).

(** *** Captive portal server *)

Definition start_captive_portal_server (fuel : nat) : M unit :=
  ip <- gets ip_address ;;
  match ip with
  | None => print "AP IP address not assigned. Cannot start server."
  | Some ip =>
      if negb (truthy ip) then
        print "AP IP address not assigned. Cannot start server."
      else
        try_except
          (ext (StartServer ip captive_portal_http_port) ;;
           modify (set_server (Some PortalListener)) ;;
           print (cat ["Serving on "; ip; ":"; str_of_int captive_portal_http_port]) ;;
           forever fuel sleep)
          (fun e => print ("Error starting the captive portal server: " ++ str_exn e))
  end.

Definition stop_captive_portal_server : M unit :=
  try_except
    (h <- gets server ;;
     match h with
     | Some _ =>
         ext ServerClose ;;
         ext ServerWaitClosed ;;
         print "Server stopped."
     | None => print "Server already stopped."
     end)
    (fun e => print ("Error stopping server: " ++ str_exn e)).
(** *** Pages *)

Definition html_template (title body : string) : string :=
  cat [nl;
       "        <html>"; nl;
       "        <head><title>"; title; "</title></head>"; nl;
       "        <body>"; nl;
       "            <h1>"; title; "</h1>"; nl;
       "            <p>Welcome to the Goat - Captive Portal.</p>"; nl;
       "            <p><a href="; dq; "/"; dq; ">Home</a></p>"; nl;
       "            "; body; nl;
       "            <h1>Information</h1>"; nl;
       "            <p>Check out other Goat Technologies offerings at <a href="; dq; "https://goatbot.org/"; dq; ">Goatbot.org</a></p>"; nl;
       "            <p><b>Version "; VERSION; "</b><br>"; nl;
       "            <b>"; chr169; " (c) 2024-2025 Goat Technologies</b></p>"; nl;
       "        </body>"; nl;
       "        </html>"; nl;
       "        "].

Definition scan_form (ssid : string) (rssi : Z) : string :=
  cat [nl;
       "                    <form action='/connect' method='POST'>"; nl;
       "                        <label>"; ssid; " - Signal Strength: "; str_of_int rssi; "</label><br>"; nl;
       "                        <input type='hidden' name='ssid' value='"; ssid; "'>"; nl;
       "                        <input type='password' name='password' placeholder='Password'><br>"; nl;
       "                        <button type='submit'>Connect</button>"; nl;
       "                    </form><br>"; nl;
       "                "].

Definition scan_error (e : exn) : string :=
  cat ["<h2>Scan Error</h2><p>An error occurred while scanning Wi-Fi networks.<br>Error: ";
       str_exn e; "</p>"].

(** [for net in networks: ssid = net[0].decode(); html += ...]: the text
    built so far, and the exception that stopped the loop, if any. *)
Fixpoint render_networks (networks : list (bytes * Z)) (html : string)
  : string * option exn :=
  match networks with
  | [] => (html, None)
  | (name, rssi) :: rest =>
      match decode env name with
      | inl e => (html, Some e)
      | inr ssid => render_networks rest (html ++ scan_form ssid rssi)
      end
  end.

Definition scan_networks : M string :=
  sta_if_active true ;;
  let html := "<h2>Network Scan</h2><p>Network scan complete.</p><h3>Available Wi-Fi Networks</h3><p>The following wi-fi networks were detected:" in
  html <- try_finally
            (try_except
               (networks <- sta_if_scan ;;
                match render_networks networks html with
                | (html, None) => ret html
                | (html, Some e) => ret (html ++ scan_error e)
                end)
               (fun e => ret (html ++ scan_error e)))
            (sta_if_active false) ;;
  let html := html ++
    cat ["<h3>Information</h3>"; nl;
         "        <p>If the network you want is not listed, click <a href="; dq; "/scan"; dq; ">Rescan</a> to scan again.</p>"; nl;
         "        <p><a href='/'>Go Back</a></p>"; nl;
         "        "] in
  ret (html_template "Goat - Captive Portal" html).

(** *** connect_to_wifi *)

(** The form fields of a request: lines 252-258. *)
Definition form_params (request : string) : gmap string string :=
  let body_start := find (cat [cr; nl; cr; nl]) request + 4 in
  let body := slice_from body_start request in
  fold_left
    (fun (params : gmap string string) kv =>
       if contains "=" kv then
         let (key, value) := split_once "=" kv in
         <[key := replace "%20" " " (replace "+" " " value)]> params
       else params)
    (split "&" body) ∅.

(** The services of the fallback are taken down in one guarded block. *)
Definition stop_fallback_services : M unit :=
  try_except
    (stop_captive_portal_server ;;
     stop_dns ;;
     stop_ap)
    (fun e => print ("Error stopping access point services: " ++ str_exn e)).

(** Parsing the request cannot raise, so [ssid] and [password] are bound
    when the [finally] block reads them. *)
Definition connect_to_wifi (request : string) : M string :=
  let params := form_params request in
  let ssid := default "" (params !! "ssid") in
  let password := default "" (params !! "password") in
  try_finally
    (try_except
       (if truthy ssid && truthy password then
          sta_if_active true ;;
          sta_if_connect ssid password ;;
          await_link ;;
          c <- sta_if_isconnected ;;
          if c then
            ip <- sta_if_ifconfig0 ;;
            modify (set_ip_address (Some ip)) ;;
            let body :=
              cat ["<h2>Connected</h2>"; nl;
                   "                    <p>You successfully connected to "; ssid; ".</p>"; nl;
                   "                    <h2>Information</h2>"; nl;
                   "                    <p>The access point has been shut down and you can now close this page.</p>"] in
            ret (html_template "Goat - Captive Portal" body)
          else
            sta_if_active false ;;
            let body :=
              cat ["<h2>Connection Failed</h2>"; nl;
                   "                    <p>Failed to connect to "; ssid; ".</p>"] in
            ret (html_template "Goat - Captive Portal" body)
        else
          sta_if_active false ;;
          let body :=
            cat ["<h2>Connection Error</h2>"; nl;
                 "                <p>The SSID or password for the wi-fi network was not provided.</p>"] in
          ret (html_template "Goat - Captive Portal" body))
       (fun e =>
          sta_if_active false ;;
          let body :=
            cat ["<h2>Error</h2>"; nl;
                 "            <p>An error occurred: "; str_exn e; "</p>"] in
          ret (html_template "Goat - Captive Portal" body)))
    (c <- sta_if_isconnected ;;
     if c then
       try_except (save_config ssid password)
         (fun e => print ("Error saving network configuration: " ++ str_exn e)) ;;
       stop_fallback_services ;;
       if sta_web_server env then
         try_except sta_web_server_run
           (fun e => print ("Error starting station web server: " ++ str_exn e))
       else ret tt
     else ret tt).

(** *** reconnect_to_wifi *)

Definition reconnect_to_wifi (request : string) : M string :=
  try_finally
    (try_except
       (listing <- uos_listdir config_directory ;;
        if mem config_file listing then
          load_config ;;
          c <- sta_if_isconnected ;;
          if c then
            let body :=
              cat ["<h2>Reconnected</h2>"; nl;
                   "                    <p>You successfully reconnected to your saved network.</p>"; nl;
                   "                    <h2>Information</h2>"; nl;
                   "                    <p>The access point has been shut down and you can now close this page.</p>"] in
            ret (html_template "Goat - Captive Portal" body)
          else
            let body :=
              cat ["<h2>Reconnection Failed</h2>"; nl;
                   "                    <p>Failed to reconnect to your saved network.</p>"] in
            ret (html_template "Goat - Captive Portal" body)
        else
          let body :=
            cat ["<h2>Configuration Error</h2>"; nl;
                 "                <p>There was an error locating your network configuration.<br>"; nl;
                 "                Please try manually reconnecting to the network.</p>"] in
          ret (html_template "Goat - Captive Portal" body))
       (fun e =>
          let body :=
            cat ["<h2>Error</h2>"; nl;
                 "            <p>An error occurred: "; str_exn e; "</p>"] in
          ret (html_template "Goat - Captive Portal" body)))
    (c <- sta_if_isconnected ;;
     if c then stop_fallback_services else ret tt).

(** *** serve_index *)

Definition reconnect_section : string :=
  cat ["<h2>Reconnect To Saved Network</h2>"; nl;
       "            <p>An existing saved wireless network connection is configured for this system.<br>"; nl;
       "            Click the 'Reconnect' button below to attempt to reconnect to your saved network.</p>"; nl;
       "            <p><form action="; dq; "/reconnect"; dq; " method="; dq; "post"; dq; ">"; nl;
       "            <button type="; dq; "submit"; dq; ">Reconnect</button>"; nl;
       "            </form></p>"].

Definition serve_index : M string :=
  let body :=
    cat ["<p>Welcome to the Goat - Captive Portal.<br>"; nl;
         "        Use the portal to connect your Goat device to your wireless network.</p>"] in
  listing <- uos_listdir config_directory ;;
  let body := if mem config_file listing then body ++ reconnect_section else body in
  let body := body ++
    cat ["<h2>Connect To A Network</h2>"; nl;
         "        <p>Click the link below to scan for networks:</p>"; nl;
         "        <p><a href='/scan'>Start Scan</a></p>"] in
  ret (html_template "Goat - Captive Portal" body).

(** *** handle_request *)

(** A call of a method [f] that takes one argument besides [self]:
    with any other number of arguments the call raises before the body of
    [f] runs. *)
Definition call_method1 {A} (f : string -> M A) (args : list string) : M A :=
  match args with
  | [a] => f a
  | _ =>
      raise (Error "TypeError"
               (cat ["function takes 2 positional arguments but ";
                     str_of_int (Z.of_nat (1 + List.length args)); " were given"]))
  end.

(** [reader] is the content the client sent; closing the stream cannot
    fail (uasyncio's [Stream.close] does nothing and [wait_closed] closes
    the socket). *)
Definition handle_request (reader : bytes) : M unit :=
  try_finally
    (try_except
       (ext (ReaderRead 1024) ;;
        let request := firstn 1024 reader in
        request <- lift (decode env request) ;;
        print ("Request: " ++ request) ;;
        response <-
          (if contains "GET /generate_204" request then
             ret (cat ["HTTP/1.1 204 No Content"; cr; nl; cr; nl])
           else if contains "GET /connectivity-check" request then
             ret (cat ["HTTP/1.1 204 No Content"; cr; nl; cr; nl])
           else if contains "GET /hotspot-detect.html" request then
             let response := cat ["HTTP/1.1 200 OK"; cr; nl; "Content-Type: text/html"; cr; nl; cr; nl] in
             ret (response ++ "<HTML><BODY><H1>Success</H1></BODY></HTML>")
           else if contains "GET /success.conf" request then
             let response := cat ["HTTP/1.1 200 OK"; cr; nl; "Content-Type: text/plain"; cr; nl; cr; nl] in
             ret (response ++ "Microsoft Connect Test")
           else if contains "GET /ncsi.conf" request then
             let response := cat ["HTTP/1.1 200 OK"; cr; nl; "Content-Type: text/plain"; cr; nl; cr; nl] in
             ret (response ++ "Microsoft NCSI")
           else if contains "GET /scan" request then
             page <- scan_networks ;;
             ret (cat ["HTTP/1.1 200 OK"; cr; nl; "Content-Type: text/html"; cr; nl; cr; nl] ++ page)
           else if contains "POST /connect" request then
             page <- connect_to_wifi request ;;
             ret (cat ["HTTP/1.1 200 OK"; cr; nl; "Content-Type: text/html"; cr; nl; cr; nl] ++ page)
           else if contains "POST /reconnect" request then
             page <- call_method1 reconnect_to_wifi [] ;;
             ret (cat ["HTTP/1.1 200 OK"; cr; nl; "Content-Type: text/html"; cr; nl; cr; nl] ++ page)
           else
             page <- serve_index ;;
             ret (cat ["HTTP/1.1 200 OK"; cr; nl; "Content-Type: text/html"; cr; nl; cr; nl] ++ page)) ;;
        ext (WriterWrite (encode env response)) ;;
        ext WriterDrain)
       (fun e => print ("Error handling request: " ++ str_exn e)))
    (emit WriterClose ;;
     emit WriterWaitClosed).

(** *** run *)

Fixpoint run_loop (fuel : nat) : M unit :=
  match fuel with
  | O => pending
  | S fuel' =>
      c <- sta_if_isconnected ;;
      (if negb c then
         print "Station disconnected, attempting reconnection..." ;;
         load_config ;;
         c <- sta_if_isconnected ;;
         if negb c then
           print "Switching to AP mode..." ;;
           start_ap ;;
           start_captive_portal_server fuel' ;;
           start_dns fuel'
         else ret tt
       else ret tt) ;;
      c <- sta_if_isconnected ;;
      idle <- (if negb c then a <- ap_if_isconnected ;; ret (negb a) else ret false) ;;
      if (idle : bool) then
        print "No active connections. Rescanning..." ;;
        sleep ;;
        run_loop fuel'
      else
        sleep ;;
        run_loop fuel'
  end.

(** The [finally] block of [run]. *)
Definition run_cleanup : M unit :=
  print "Cleaning up resources..." ;;
  try_except
    ((if sta_web_server env then
        print "Stopping STA web server..." ;;
        ext AppStop
      else ret tt) ;;
     c <- sta_if_isconnected ;;
     (if c then
        print "Disconnecting from WiFi..." ;;
        disconnect_from_wifi
      else ret tt) ;;
     a <- ap_if_isconnected ;;
     if a then
       print "Stopping access point services..." ;;
       stop_dns ;;
       stop_captive_portal_server ;;
       stop_ap
     else ret tt)
    (fun cleanup_error => print ("Error during cleanup: " ++ str_exn cleanup_error)) ;;
  sleep.

Definition run (fuel : nat) : M unit :=
  try_finally
    (try_except
       (print ("Goat - Network Manager Version " ++ VERSION) ;;
        ext (Hostname (hostname env)) ;;
        load_config ;;
        run_loop fuel)
       (fun e => print ("Error in network manager: " ++ str_exn e)))
    run_cleanup.

End Firmware.

(** ** Reference environments

    Concrete library functions and concrete devices on which the embedding
    can be run: an ASCII codec, dotted-quad address parsing, and a device
    that holds a saved network which never answers. *)

Definition ascii_decode (b : bytes) : exn + string :=
  if forallb (fun x => N.ltb (Byte.to_N x) 128) b
  then inr (string_of_list_byte b)
  else inl (Error "UnicodeError" "").

Definition ascii_encode (s : string) : bytes := list_byte_of_string s.

Fixpoint parse_decimal (acc : N) (s : string) : option N :=
  match s with
  | EmptyString => Some acc
  | String c t =>
      let d := N_of_ascii c in
      if (N.leb 48 d && N.leb d 57)%bool
      then parse_decimal (acc * 10 + (d - 48))%N t
      else None
  end.

Definition parse_octet (s : string) : option byte :=
  match s with
  | EmptyString => None
  | _ => match parse_decimal 0%N s with
         | Some n => Byte.of_N n
         | None => None
         end
  end.

Definition dotted_quad (s : string) : exn + bytes :=
  match map parse_octet (split "." s) with
  | [Some a; Some b; Some c; Some d] => inr [a; b; c; d]
  | _ => inl (OSError 22 "EINVAL")
  end.

(** A device with the given access-point password, with or without a
    station web server, and with the given failing calls. *)
Definition device (password : string) (web : bool) (faults : Op -> option exn) : Env :=
  {| ap_ssid := "Goat - Captive Portal";
     ap_password := password;
     hostname := "PicoW";
     sta_web_server := web;
     decode := ascii_decode;
     encode := ascii_encode;
     inet_aton := dotted_quad;
     fault := faults;
     files := ["network_config.conf"];
     stored_ssid := "home";
     stored_password := "secret";
     link_up := fun _ => false;
     sta_ip := "192.168.1.23";
     scan_result := [] |}.

(** The constructor defaults, nothing failing. *)
Definition env0 : Env := device "password" false (fun _ => None).

(** An access-point password that is too short. *)
Definition env_short_password : Env := device "goat" false (fun _ => None).

(** Stopping the station web server fails. *)
Definition env_app_stop_fails : Env :=
  device "password" true
    (fun op => match op with
               | AppStop => Some (Error "RuntimeError" "server busy")
               | _ => None
               end).

(** The client resets the connection before the request is read, or
    before the response is written. *)
Definition env_read_fails : Env :=
  device "password" false
    (fun op => match op with
               | ReaderRead _ => Some (OSError 104 "ECONNRESET")
               | _ => None
               end).

Definition env_write_fails : Env :=
  device "password" false
    (fun op => match op with
               | WriterWrite _ => Some (OSError 104 "ECONNRESET")
               | _ => None
               end).

(** The configuration directory does not exist. *)
Definition env_nodir : Env :=
  device "password" false
    (fun op => match op with
               | Listdir _ => Some (OSError 2 "ENOENT")
               | _ => None
               end).

(** The device after boot: both interfaces down, nothing started. *)
Definition boot : State :=
  {| sta_active := false; sta_connected := false;
     ap_active := false; ap_connected := false;
     ap_essid := ""; ap_key := "";
     ap_netcfg := ("0.0.0.0", "0.0.0.0", "0.0.0.0", "0.0.0.0");
     ip_address := None; server := None; udp_server := false;
     attempts := O; rx := []; tx := []; trace := [] |}.

(** The station interface is active, as it is while a connection attempt
    waits for its link. *)
Definition station_up : State := set_sta true false boot.

(** The device is connected as a station and serves its application. *)
Definition station_online : State :=
  set_server (Some AppServer)
    (set_ip_address (Some "192.168.1.23") (set_sta true true boot)).

(** The DNS socket is bound; [incoming] and [outgoing] say what the next
    calls on it meet. *)
Definition dns_listening (incoming : list Rx) (outgoing : list (option exn)) : State :=
  set_tx outgoing (set_rx incoming (set_udp_server true boot)).

Definition two_blocks : list exn := [OSError 11 "EAGAIN"; OSError 11 "EAGAIN"].

Definition client : addr := ("192.168.4.16", 50123).

(** A query for the A record of [www.ab], transaction id 12 34. *)
Definition query_www : bytes :=
  [x12; x34; x01; x00; x00; x01; x00; x00; x00; x00; x00; x00;
   x03; x77; x77; x77; x02; x61; x62; x00; x00; x01; x00; x01].

(** The same query cut off inside its name. *)
Definition query_cut : bytes := firstn 15 query_www.

(** Requests as a browser sends them. *)
Definition connect_request : string :=
  cat ["POST /connect HTTP/1.1"; cr; nl;
       "Content-Type: application/x-www-form-urlencoded"; cr; nl;
       cr; nl;
       "ssid=My+Wifi&password=pa%20ss"].

Definition request_without_password : string :=
  cat ["POST /connect HTTP/1.1"; cr; nl; cr; nl; "ssid=home"].

Definition reconnect_request : string :=
  cat ["POST /reconnect HTTP/1.1"; cr; nl; "Host: 192.168.4.1"; cr; nl; cr; nl].

Definition probe_request : string :=
  cat ["GET /generate_204 HTTP/1.1"; cr; nl; cr; nl].

(** ** Form decoding as the specification words it

    The body begins after the first blank line; pairs are separated by
    [&]; a pair is split at its first [=]; in a value every [+] and every
    [%20] stands for a space, in one pass from the left. *)

Fixpoint spec_body (request : string) : option string :=
  match request with
  | EmptyString => None
  | String _ t =>
      if String.prefix (cat [cr; nl; cr; nl]) request
      then Some (drop 4 request)
      else spec_body t
  end.

Fixpoint spec_unescape (value : string) : string :=
  match value with
  | EmptyString => EmptyString
  | String c t =>
      if Ascii.eqb c "+" then String " " (spec_unescape t)
      else match t with
           | String c1 (String c2 t') =>
               if (Ascii.eqb c "%" && Ascii.eqb c1 "2" && Ascii.eqb c2 "0")%bool
               then String " " (spec_unescape t')
               else String c (spec_unescape t)
           | _ => String c (spec_unescape t)
           end
  end.

(** The first [=] of a pair, if it has one. *)
Fixpoint spec_pair (kv : string) : option (string * string) :=
  match kv with
  | EmptyString => None
  | String c t =>
      if Ascii.eqb c "=" then Some (EmptyString, t)
      else match spec_pair t with
           | Some (k, v) => Some (String c k, v)
           | None => None
           end
  end.

Definition spec_fields (body : string) : gmap string string :=
  fold_left
    (fun (fields : gmap string string) kv =>
       match spec_pair kv with
       | Some (k, v) => <[k := spec_unescape v]> fields
       | None => fields
       end)
    (split "&" body) ∅.

(** What the first of the two [replace] calls computes, character by
    character. *)
Fixpoint plus_to_space (s : string) : string :=
  match s with
  | EmptyString => EmptyString
  | String c t => String (if Ascii.eqb c "+" then " "%char else c) (plus_to_space t)
  end.

(** ** Vocabulary of the properties *)

(** The computation ends (it returns or raises) in every state, it only
    adds to the trace, and what it adds satisfies [P]. *)
Definition ends_with {A} (P : list Event -> Prop) (m : M A) : Prop :=
  forall s, exists r s' t,
    m s = (r, s') /\ r <> Pending /\ trace s' = (trace s ++ t)%list /\ P t.

Definition any_trace : list Event -> Prop := fun _ => True.

Abbreviation ends m := (ends_with any_trace m).

(** The stop steps of the shutdown, numbered in the order of the
    specification: Application Server, station disconnect, DNS Redirector,
    captive-portal listener, Access Point. *)
Definition stop_rank (ev : Event) : option nat :=
  match ev with
  | Call AppStop => Some 1%nat
  | Call (StaActive false) | Call StaDeinit => Some 2%nat
  | SockClose => Some 3%nat
  | Call ServerClose | Call ServerWaitClosed => Some 4%nat
  | Call (ApConfig _ _) | Call (ApActive false) | Call ApDeinit => Some 5%nat
  | _ => None
  end.

Fixpoint ranks (t : list Event) : list nat :=
  match t with
  | [] => []
  | ev :: t' =>
      match stop_rank ev with
      | Some k => k :: ranks t'
      | None => ranks t'
      end
  end.

(** [l] never decreases and starts at [lo] or above. *)
Fixpoint sorted_from (lo : nat) (l : list nat) : bool :=
  match l with
  | [] => true
  | k :: l' => (lo <=? k)%nat && sorted_from k l'
  end.

(** The stop steps in [t] occur in the order of their numbers, all of them
    between [lo] and [hi]. *)
Definition in_stop_order (lo hi : nat) (t : list Event) : Prop :=
  sorted_from lo (ranks t) = true /\ Forall (fun k => (k <= hi)%nat) (ranks t).

(** The station interface, and everything the fallback services own. *)
Definition station (s : State) : bool * bool := (sta_active s, sta_connected s).

Definition services (s : State)
  : bool * bool * string * string * netcfg * option string * option Handle * bool :=
  (ap_active s, ap_connected s, ap_essid s, ap_key s, ap_netcfg s,
   ip_address s, server s, udp_server s).

(** A device on which no call fails, which holds a saved network that
    never answers, and whose access-point password is long enough. *)
Record out_of_reach (env : Env) : Prop := {
  no_fault : forall op, fault env op = None;
  saved_file : mem config_file (files env) = true;
  saved_ssid : truthy (stored_ssid env) = true;
  no_link : forall n, link_up env n = false;
  long_password : (8 <= String.length (ap_password env))%nat
}.

(** The routes that [handle_request] tries before [POST /reconnect]. *)
Definition routes_before_reconnect : list string :=
  ["GET /generate_204"; "GET /connectivity-check"; "GET /hotspot-detect.html";
   "GET /success.conf"; "GET /ncsi.conf"; "GET /scan"; "POST /connect"].

(** The credentials that [connect_to_wifi] reads from a request, and what
    it takes for one of them to be missing: the field is absent or empty. *)
Definition form_ssid (request : string) : string :=
  default "" (form_params request !! "ssid").

Definition form_password (request : string) : string :=
  default "" (form_params request !! "password").

Definition missing_credentials (request : string) : Prop :=
  form_ssid request = "" \/ form_password request = "".

Definition connection_error_page : string :=
  html_template "Goat - Captive Portal"
    (cat ["<h2>Connection Error</h2>"; nl;
          "                <p>The SSID or password for the wi-fi network was not provided.</p>"]).

(** The two parts of the index page that the properties look for, and the
    page with and without the reconnect section. *)
Definition scan_link : string := "<a href='/scan'>Start Scan</a>".

Definition reconnect_form : string :=
  cat ["<form action="; dq; "/reconnect"; dq; " method="; dq; "post"; dq; ">"].

Definition index_page (saved : bool) : string :=
  html_template "Goat - Captive Portal"
    (cat ["<p>Welcome to the Goat - Captive Portal.<br>"; nl;
          "        Use the portal to connect your Goat device to your wireless network.</p>";
          if saved then reconnect_section else "";
          "<h2>Connect To A Network</h2>"; nl;
          "        <p>Click the link below to scan for networks:</p>"; nl;
          "        <p><a href='/scan'>Start Scan</a></p>"]).

(** ** Further vocabulary *)

(** The state [s] with [t] added to its trace and nothing else changed. *)
Definition append_trace (t : list Event) (s : State) : State :=
  {| sta_active := sta_active s; sta_connected := sta_connected s;
     ap_active := ap_active s; ap_connected := ap_connected s;
     ap_essid := ap_essid s; ap_key := ap_key s; ap_netcfg := ap_netcfg s;
     ip_address := ip_address s; server := server s;
     udp_server := udp_server s; attempts := attempts s;
     rx := rx s; tx := tx s; trace := (trace s ++ t)%list |}.

(** The device [env] with another answer to its connection attempts. *)
Definition with_link (up : nat -> bool) (env : Env) : Env :=
  {| ap_ssid := ap_ssid env;
     ap_password := ap_password env;
     hostname := hostname env;
     sta_web_server := sta_web_server env;
     decode := decode env;
     encode := encode env;
     inet_aton := inet_aton env;
     fault := fault env;
     files := files env;
     stored_ssid := stored_ssid env;
     stored_password := stored_password env;
     link_up := up;
     sta_ip := sta_ip env;
     scan_result := scan_result env |}.

(** The saved network answers at once; and with a station web server. *)
Definition env_home : Env := with_link (fun _ => true) env0.

Definition env_home_web : Env :=
  with_link (fun _ => true) (device "password" true (fun _ => None)).

(** The probe routes of [handle_request] with their fixed responses, in
    the order in which the handler tries them (lines 173-185). *)
Definition probe_routes : list (string * string) :=
  [("GET /generate_204", cat ["HTTP/1.1 204 No Content"; cr; nl; cr; nl]);
   ("GET /connectivity-check", cat ["HTTP/1.1 204 No Content"; cr; nl; cr; nl]);
   ("GET /hotspot-detect.html",
    cat ["HTTP/1.1 200 OK"; cr; nl; "Content-Type: text/html"; cr; nl; cr; nl;
         "<HTML><BODY><H1>Success</H1></BODY></HTML>"]);
   ("GET /success.conf",
    cat ["HTTP/1.1 200 OK"; cr; nl; "Content-Type: text/plain"; cr; nl; cr; nl;
         "Microsoft Connect Test"]);
   ("GET /ncsi.conf",
    cat ["HTTP/1.1 200 OK"; cr; nl; "Content-Type: text/plain"; cr; nl; cr; nl;
         "Microsoft NCSI"])].

(** The response of the first route of the table whose text occurs in the
    request. *)
Fixpoint first_route (routes : list (string * string)) (request : string)
  : option string :=
  match routes with
  | [] => None
  | (route, response) :: rest =>
      if contains route request then Some response else first_route rest request
  end.

(** The action routes, tried after the probes. *)
Definition action_routes : list string :=
  ["GET /scan"; "POST /connect"; "POST /reconnect"].

Definition html_header : string :=
  cat ["HTTP/1.1 200 OK"; cr; nl; "Content-Type: text/html"; cr; nl; cr; nl].

(** A probe that also names a later route. *)
Definition probe_with_connect_request : string :=
  cat ["GET /generate_204?next=POST /connect HTTP/1.1"; cr; nl; cr; nl].

Definition index_request : string :=
  cat ["GET / HTTP/1.1"; cr; nl; cr; nl].

(** The scan page around its listing (lines 226 and 243-247). *)
Definition scan_intro : string :=
  "<h2>Network Scan</h2><p>Network scan complete.</p><h3>Available Wi-Fi Networks</h3><p>The following wi-fi networks were detected:".

Definition scan_footer : string :=
  cat ["<h3>Information</h3>"; nl;
       "        <p>If the network you want is not listed, click <a href="; dq; "/scan"; dq; ">Rescan</a> to scan again.</p>"; nl;
       "        <p><a href='/'>Go Back</a></p>"; nl;
       "        "].

Definition scan_page (listing : string) : string :=
  html_template "Goat - Captive Portal" ((scan_intro ++ listing) ++ scan_footer).

(** A device that sees two networks. *)
Definition env_two_networks : Env :=
  {| ap_ssid := "Goat - Captive Portal";
     ap_password := "password";
     hostname := "PicoW";
     sta_web_server := false;
     decode := ascii_decode;
     encode := ascii_encode;
     inet_aton := dotted_quad;
     fault := fun _ => None;
     files := [];
     stored_ssid := "";
     stored_password := "";
     link_up := fun _ => false;
     sta_ip := "192.168.1.23";
     scan_result := [(ascii_encode "home", -52); (ascii_encode "cafe", -80)] |}.

(** The scan itself fails. *)
Definition env_scan_fails : Env :=
  device "password" false
    (fun op => match op with
               | StaScan => Some (OSError 16 "EBUSY")
               | _ => None
               end).

(** The result pages of [connect_to_wifi] (lines 273-282). *)
Definition connected_page (ssid : string) : string :=
  html_template "Goat - Captive Portal"
    (cat ["<h2>Connected</h2>"; nl;
          "                    <p>You successfully connected to "; ssid; ".</p>"; nl;
          "                    <h2>Information</h2>"; nl;
          "                    <p>The access point has been shut down and you can now close this page.</p>"]).

Definition connection_failed_page (ssid : string) : string :=
  html_template "Goat - Captive Portal"
    (cat ["<h2>Connection Failed</h2>"; nl;
          "                    <p>Failed to connect to "; ssid; ".</p>"]).

(** The portal is up and a client has joined it: access point active with
    its fixed address, listener and DNS socket in place. *)
Definition portal_serving : State :=
  {| sta_active := false; sta_connected := false;
     ap_active := true; ap_connected := true;
     ap_essid := "Goat - Captive Portal"; ap_key := "password";
     ap_netcfg := ("192.168.4.1", "255.255.255.0", "192.168.4.1", "192.168.4.1");
     ip_address := Some "192.168.4.1"; server := Some PortalListener;
     udp_server := true;
     attempts := 6; rx := []; tx := []; trace := [] |}.

(** The result pages of [reconnect_to_wifi] (lines 327-334). *)
Definition reconnection_failed_page : string :=
  html_template "Goat - Captive Portal"
    (cat ["<h2>Reconnection Failed</h2>"; nl;
          "                    <p>Failed to reconnect to your saved network.</p>"]).

Definition configuration_error_page : string :=
  html_template "Goat - Captive Portal"
    (cat ["<h2>Configuration Error</h2>"; nl;
          "                <p>There was an error locating your network configuration.<br>"; nl;
          "                Please try manually reconnecting to the network.</p>"]).

(** A device without a saved network. *)
Definition env_fresh : Env :=
  {| ap_ssid := "Goat - Captive Portal";
     ap_password := "password";
     hostname := "PicoW";
     sta_web_server := false;
     decode := ascii_decode;
     encode := ascii_encode;
     inet_aton := dotted_quad;
     fault := fun _ => None;
     files := ["boot.py"; "main.py"];
     stored_ssid := "";
     stored_password := "";
     link_up := fun _ => false;
     sta_ip := "192.168.1.23";
     scan_result := [] |}.

(** The wire form of a domain name: every label behind one byte that holds
    its length, and a zero byte at the end. *)
Definition length_byte (n : nat) : byte := default x00 (Byte.of_N (N.of_nat n)).

Definition wire_name (labels : list bytes) : bytes :=
  (flat_map (fun l => length_byte (List.length l) :: l) labels ++ [x00])%list.

(** The body of the loop of [start_dns] (lines 476-483). *)
Definition dns_round (env : Env) (fuel : nat) : M unit :=
  try_except
    (r <- _receive_from fuel ;;
     let (data, a) := r in
     match data with
     | [] => ret tt
     | _ :: _ =>
         print (cat ["DNS query received from ('"; fst a; "', ";
                     str_of_int (snd a); ")"]) ;;
         response <- handle_dns_query env data ;;
         _send_to fuel response a
     end)
    (fun e => print ("Error handling DNS query: " ++ str_exn e)).

(** The datagrams sent, in the order of their sending. *)
Fixpoint sends (t : list Event) : list (bytes * addr) :=
  match t with
  | [] => []
  | SockSendto data a :: t' => (data, a) :: sends t'
  | _ :: t' => sends t'
  end.

(** What [handle_dns_query] returns for a datagram. *)
Definition answer_of (env : Env) (data : bytes) : bytes :=
  match fst (handle_dns_query env data boot) with
  | Ret response => response
  | _ => []
  end.

(** [if data:] for a byte string. *)
Definition nonempty (data : bytes) : bool :=
  match data with
  | [] => false
  | _ :: _ => true
  end.

(** The socket cannot be bound. *)
Definition env_bind_fails : Env :=
  device "password" false
    (fun op => match op with
               | SockBind _ => Some (OSError 98 "EADDRINUSE")
               | _ => None
               end).

(** A configuration file that holds no SSID. *)
Definition env_empty_ssid : Env :=
  {| ap_ssid := "Goat - Captive Portal";
     ap_password := "password";
     hostname := "PicoW";
     sta_web_server := false;
     decode := ascii_decode;
     encode := ascii_encode;
     inet_aton := dotted_quad;
     fault := fun _ => None;
     files := ["network_config.conf"];
     stored_ssid := "";
     stored_password := "";
     link_up := fun _ => false;
     sta_ip := "192.168.1.23";
     scan_result := [] |}.

(** The saved network answers the second attempt. *)
Definition env_second_attempt : Env := with_link (fun n => Nat.eqb n 2) env0.

(** The port of the listener is taken. *)
Definition env_listen_fails : Env :=
  device "password" false
    (fun op => match op with
               | StartServer _ _ => Some (OSError 98 "EADDRINUSE")
               | _ => None
               end).

(** The access point is up, nobody has joined it. *)
Definition ap_waiting : State :=
  set_ip_address (Some "192.168.4.1") (set_ap true false boot).

(** A name in wire form and what follows it in a query. *)
Definition labels_www : list bytes := [[x77; x77; x77]; [x61; x62]].

Definition question_tail : bytes := [x00; x01; x00; x01].

(** Two datagrams wait on the socket, the second one empty. *)
Definition two_datagrams : list (bytes * addr) := [(query_www, client); ([], client)].

Definition datagrams_waiting : State :=
  set_rx (map (fun q => RxData (fst q) (snd q)) two_datagrams) boot.

(** * Properties *)

(** ** Python built-ins *)

Example find_present : find "lo" "hello" = 3.
Proof. reflexivity. Qed.

Example find_absent : find "xy" "hello" = -1.
Proof. reflexivity. Qed.

Example split_amp : split "&" "a=1&&b" = ["a=1"; ""; "b"].
Proof. reflexivity. Qed.

Example replace_pct : replace "%20" " " "a%20%20b%2" = "a  b%2".
Proof. reflexivity. Qed.

Lemma split_nonempty (c : ascii) (s : string) : exists h r, split c s = h :: r.
Proof.
  destruct s as [| a t]; cbn [split]; [eauto |].
  destruct (Ascii.eqb a c); [eauto |]. destruct (split c t); eauto.
Qed.

Lemma split_join (c : ascii) (s : string) : join c (split c s) = s.
Proof.
  induction s as [| a t IH]; [reflexivity |].
  cbn [split]. destruct (split_nonempty c t) as (h & r & E). rewrite E in *.
  destruct (Ascii.eqb_spec a c) as [-> | Hne].
  - change (join c (EmptyString :: h :: r)) with (String c (join c (h :: r))).
    now rewrite IH.
  - rewrite <- IH. destruct r; reflexivity.
Qed.

(** ** Runs of the embedding *)

Example dns_query_answered :
  fst (handle_dns_query env0 query_www boot)
  = Ret [x12; x34; x81; x80; x00; x01; x00; x01; x00; x00; x00; x00;
         x03; x77; x77; x77; x02; x61; x62; x00; x00; x01; x00; x01;
         xc0; x0c; x00; x01; x00; x01; x00; x00; x00; x3c; x00; x04;
         xc0; xa8; x04; x01].
Proof. reflexivity. Qed.

Example dns_query_cut_dropped :
  handle_dns_query env0 query_cut boot
  = (Ret [], log (Print "Error handling DNS query: bytes index out of range") boot).
Proof. reflexivity. Qed.

Example dns_query_header_only_dropped :
  fst (handle_dns_query env0 (firstn 12 query_www) boot) = Ret [].
Proof. reflexivity. Qed.

Example probe_answered :
  trace (snd (handle_request env0 (ascii_encode probe_request) boot))
  = [Call (ReaderRead 1024);
     Print ("Request: " ++ probe_request);
     Call (WriterWrite (ascii_encode (cat ["HTTP/1.1 204 No Content"; cr; nl; cr; nl])));
     Call WriterDrain; WriterClose; WriterWaitClosed].
Proof. reflexivity. Qed.

Example read_failure_closes :
  handle_request env_read_fails (ascii_encode probe_request) boot
  = (Ret tt,
     log WriterWaitClosed
       (log WriterClose
          (log (Print "Error handling request: ECONNRESET")
             (log (Call (ReaderRead 1024)) boot)))).
Proof. reflexivity. Qed.

Example write_failure_closes :
  fst (handle_request env_write_fails (ascii_encode probe_request) boot) = Ret tt
  /\ skipn 3 (trace (snd (handle_request env_write_fails (ascii_encode probe_request) boot)))
     = [Print "Error handling request: ECONNRESET"; WriterClose; WriterWaitClosed].
Proof. split; reflexivity. Qed.

Example fallback_after_one_round :
  let s := snd (run env0 1 boot) in
  (fst (run env0 1 boot), sta_active s, ap_active s, ip_address s, server s, udp_server s)
  = (Pending, false, true, Some "192.168.4.1", Some PortalListener, false).
Proof. reflexivity. Qed.

(** ** Access point start *)

(** C4. With an access-point password shorter than 8 characters [start_ap]
    returns normally after printing its message and changes nothing else:
    the state after the call is the state before it with that one line
    added to the trace, so no call reaches the AP interface, its
    configuration and the stored IP address are as before, and nothing is
    raised. *)
Theorem start_ap_short_password (env : Env) (s : State) :
  (String.length (ap_password env) < 8)%nat ->
  start_ap env s
    = (Ret tt, log (Print "Password must be at least 8 characters long.") s)
  /\ (let s' := snd (start_ap env s) in
      ap_active s' = ap_active s
      /\ ap_essid s' = ap_essid s /\ ap_key s' = ap_key s
      /\ ap_netcfg s' = ap_netcfg s
      /\ ip_address s' = ip_address s
      /\ forall op, ~ In (Call op) (skipn (List.length (trace s)) (trace s'))).
Proof.
  intros Hshort.
  assert (E : start_ap env s
              = (Ret tt, log (Print "Password must be at least 8 characters long.") s)).
  { unfold start_ap.
    destruct (Nat.ltb_spec (String.length (ap_password env)) 8) as [_ | Hge];
      [reflexivity | lia]. }
  split; [exact E |].
  rewrite E. cbn [snd log trace ap_active ap_essid ap_key ap_netcfg ip_address].
  repeat split.
  intros op.
  rewrite skipn_app, skipn_all, Nat.sub_diag. cbn.
  intros [H | []]. discriminate H.
Qed.

Lemma start_ap_short_password_witness :
  (String.length (ap_password env_short_password) < 8)%nat
  /\ start_ap env_short_password boot
     = (Ret tt, log (Print "Password must be at least 8 characters long.") boot).
Proof.
  split.
  - cbn. lia.
  - apply (start_ap_short_password env_short_password boot). cbn. lia.
Defined.

(** ** DNS redirector *)

(** The label loop is pure: it reads no state and leaves it as it is. *)
Lemma decode_labels_state (env : Env) (fuel : nat) :
  forall rest s, snd (decode_labels env fuel rest s) = s.
Proof.
  induction fuel as [| fuel IH]; intros [| len after] s; cbn; try reflexivity.
  - destruct (N.eqb (Byte.to_N len) 0); reflexivity.
  - destruct (N.eqb (Byte.to_N len) 0); [reflexivity |].
    unfold bind, lift.
    destruct (decode env _) as [e | part]; cbn; [reflexivity |].
    specialize (IH (skipn (N.to_nat (Byte.to_N len)) after) s).
    destruct (decode_labels env fuel _ s) as [[parts | e | ] s1]; cbn in *;
      congruence.
Qed.

(** With the length of the section as fuel the label loop always ends. *)
Lemma decode_labels_ends (env : Env) (fuel : nat) :
  forall rest s, (List.length rest <= fuel)%nat ->
    fst (decode_labels env fuel rest s) <> Pending.
Proof.
  induction fuel as [| fuel IH]; intros [| len after] s Hlen; cbn in *;
    try discriminate; try lia.
  destruct (N.eqb (Byte.to_N len) 0); [discriminate |].
  unfold bind, lift.
  destruct (decode env _) as [e | part]; cbn; [discriminate |].
  assert (Hskip : (List.length (skipn (N.to_nat (Byte.to_N len)) after) <= fuel)%nat).
  { rewrite length_skipn. lia. }
  specialize (IH _ s Hskip).
  destruct (decode_labels env fuel _ s) as [[parts | e | ] s1]; cbn in *;
    try discriminate. congruence.
Qed.

Lemma decode_domain_name_ends (env : Env) (section : bytes) (s : State) :
  fst (_decode_domain_name env section s) <> Pending.
Proof.
  unfold _decode_domain_name, bind.
  pose proof (decode_labels_ends env (List.length section) section s (le_n _)) as H.
  destruct (decode_labels env _ section s) as [[parts | e | ] s1]; cbn in *;
    try discriminate. congruence.
Qed.

Lemma decode_domain_name_empty (env : Env) (s : State) :
  exists e, _decode_domain_name env [] s = (Raise e, s).
Proof. eexists. reflexivity. Qed.

(** C3. The answer of [handle_dns_query], for every datagram.  When the
    name of the query decodes and the portal address converts to its 4
    bytes, the datagram has a full header and the answer is exactly:
    bytes 0-1 of the query, 81 80, bytes 4-5 of the query, 00 01, 00 00,
    00 00, every byte of the query from offset 12 on, C0 0C, 00 01, 00 01,
    00 00 00 3C, 00 04 and the 4 address bytes.  When decoding or the
    conversion raises, the answer is the empty byte string.  The call
    always returns. *)
Theorem handle_dns_query_answer (env : Env) (data : bytes) (s : State) :
  (forall ip, inet_aton env dns_ip = inr ip -> List.length ip = 4%nat) ->
  match fst (_decode_domain_name env (skipn 12 data) s), inet_aton env dns_ip with
  | Ret _, inr ip =>
      exists t0 t1 n0 n1 a b c d,
        firstn 2 data = [t0; t1] /\ bslice 4 6 data = [n0; n1]
        /\ ip = [a; b; c; d]
        /\ fst (handle_dns_query env data s)
           = Ret ([t0; t1; x81; x80; n0; n1; x00; x01; x00; x00; x00; x00]
                  ++ skipn 12 data
                  ++ [xc0; x0c; x00; x01; x00; x01; x00; x00; x00; x3c;
                      x00; x04; a; b; c; d])%list
  | Pending, _ => False
  | _, _ => fst (handle_dns_query env data s) = Ret []
  end.
Proof.
  intros Hip.
  pose proof (decode_domain_name_ends env (skipn 12 data) s) as Hends.
  unfold handle_dns_query, try_except, bind.
  destruct (_decode_domain_name env (skipn 12 data) s) as [[name | e | ] s1] eqn:Hdec;
    cbn [fst] in *; [| | congruence].
  - (* the name decodes: the datagram is longer than its header *)
    assert (Hlong : exists t0 t1 b2 b3 n0 n1 b6 b7 b8 b9 b10 b11 q,
               data = ([t0; t1; b2; b3; n0; n1; b6; b7; b8; b9; b10; b11] ++ q)%list).
    { do 12 (destruct data as [| ? data];
             [destruct (decode_domain_name_empty env s) as [e He];
              cbn [skipn] in Hdec; rewrite He in Hdec; discriminate |]).
      repeat eexists. }
    destruct Hlong as (t0 & t1 & b2 & b3 & n0 & n1 & b6 & b7 & b8 & b9 & b10 & b11 & q & ->).
    cbn [skipn app firstn bslice Nat.sub] in *.
    unfold print, emit, modify, lift.
    destruct (inet_aton env dns_ip) as [e | ip] eqn:Haton.
    + reflexivity.
    + specialize (Hip ip eq_refl).
      destruct ip as [| a [| b [| c [| d [| ? ?]]]]]; try discriminate Hip.
      exists t0, t1, n0, n1, a, b, c, d. repeat split.
  - (* decoding raises *)
    destruct (inet_aton env dns_ip); reflexivity.
Qed.

Lemma handle_dns_query_answer_witness :
  (forall ip, inet_aton env0 dns_ip = inr ip -> List.length ip = 4%nat)
  /\ exists t0 t1 n0 n1 a b c d,
       firstn 2 query_www = [t0; t1] /\ bslice 4 6 query_www = [n0; n1]
       /\ [xc0; xa8; x04; x01] = [a; b; c; d]
       /\ fst (handle_dns_query env0 query_www boot)
          = Ret ([t0; t1; x81; x80; n0; n1; x00; x01; x00; x00; x00; x00]
                 ++ skipn 12 query_www
                 ++ [xc0; x0c; x00; x01; x00; x01; x00; x00; x00; x3c;
                     x00; x04; a; b; c; d])%list.
Proof.
  assert (H : forall ip, inet_aton env0 dns_ip = inr ip -> List.length ip = 4%nat).
  { intros ip E. vm_compute in E. injection E as <-. reflexivity. }
  split; [exact H |].
  exact (handle_dns_query_answer env0 query_www boot H).
Defined.

(** *** The socket wrappers *)

Lemma receive_from_step (fuel : nat) (s : State) (o : Rx) (rest : list Rx) :
  udp_server s = true -> rx s = o :: rest ->
  _receive_from (S fuel) s =
    match o with
    | RxData d a => (Ret (d, a), set_rx rest (log SockRecvfrom s))
    | RxErr e =>
        if is_eagain e
        then _receive_from fuel (log Sleep (set_rx rest (log SockRecvfrom s)))
        else (Raise e, set_rx rest (log SockRecvfrom s))
    end.
Proof.
  intros Hsock Hrx. cbn [_receive_from].
  unfold try_except, bind, recvfrom. rewrite Hsock, Hrx.
  destruct o as [d a | e]; [reflexivity |].
  unfold on_would_block. destruct (is_eagain e); reflexivity.
Qed.

Lemma send_to_step (fuel : nat) (s : State) (data : bytes) (a : addr)
    (o : option exn) (rest : list (option exn)) :
  udp_server s = true -> tx s = o :: rest ->
  _send_to (S fuel) data a s =
    match o with
    | None => (Ret tt, set_tx rest (log (SockSendto data a) s))
    | Some e =>
        if is_eagain e
        then _send_to fuel data a (log Sleep (set_tx rest s))
        else (Raise e, set_tx rest s)
    end.
Proof.
  intros Hsock Htx. cbn [_send_to].
  unfold try_except, sendto. rewrite Hsock, Htx.
  destruct o as [e |]; [| reflexivity].
  unfold on_would_block. destruct (is_eagain e); reflexivity.
Qed.

Lemma receive_from_retries (blocked : list exn) :
  forall fuel s o rest,
    udp_server s = true ->
    forallb is_eagain blocked = true ->
    (List.length blocked < fuel)%nat ->
    rx s = (map RxErr blocked ++ o :: rest)%list ->
    match o with RxData _ _ => true | RxErr e => negb (is_eagain e) end = true ->
    exists s',
      _receive_from fuel s
        = (match o with RxData d a => Ret (d, a) | RxErr e => Raise e end, s')
      /\ rx s' = rest
      /\ trace s' = (trace s ++ flat_map (fun _ => [SockRecvfrom; Sleep]) blocked
                     ++ [SockRecvfrom])%list.
Proof.
  induction blocked as [| e blocked IH]; intros fuel s o rest Hsock Hall Hfuel Hrx Ho;
    (destruct fuel as [| fuel]; [cbn in Hfuel; lia |]).
  - rewrite (receive_from_step fuel s o rest Hsock Hrx).
    destruct o as [d a | e].
    + eexists. repeat split.
    + apply negb_true_iff in Ho. rewrite Ho. eexists. repeat split.
  - cbn [forallb] in Hall. apply andb_true_iff in Hall as [He Hall].
    cbn [map app] in Hrx.
    rewrite (receive_from_step fuel s (RxErr e) _ Hsock Hrx), He.
    destruct (IH fuel (log Sleep (set_rx (map RxErr blocked ++ o :: rest)%list
                                    (log SockRecvfrom s))) o rest)
      as (s' & Hrun & Hrest & Htrace); try assumption; try reflexivity.
    { cbn in Hfuel. lia. }
    exists s'. repeat split; try assumption.
    rewrite Htrace. cbn [trace log set_rx flat_map app].
    rewrite <- !app_assoc. reflexivity.
Qed.

Lemma send_to_retries (data : bytes) (a : addr) (blocked : list exn) :
  forall fuel s o rest,
    udp_server s = true ->
    forallb is_eagain blocked = true ->
    (List.length blocked < fuel)%nat ->
    tx s = (map Some blocked ++ o :: rest)%list ->
    match o with None => true | Some e => negb (is_eagain e) end = true ->
    exists s',
      _send_to fuel data a s
        = (match o with None => Ret tt | Some e => Raise e end, s')
      /\ tx s' = rest
      /\ trace s' = (trace s ++ map (fun _ => Sleep) blocked
                     ++ match o with None => [SockSendto data a] | Some _ => [] end)%list.
Proof.
  induction blocked as [| e blocked IH]; intros fuel s o rest Hsock Hall Hfuel Htx Ho;
    (destruct fuel as [| fuel]; [cbn in Hfuel; lia |]).
  - rewrite (send_to_step fuel s data a o rest Hsock Htx).
    destruct o as [e |].
    + apply negb_true_iff in Ho. rewrite Ho. eexists. repeat split.
      cbn. rewrite app_nil_r. reflexivity.
    + eexists. repeat split.
  - cbn [forallb] in Hall. apply andb_true_iff in Hall as [He Hall].
    cbn [map app] in Htx.
    rewrite (send_to_step fuel s data a (Some e) _ Hsock Htx), He.
    destruct (IH fuel (log Sleep (set_tx (map Some blocked ++ o :: rest)%list s)) o rest)
      as (s' & Hrun & Hrest & Htrace); try assumption; try reflexivity.
    { cbn in Hfuel. lia. }
    exists s'. repeat split; try assumption.
    rewrite Htrace. cbn [trace log set_tx map app].
    rewrite <- !app_assoc. reflexivity.
Qed.

(** C10. [_receive_from] and [_send_to] on a bound socket whose next
    attempts fail with would-block errors (OSError, errno 11), one per
    element of [blocked].  Each wrapper retries through all of them, giving
    way once (one [Sleep]) after each failed attempt, and then:
    [_receive_from] returns the datagram and sender address of the first
    attempt that delivers one; [_send_to] returns after the first attempt
    that succeeds, having sent once; and an exception that is not an
    OSError with errno 11 is raised to the caller unchanged, by either
    wrapper, with no further attempt. *)
Theorem socket_wrappers_retry_on_would_block
    (fuel : nat) (s : State) (blocked : list exn) :
  udp_server s = true ->
  forallb is_eagain blocked = true ->
  (List.length blocked < fuel)%nat ->
  (forall d a rest,
      rx s = (map RxErr blocked ++ RxData d a :: rest)%list ->
      exists s',
        _receive_from fuel s = (Ret (d, a), s') /\ rx s' = rest
        /\ trace s' = (trace s ++ flat_map (fun _ => [SockRecvfrom; Sleep]) blocked
                       ++ [SockRecvfrom])%list)
  /\ (forall e rest,
      is_eagain e = false ->
      rx s = (map RxErr blocked ++ RxErr e :: rest)%list ->
      exists s',
        _receive_from fuel s = (Raise e, s') /\ rx s' = rest
        /\ trace s' = (trace s ++ flat_map (fun _ => [SockRecvfrom; Sleep]) blocked
                       ++ [SockRecvfrom])%list)
  /\ (forall data a rest,
      tx s = (map Some blocked ++ None :: rest)%list ->
      exists s',
        _send_to fuel data a s = (Ret tt, s') /\ tx s' = rest
        /\ trace s' = (trace s ++ map (fun _ => Sleep) blocked
                       ++ [SockSendto data a])%list)
  /\ (forall e data a rest,
      is_eagain e = false ->
      tx s = (map Some blocked ++ Some e :: rest)%list ->
      exists s',
        _send_to fuel data a s = (Raise e, s') /\ tx s' = rest
        /\ trace s' = (trace s ++ map (fun _ => Sleep) blocked)%list).
Proof.
  intros Hsock Hall Hfuel. repeat split.
  - intros d a rest Hrx.
    exact (receive_from_retries blocked fuel s (RxData d a) rest
             Hsock Hall Hfuel Hrx eq_refl).
  - intros e rest He Hrx.
    apply (receive_from_retries blocked fuel s (RxErr e) rest
             Hsock Hall Hfuel Hrx).
    now rewrite He.
  - intros data a rest Htx.
    exact (send_to_retries data a blocked fuel s None rest
             Hsock Hall Hfuel Htx eq_refl).
  - intros e data a rest He Htx.
    destruct (send_to_retries data a blocked fuel s (Some e) rest
                Hsock Hall Hfuel Htx) as (s' & Hrun & Hrest & Htrace).
    { now rewrite He. }
    exists s'. rewrite app_nil_r in Htrace. auto.
Qed.

Lemma socket_wrappers_retry_on_would_block_witness :
  udp_server (dns_listening (map RxErr two_blocks ++ [RxData query_www client])%list
                            (map Some two_blocks ++ [None])%list) = true
  /\ forallb is_eagain two_blocks = true
  /\ (List.length two_blocks < 3)%nat
  /\ exists s',
       _receive_from 3
         (dns_listening (map RxErr two_blocks ++ [RxData query_www client])%list
                        (map Some two_blocks ++ [None])%list)
       = (Ret (query_www, client), s')
       /\ rx s' = []
       /\ trace s' = [SockRecvfrom; Sleep; SockRecvfrom; Sleep; SockRecvfrom].
Proof.
  split; [reflexivity |]. split; [reflexivity |]. split; [cbn; lia |].
  destruct (socket_wrappers_retry_on_would_block 3
              (dns_listening (map RxErr two_blocks ++ [RxData query_www client])%list
                             (map Some two_blocks ++ [None])%list)
              two_blocks eq_refl eq_refl) as [Hrecv _].
  { cbn. lia. }
  exact (Hrecv query_www client [] eq_refl).
Defined.

(** ** Form decoding *)

Lemma prefix_cons a b s t :
  String.prefix (String a s) (String b t) = (Ascii.eqb a b && String.prefix s t)%bool.
Proof.
  cbn [String.prefix]. destruct (ascii_dec a b) as [-> | Hne].
  - now rewrite Ascii.eqb_refl.
  - apply Ascii.eqb_neq in Hne. now rewrite Hne.
Qed.

Lemma prefix_nil t : String.prefix EmptyString t = true.
Proof. destruct t; reflexivity. Qed.

Lemma replace_plus v : replace "+" " " v = plus_to_space v.
Proof.
  unfold replace. induction v as [| c t IH]; [reflexivity |].
  cbn [replace_from plus_to_space]. rewrite prefix_cons, prefix_nil, andb_true_r.
  rewrite (Ascii.eqb_sym "+" c).
  destruct (Ascii.eqb c "+"); cbn; now rewrite IH.
Qed.

Lemma plus_to_space_char (d c : ascii) :
  d <> "+"%char -> d <> " "%char ->
  Ascii.eqb d (if Ascii.eqb c "+" then " "%char else c) = Ascii.eqb c d.
Proof.
  intros Hplus Hspace. destruct (Ascii.eqb_spec c "+") as [-> | Hc].
  - apply Ascii.eqb_neq in Hplus, Hspace. rewrite Hspace.
    now rewrite Ascii.eqb_sym, Hplus.
  - apply Ascii.eqb_sym.
Qed.

Lemma unescape_aux (n : nat) :
  forall v, (String.length v <= n)%nat ->
    replace_from "%20" " " O (plus_to_space v) = spec_unescape v.
Proof.
  induction n as [| n IH]; intros [| c t] Hlen; cbn [String.length] in Hlen;
    try reflexivity; try lia.
  cbn [plus_to_space replace_from spec_unescape].
  destruct (Ascii.eqb_spec c "+") as [-> | Hplus].
  - rewrite prefix_cons. change (Ascii.eqb "%" " ") with false.
    cbn [andb]. rewrite IH by lia. reflexivity.
  - rewrite prefix_cons, (Ascii.eqb_sym "%" c).
    destruct t as [| c1 [| c2 t']].
    + now rewrite andb_false_r.
    + cbn [plus_to_space]. rewrite prefix_cons. cbn [String.prefix].
      rewrite !andb_false_r.
      rewrite <- (IH (String c1 EmptyString)) by (cbn in *; lia). reflexivity.
    + cbn [plus_to_space]. rewrite !prefix_cons, prefix_nil, andb_true_r.
      rewrite !plus_to_space_char by discriminate.
      rewrite andb_assoc.
      destruct (Ascii.eqb c "%" && Ascii.eqb c1 "2" && Ascii.eqb c2 "0")%bool.
      * cbn [String.length Nat.sub String.append replace_from].
        rewrite IH by (cbn in *; lia). reflexivity.
      * rewrite <- (IH (String c1 (String c2 t'))) by (cbn in *; lia).
        reflexivity.
Qed.

Lemma unescape_refines v :
  replace "%20" " " (replace "+" " " v) = spec_unescape v.
Proof. rewrite replace_plus. exact (unescape_aux _ v (le_n _)). Qed.

Lemma contains_eq_iff kv : contains "=" kv = true <-> spec_pair kv <> None.
Proof.
  induction kv as [| c t IH]; cbn [contains spec_pair].
  - cbn. split; [discriminate | congruence].
  - rewrite prefix_cons, prefix_nil, andb_true_r, (Ascii.eqb_sym "=" c).
    destruct (Ascii.eqb c "="); cbn [orb].
    + split; [discriminate | reflexivity].
    + rewrite IH. destruct (spec_pair t) as [[k v] |]; split; congruence.
Qed.

Lemma split_once_pair kv k v : spec_pair kv = Some (k, v) -> split_once "=" kv = (k, v).
Proof.
  revert k v. induction kv as [| c t IH]; intros k v; cbn [spec_pair split_once].
  - discriminate.
  - destruct (Ascii.eqb c "="); [congruence |].
    destruct (spec_pair t) as [[k' v'] |]; [| discriminate].
    intros [= <- <-]. now rewrite (IH k' v' eq_refl).
Qed.

Lemma find_spec_body request body :
  spec_body request = Some body ->
  slice_from (find (cat [cr; nl; cr; nl]) request + 4) request = body.
Proof.
  intros H.
  assert (G : forall r b, spec_body r = Some b ->
            0 <= find (cat [cr; nl; cr; nl]) r
            /\ drop (Z.to_nat (find (cat [cr; nl; cr; nl]) r + 4)) r = b).
  { clear. induction r as [| c t IH]; intros b; cbn [spec_body find].
    - discriminate.
    - destruct (String.prefix (cat [cr; nl; cr; nl]) (String c t)).
      + intros [= <-]. split; [lia | reflexivity].
      + intros Hb. destruct (IH b Hb) as [Hpos Hdrop].
        destruct (Z.ltb_spec (find (cat [cr; nl; cr; nl]) t) 0) as [Hneg | _]; [lia |].
        split; [lia |].
        replace (Z.to_nat (find (cat [cr; nl; cr; nl]) t + 1 + 4))
          with (S (Z.to_nat (find (cat [cr; nl; cr; nl]) t + 4))) by lia.
        exact Hdrop. }
  destruct (G request body H) as [Hpos Hdrop].
  unfold slice_from.
  destruct (Z.ltb_spec (find (cat [cr; nl; cr; nl]) request + 4) 0); [lia |].
  exact Hdrop.
Qed.

Lemma unescape_untouched (n : nat) :
  forall v, (String.length v <= n)%nat ->
    contains "+" v = false -> contains "%20" v = false -> spec_unescape v = v.
Proof.
  induction n as [| n IH]; intros [| c t] Hlen; cbn [String.length] in Hlen;
    try reflexivity; try lia.
  cbn [contains spec_unescape].
  rewrite !prefix_cons, prefix_nil, andb_true_r, (Ascii.eqb_sym "+" c), (Ascii.eqb_sym "%" c).
  intros Hplus Hpct.
  apply orb_false_iff in Hplus as [Hc Hplus], Hpct as [Hhere Hpct].
  rewrite Hc.
  assert (Ht : spec_unescape t = t) by (apply IH; [lia | assumption | assumption]).
  destruct t as [| c1 [| c2 t']]; try (now rewrite Ht).
  rewrite !prefix_cons, prefix_nil, andb_true_r in Hhere.
  rewrite (Ascii.eqb_sym "2" c1), (Ascii.eqb_sym "0" c2), andb_assoc in Hhere.
  rewrite Hhere. now rewrite Ht.
Qed.

Lemma form_params_fold (l : list string) :
  forall acc : gmap string string,
    fold_left
      (fun (params : gmap string string) kv =>
         if contains "=" kv then
           let (key, value) := split_once "=" kv in
           <[key := replace "%20" " " (replace "+" " " value)]> params
         else params) l acc
    = fold_left
        (fun (fields : gmap string string) kv =>
           match spec_pair kv with
           | Some (k, v) => <[k := spec_unescape v]> fields
           | None => fields
           end) l acc.
Proof.
  induction l as [| kv l IH]; intros acc; cbn [fold_left]; [reflexivity |].
  rewrite IH. f_equal.
  pose proof (contains_eq_iff kv) as Hiff.
  destruct (spec_pair kv) as [[k v] |] eqn:Hpair.
  - rewrite (proj2 Hiff) by discriminate.
    rewrite (split_once_pair kv k v Hpair), unescape_refines. reflexivity.
  - destruct (contains "=" kv); [| reflexivity].
    exfalso. now apply (proj1 Hiff).
Qed.

(** C7. Form decoding.  The fields that [connect_to_wifi] reads from a
    request are those of the specification: the text after the first
    blank line, cut at every [&], each piece with a [=] cut at its first
    [=], and in each value every [+] and every [%20] turned into a space
    ([spec_fields], [spec_unescape]).  A value without [+] and without
    [%20] comes out as it went in, whatever other percent-escapes it
    holds.  The body [ssid=My+Wifi&password=pa%20ss] yields ssid
    [My Wifi] and password [pa ss]. *)
Theorem form_decoding :
  (forall request body,
      spec_body request = Some body -> form_params request = spec_fields body)
  /\ (forall value,
      contains "+" value = false -> contains "%20" value = false ->
      replace "%20" " " (replace "+" " " value) = value)
  /\ spec_body connect_request = Some "ssid=My+Wifi&password=pa%20ss"
  /\ form_params connect_request !! "ssid" = Some "My Wifi"
  /\ form_params connect_request !! "password" = Some "pa ss"
  /\ replace "%20" " " (replace "+" " " "50%25+off%2Bx%20y") = "50%25 off%2Bx y".
Proof.
  split; [| split; [| split; [| split; [| split]]]].
  - intros request body Hbody. unfold form_params, spec_fields.
    rewrite (find_spec_body request body Hbody). apply form_params_fold.
  - intros value Hplus Hpct. rewrite unescape_refines.
    exact (unescape_untouched _ value (le_n _) Hplus Hpct).
  - reflexivity.
  - vm_compute. reflexivity.
  - vm_compute. reflexivity.
  - reflexivity.
Qed.

(** ** Index page *)

Lemma mem_In (x : string) (l : list string) : mem x l = true <-> In x l.
Proof.
  unfold mem. rewrite existsb_exists. split.
  - intros (y & Hin & Heq). apply String.eqb_eq in Heq. now subst.
  - intros Hin. exists x. split; [assumption | apply String.eqb_refl].
Qed.

(** C9 (as amended).  When the configuration directory can be listed,
    [serve_index] returns the index page.  The page always holds the link
    to [/scan]; it holds the form that posts to [/reconnect] exactly when
    the listing contains the name of the configuration file. *)
Theorem serve_index_page (env : Env) (s : State) :
  fault env (Listdir config_directory) = None ->
  exists page,
    serve_index env s = (Ret page, log (Call (Listdir config_directory)) s)
    /\ page = index_page (mem config_file (files env))
    /\ contains scan_link page = true
    /\ (contains reconnect_form page = true <-> In config_file (files env)).
Proof.
  intros Hlist.
  unfold serve_index, uos_listdir, bind, ext, ret. rewrite Hlist.
  pose proof (mem_In config_file (files env)) as Hin.
  destruct (mem config_file (files env)) eqn:Hmem.
  - exists (index_page true). split; [reflexivity |]. split; [reflexivity |].
    split; [vm_compute; reflexivity |].
    split; [intros _; now apply Hin | intros _; vm_compute; reflexivity].
  - exists (index_page false). split; [reflexivity |]. split; [reflexivity |].
    split; [vm_compute; reflexivity |].
    split; [vm_compute; discriminate | intros H; apply Hin in H; discriminate H].
Qed.

Lemma serve_index_page_witness :
  fault env0 (Listdir config_directory) = None
  /\ exists page,
       serve_index env0 boot = (Ret page, log (Call (Listdir config_directory)) boot)
       /\ page = index_page (mem config_file (files env0))
       /\ contains scan_link page = true
       /\ (contains reconnect_form page = true <-> In config_file (files env0)).
Proof.
  split; [reflexivity |].
  exact (serve_index_page env0 boot eq_refl).
Defined.

(** C9 (as stated) fails: [serve_index] does not always return a page.
    The call of [uos.listdir] is not guarded, so on a device whose
    configuration directory cannot be listed [serve_index] raises the
    error of [uos.listdir] and returns nothing. *)
Lemma serve_index_listdir_failure_raises :
  fault env_nodir (Listdir config_directory) = Some (OSError 2 "ENOENT")
  /\ serve_index env_nodir boot
     = (Raise (OSError 2 "ENOENT"), log (Call (Listdir config_directory)) boot)
  /\ forall page s', serve_index env_nodir boot <> (Ret page, s').
Proof.
  split; [reflexivity |]. split; [reflexivity |].
  intros page s'. discriminate.
Qed.

(** ** Runs that end *)

Section EndsWith.

Context {A B : Type}.
Variables P Q R : list Event -> Prop.

Lemma ends_with_bind (m : M A) (k : A -> M B) :
  ends_with P m -> (forall a, ends_with Q (k a)) ->
  (forall t, P t -> R t) ->
  (forall t1 t2, P t1 -> Q t2 -> R (t1 ++ t2)%list) ->
  ends_with R (bind m k).
Proof.
  intros Hm Hk Hleft Happ s. unfold bind.
  destruct (Hm s) as (r & s1 & t1 & E & Hnp & Ht & HP). rewrite E.
  destruct r as [a | e | ]; [| | congruence].
  - destruct (Hk a s1) as (r2 & s2 & t2 & E2 & Hnp2 & Ht2 & HQ).
    exists r2, s2, (t1 ++ t2)%list. rewrite E2, Ht2, Ht, app_assoc. auto.
  - exists (Raise e), s1, t1. repeat split; first [discriminate | auto].
Qed.

Lemma ends_with_try_finally (m : M A) (fin : M unit) :
  ends_with P m -> ends_with Q fin ->
  (forall t1 t2, P t1 -> Q t2 -> R (t1 ++ t2)%list) ->
  ends_with R (try_finally m fin).
Proof.
  intros Hm Hfin Happ s. unfold try_finally.
  destruct (Hm s) as (r & s1 & t1 & E & Hnp & Ht & HP). rewrite E.
  destruct (Hfin s1) as (r2 & s2 & t2 & E2 & Hnp2 & Ht2 & HQ).
  destruct r as [a | e | ]; [| | congruence]; rewrite E2;
    (destruct r2 as [[] | e2 | ]; [| | congruence]);
    eexists _, s2, (t1 ++ t2)%list; rewrite Ht2, Ht, app_assoc;
    (repeat split; [discriminate | auto]).
Qed.

End EndsWith.

Lemma ends_with_try_except {A} (P Q R : list Event -> Prop)
    (m : M A) (handler : exn -> M A) :
  ends_with P m -> (forall e, ends_with Q (handler e)) ->
  (forall t, P t -> R t) ->
  (forall t1 t2, P t1 -> Q t2 -> R (t1 ++ t2)%list) ->
  ends_with R (try_except m handler).
Proof.
  intros Hm Hh Hleft Happ s. unfold try_except.
  destruct (Hm s) as (r & s1 & t1 & E & Hnp & Ht & HP). rewrite E.
  destruct r as [a | e | ]; [| | congruence].
  - exists (Ret a), s1, t1. repeat split; first [discriminate | auto].
  - destruct (Hh e s1) as (r2 & s2 & t2 & E2 & Hnp2 & Ht2 & HQ).
    exists r2, s2, (t1 ++ t2)%list. rewrite E2, Ht2, Ht, app_assoc. auto.
Qed.

Lemma ends_with_weaken {A} (P Q : list Event -> Prop) (m : M A) :
  (forall t, P t -> Q t) -> ends_with P m -> ends_with Q m.
Proof.
  intros Himp Hm s. destruct (Hm s) as (r & s1 & t & E & Hnp & Ht & HP).
  exists r, s1, t. auto.
Qed.

Lemma ends_with_ret {A} (P : list Event -> Prop) (a : A) :
  P [] -> ends_with P (ret a).
Proof.
  intros HP s. exists (Ret a), s, []. rewrite app_nil_r.
  repeat split; first [discriminate | auto].
Qed.

Lemma ends_with_raise {A} (P : list Event -> Prop) (e : exn) :
  P [] -> ends_with P (@raise A e).
Proof.
  intros HP s. exists (Raise e), s, []. rewrite app_nil_r.
  repeat split; first [discriminate | auto].
Qed.

Lemma ends_with_lift {A} (P : list Event -> Prop) (r : exn + A) :
  P [] -> ends_with P (lift r).
Proof.
  intros HP. destruct r; [apply ends_with_raise | apply ends_with_ret]; exact HP.
Qed.

Lemma ends_with_gets {A} (P : list Event -> Prop) (f : State -> A) :
  P [] -> ends_with P (gets f).
Proof.
  intros HP s. exists (Ret (f s)), s, []. rewrite app_nil_r.
  repeat split; first [discriminate | auto].
Qed.

Lemma ends_with_modify (P : list Event -> Prop) (f : State -> State) :
  P [] -> (forall s, trace (f s) = trace s) -> ends_with P (modify f).
Proof.
  intros HP Hf s. exists (Ret tt), (f s), []. rewrite app_nil_r, Hf.
  repeat split; first [discriminate | auto].
Qed.

Lemma ends_with_emit (P : list Event -> Prop) (ev : Event) :
  P [ev] -> ends_with P (emit ev).
Proof.
  intros HP s. exists (Ret tt), (log ev s), [ev].
  repeat split; first [discriminate | auto].
Qed.

Lemma ends_with_ext (P : list Event -> Prop) (env : Env) (op : Op) :
  P [Call op] -> ends_with P (ext env op).
Proof.
  intros HP s. unfold ext.
  destruct (fault env op) as [e |]; eexists _, (log (Call op) s), [Call op];
    (repeat split; [discriminate | auto]).
Qed.

(** One step of a proof that a run ends, by the shape of the program. *)
Ltac ends_step :=
  lazymatch goal with
  | |- ends_with any_trace (bind _ _) =>
      apply (ends_with_bind any_trace any_trace any_trace);
      [ | intros ? | intros; exact I | intros; exact I ]
  | |- ends_with any_trace (try_except _ _) =>
      apply (ends_with_try_except any_trace any_trace any_trace);
      [ | intros ? | intros; exact I | intros; exact I ]
  | |- ends_with any_trace (try_finally _ _) =>
      apply (ends_with_try_finally any_trace any_trace any_trace);
      [ | | intros; exact I ]
  | |- ends_with any_trace (ret _) => apply ends_with_ret; exact I
  | |- ends_with any_trace (raise _) => apply ends_with_raise; exact I
  | |- ends_with any_trace (lift _) => apply ends_with_lift; exact I
  | |- ends_with any_trace (gets _) => apply ends_with_gets; exact I
  | |- ends_with any_trace (modify _) =>
      apply ends_with_modify; [exact I | intros; reflexivity]
  | |- ends_with any_trace (emit _) => apply ends_with_emit; exact I
  | |- ends_with any_trace (print _) => apply ends_with_emit; exact I
  | |- ends_with any_trace sleep => apply ends_with_emit; exact I
  | |- ends_with any_trace (ext _ _) => apply ends_with_ext; exact I
  | |- ends_with any_trace (if ?b then _ else _) => destruct b
  | |- ends_with any_trace (match ?x with _ => _ end) => destruct x
  | |- ends_with any_trace (let _ := _ in _) => cbv zeta
  end.

Create HintDb ends discriminated.

Ltac ends_tac := repeat first [ends_step | solve [auto with ends nocore]].

Section Ends.

Variable env : Env.

Lemma ends_sta_if_active on : ends (sta_if_active env on).
Proof. unfold sta_if_active. ends_tac. Qed.

Lemma ends_sta_if_isconnected : ends (sta_if_isconnected env).
Proof. unfold sta_if_isconnected. ends_tac. Qed.

Lemma ends_ap_if_isconnected : ends (ap_if_isconnected env).
Proof. unfold ap_if_isconnected. ends_tac. Qed.

Lemma ends_await_link : ends (await_link env).
Proof. unfold await_link, sta_if_isconnected. ends_tac. Qed.

Lemma ends_stop_dns : ends stop_dns.
Proof. unfold stop_dns. ends_tac. Qed.

Lemma ends_stop_ap : ends (stop_ap env).
Proof.
  unfold stop_ap, ap_if_isconnected, ap_if_config, ap_if_active, ap_if_deinit.
  ends_tac.
Qed.

Lemma ends_disconnect_from_wifi : ends (disconnect_from_wifi env).
Proof.
  unfold disconnect_from_wifi, sta_if_isconnected, sta_if_active, sta_if_deinit.
  ends_tac.
Qed.

Lemma ends_stop_captive_portal_server : ends (stop_captive_portal_server env).
Proof. unfold stop_captive_portal_server. ends_tac. Qed.

Lemma ends_save_config ssid password : ends (save_config env ssid password).
Proof. unfold save_config. ends_tac. Qed.

Lemma ends_sta_web_server_run : ends (sta_web_server_run env).
Proof. unfold sta_web_server_run. ends_tac. Qed.

#[local] Hint Resolve ends_sta_if_active ends_sta_if_isconnected
  ends_ap_if_isconnected ends_await_link ends_stop_dns ends_stop_ap
  ends_disconnect_from_wifi ends_stop_captive_portal_server ends_save_config
  ends_sta_web_server_run : ends.

Lemma ends_stop_fallback_services : ends (stop_fallback_services env).
Proof. unfold stop_fallback_services. ends_tac. Qed.

#[local] Hint Resolve ends_stop_fallback_services : ends.

Lemma ends_scan_networks : ends (scan_networks env).
Proof. unfold scan_networks, sta_if_scan. ends_tac. Qed.

Lemma ends_connect_to_wifi request : ends (connect_to_wifi env request).
Proof.
  unfold connect_to_wifi, sta_if_connect, sta_if_ifconfig0. ends_tac.
Qed.

Lemma ends_serve_index : ends (serve_index env).
Proof. unfold serve_index, uos_listdir. ends_tac. Qed.

Lemma ends_call_method1_none {A} (f : string -> M A) : ends (call_method1 f []).
Proof. unfold call_method1. ends_tac. Qed.

End Ends.

(** ** Calls that do not fail *)

Lemma ext_ok (env : Env) (op : Op) (s : State) :
  fault env op = None -> ext env op s = (Ret tt, log (Call op) s).
Proof. intros H. unfold ext. now rewrite H. Qed.

Lemma sta_if_active_ok (env : Env) (on : bool) (s : State) :
  fault env (StaActive on) = None ->
  sta_if_active env on s
  = (Ret tt, set_sta on (sta_connected s && on) (log (Call (StaActive on)) s)).
Proof. intros H. unfold sta_if_active, bind. now rewrite (ext_ok env _ s H). Qed.

Lemma sta_if_isconnected_ok (env : Env) (s : State) :
  fault env StaIsConnected = None ->
  sta_if_isconnected env s = (Ret (sta_connected s), log (Call StaIsConnected) s).
Proof. intros H. unfold sta_if_isconnected, bind. now rewrite (ext_ok env _ s H). Qed.

Lemma ap_if_isconnected_ok (env : Env) (s : State) :
  fault env ApIsConnected = None ->
  ap_if_isconnected env s = (Ret (ap_connected s), log (Call ApIsConnected) s).
Proof. intros H. unfold ap_if_isconnected, bind. now rewrite (ext_ok env _ s H). Qed.

(** ** Request handler *)

(** C8. [handle_request] returns normally for every request, every
    environment and every state: whatever reading the request, decoding
    it, the route taken or writing the response raises is caught and
    reported, and the last things the handler does are [writer.close()]
    and [writer.wait_closed()]. *)
Theorem handle_request_closes_writer (env : Env) (reader : bytes) (s : State) :
  exists s' t,
    handle_request env reader s = (Ret tt, s')
    /\ trace s' = (trace s ++ t ++ [WriterClose; WriterWaitClosed])%list.
Proof.
  unfold handle_request, try_finally.
  lazymatch goal with
  | |- context [try_except ?body ?handler] =>
      assert (Hbody : ends body);
      [ | unfold try_except; destruct (Hbody s) as (r & s1 & t & E & Hnp & Ht & _);
          rewrite E ]
  end.
  - pose proof (ends_scan_networks env).
    pose proof (ends_connect_to_wifi env).
    pose proof (ends_serve_index env).
    pose proof (@ends_call_method1_none string (reconnect_to_wifi env)).
    ends_tac.
  - destruct r as [[] | e | ]; [| | congruence].
    + exists (log WriterWaitClosed (log WriterClose s1)), t.
      split; [reflexivity |]. cbn [trace log]. rewrite Ht, <- !app_assoc. reflexivity.
    + exists (log WriterWaitClosed
                (log WriterClose (log (Print ("Error handling request: " ++ str_exn e)) s1))),
             (t ++ [Print ("Error handling request: " ++ str_exn e)])%list.
      split; [reflexivity |]. cbn [trace log]. rewrite Ht, <- !app_assoc. reflexivity.
Qed.

(** C5 (what the code does).  A request that reaches the [POST /reconnect]
    route gets no response at all: the handler calls [reconnect_to_wifi]
    without the argument the method requires, the call raises before any
    reconnection is tried, the handler reports the error and closes the
    connection.  Nothing is written to the client and the device state is
    otherwise untouched. *)
Theorem handle_request_reconnect_writes_nothing
    (env : Env) (reader : bytes) (request : string) (s : State) :
  fault env (ReaderRead 1024) = None ->
  decode env (firstn 1024 reader) = inr request ->
  existsb (fun route => contains route request) routes_before_reconnect = false ->
  contains "POST /reconnect" request = true ->
  handle_request env reader s
  = (Ret tt,
     log WriterWaitClosed
       (log WriterClose
          (log (Print "Error handling request: function takes 2 positional arguments but 1 were given")
             (log (Print ("Request: " ++ request))
                (log (Call (ReaderRead 1024)) s))))).
Proof.
  intros Hread Hdecode Hroutes Hroute.
  cbn [existsb routes_before_reconnect] in Hroutes.
  repeat (apply orb_false_iff in Hroutes as [? Hroutes]).
  unfold handle_request, try_finally, try_except, bind, ext, lift.
  rewrite Hread, Hdecode. cbn [ret print emit modify].
  repeat match goal with
         | H : contains _ request = false |- _ => rewrite H; clear H
         end.
  rewrite Hroute. reflexivity.
Qed.

Lemma handle_request_reconnect_writes_nothing_witness :
  fault env0 (ReaderRead 1024) = None
  /\ decode env0 (firstn 1024 (ascii_encode reconnect_request)) = inr reconnect_request
  /\ existsb (fun route => contains route reconnect_request) routes_before_reconnect = false
  /\ contains "POST /reconnect" reconnect_request = true
  /\ trace (snd (handle_request env0 (ascii_encode reconnect_request) boot))
     = [Call (ReaderRead 1024);
        Print ("Request: " ++ reconnect_request);
        Print "Error handling request: function takes 2 positional arguments but 1 were given";
        WriterClose; WriterWaitClosed].
Proof.
  split; [reflexivity |]. split; [reflexivity |].
  split; [reflexivity |]. split; [reflexivity |].
  rewrite (handle_request_reconnect_writes_nothing env0
             (ascii_encode reconnect_request) reconnect_request boot
             eq_refl eq_refl eq_refl eq_refl).
  reflexivity.
Defined.

(** ** Connect action *)

(** C6 (as amended).  When the ssid or the password of a connect request
    is absent or empty, and the two calls to the station interface do not
    fail, [connect_to_wifi] returns the error page, makes exactly one
    change to the radio, the deactivation of the station interface, and
    leaves the stored IP address, the access point, the listener and the
    DNS socket as they were. *)
Theorem connect_to_wifi_missing_credentials
    (env : Env) (request : string) (s : State) :
  missing_credentials request ->
  fault env (StaActive false) = None ->
  fault env StaIsConnected = None ->
  exists s',
    connect_to_wifi env request s = (Ret connection_error_page, s')
    /\ trace s' = (trace s ++ [Call (StaActive false); Call StaIsConnected])%list
    /\ sta_active s' = false
    /\ ip_address s' = ip_address s
    /\ ap_active s' = ap_active s
    /\ server s' = server s
    /\ udp_server s' = udp_server s.
Proof.
  intros Hmiss Hactive Hconn.
  assert (Hcond : (truthy (form_ssid request) && truthy (form_password request))%bool = false).
  { destruct Hmiss as [-> | ->]; [reflexivity | apply andb_false_r]. }
  unfold connect_to_wifi. fold (form_ssid request) (form_password request).
  rewrite Hcond.
  unfold try_finally, try_except, bind.
  rewrite (sta_if_active_ok env false s Hactive). cbv beta iota.
  unfold ret at 1.
  rewrite (sta_if_isconnected_ok env _ Hconn). cbv beta iota.
  cbn [ret set_sta log sta_connected]. rewrite andb_false_r.
  eexists. split; [reflexivity |].
  cbn [trace log set_sta sta_active ip_address ap_active server udp_server].
  rewrite <- app_assoc. repeat split.
Qed.

Lemma connect_to_wifi_missing_credentials_witness :
  missing_credentials request_without_password
  /\ fault env0 (StaActive false) = None
  /\ fault env0 StaIsConnected = None
  /\ exists s',
       connect_to_wifi env0 request_without_password station_up
       = (Ret connection_error_page, s')
       /\ trace s' = (trace station_up ++ [Call (StaActive false); Call StaIsConnected])%list
       /\ sta_active s' = false
       /\ ip_address s' = ip_address station_up
       /\ ap_active s' = ap_active station_up
       /\ server s' = server station_up
       /\ udp_server s' = udp_server station_up.
Proof.
  assert (Hmiss : missing_credentials request_without_password).
  { right. vm_compute. reflexivity. }
  split; [exact Hmiss |]. split; [reflexivity |]. split; [reflexivity |].
  exact (connect_to_wifi_missing_credentials env0 request_without_password
           station_up Hmiss eq_refl eq_refl).
Defined.

(** C6 (as stated) fails: a connect request without a password makes the
    handler call [sta_if.active(False)], and on a device whose station
    interface is active the interface is no longer active afterwards. *)
Lemma connect_to_wifi_missing_password_deactivates_station :
  missing_credentials request_without_password
  /\ sta_active station_up = true
  /\ sta_active (snd (connect_to_wifi env0 request_without_password station_up))
     <> sta_active station_up
  /\ In (Call (StaActive false))
        (trace (snd (connect_to_wifi env0 request_without_password station_up))).
Proof.
  split; [right; vm_compute; reflexivity |].
  split; [reflexivity |].
  split; [vm_compute; discriminate |].
  vm_compute. left. reflexivity.
Qed.

(** ** Shutdown *)

Lemma ranks_app (t1 t2 : list Event) : ranks (t1 ++ t2) = (ranks t1 ++ ranks t2)%list.
Proof.
  induction t1 as [| ev t1 IH]; [reflexivity |].
  cbn [app ranks]. destruct (stop_rank ev); cbn [app]; now rewrite IH.
Qed.

Lemma sorted_from_weaken (lo lo' : nat) (l : list nat) :
  (lo' <= lo)%nat -> sorted_from lo l = true -> sorted_from lo' l = true.
Proof.
  destruct l as [| k l]; [reflexivity |]. cbn [sorted_from].
  intros Hle H. apply andb_true_iff in H as [Hk Hl].
  apply Nat.leb_le in Hk. apply andb_true_iff. split; [apply Nat.leb_le; lia | exact Hl].
Qed.

Lemma sorted_from_app (l1 : list nat) :
  forall lo mid l2,
    (lo <= mid)%nat ->
    sorted_from lo l1 = true -> Forall (fun k => (k <= mid)%nat) l1 ->
    sorted_from mid l2 = true ->
    sorted_from lo (l1 ++ l2) = true.
Proof.
  induction l1 as [| k l1 IH]; intros lo mid l2 Hle H1 Hall H2; cbn [app].
  - exact (sorted_from_weaken mid lo l2 Hle H2).
  - cbn [sorted_from] in *. apply andb_true_iff in H1 as [Hk H1].
    inversion Hall as [| ? ? Hkmid Hall']; subst.
    apply andb_true_iff. split; [exact Hk |].
    exact (IH k mid l2 Hkmid H1 Hall' H2).
Qed.

Lemma in_stop_order_app (a b c : nat) (t1 t2 : list Event) :
  (a <= b)%nat -> (b <= c)%nat ->
  in_stop_order a b t1 -> in_stop_order b c t2 -> in_stop_order a c (t1 ++ t2).
Proof.
  intros Hab Hbc [S1 B1] [S2 B2]. unfold in_stop_order. rewrite ranks_app. split.
  - exact (sorted_from_app _ a b _ Hab S1 B1 S2).
  - apply Forall_app. split; [| exact B2].
    eapply List.Forall_impl; [| exact B1]. cbn. intros; lia.
Qed.

Lemma in_stop_order_weaken (a b a' b' : nat) (t : list Event) :
  (a' <= a)%nat -> (b <= b')%nat -> in_stop_order a b t -> in_stop_order a' b' t.
Proof.
  intros Ha Hb [S B]. split.
  - exact (sorted_from_weaken a a' _ Ha S).
  - eapply List.Forall_impl; [| exact B]. cbn. intros; lia.
Qed.

Lemma in_stop_order_nil (a b : nat) : in_stop_order a b [].
Proof. split; [reflexivity | constructor]. Qed.

Lemma in_stop_order_unranked (a b : nat) (ev : Event) :
  stop_rank ev = None -> in_stop_order a b [ev].
Proof. intros H. unfold in_stop_order. cbn [ranks]. rewrite H. split; [reflexivity | constructor]. Qed.

Lemma in_stop_order_ranked (k : nat) (ev : Event) :
  stop_rank ev = Some k -> in_stop_order k k [ev].
Proof.
  intros H. unfold in_stop_order. cbn [ranks sorted_from]. rewrite H. split.
  - cbn [sorted_from]. now rewrite Nat.leb_refl.
  - repeat constructor.
Qed.

(** A run that ends and whose stop steps are in order, between [a] and [b]. *)
Lemma ordered_bind {A B} (a b c : nat) (m : M A) (k : A -> M B) :
  (a <= b)%nat -> (b <= c)%nat ->
  ends_with (in_stop_order a b) m ->
  (forall x, ends_with (in_stop_order b c) (k x)) ->
  ends_with (in_stop_order a c) (bind m k).
Proof.
  intros Hab Hbc Hm Hk.
  apply (ends_with_bind (in_stop_order a b) (in_stop_order b c)); auto.
  - intros t. apply in_stop_order_weaken; lia.
  - intros t1 t2. apply in_stop_order_app; assumption.
Qed.

Lemma ordered_try_except {A} (a b c : nat) (m : M A) (handler : exn -> M A) :
  (a <= b)%nat -> (b <= c)%nat ->
  ends_with (in_stop_order a b) m ->
  (forall e, ends_with (in_stop_order b c) (handler e)) ->
  ends_with (in_stop_order a c) (try_except m handler).
Proof.
  intros Hab Hbc Hm Hh.
  apply (ends_with_try_except (in_stop_order a b) (in_stop_order b c)); auto.
  - intros t. apply in_stop_order_weaken; lia.
  - intros t1 t2. apply in_stop_order_app; assumption.
Qed.

Lemma ordered_weaken {A} (a b a' b' : nat) (m : M A) :
  (a' <= a)%nat -> (b <= b')%nat ->
  ends_with (in_stop_order a b) m -> ends_with (in_stop_order a' b') m.
Proof.
  intros Ha Hb. apply ends_with_weaken. intros t. now apply in_stop_order_weaken.
Qed.

(** One step of a proof that all stop steps of a run have the number [k]. *)
Ltac rank_step k :=
  lazymatch goal with
  | |- ends_with (in_stop_order k k) (bind _ _) =>
      apply (ordered_bind k k k); [lia | lia | | intros ?]
  | |- ends_with (in_stop_order k k) (try_except _ _) =>
      apply (ordered_try_except k k k); [lia | lia | | intros ?]
  | |- ends_with (in_stop_order k k) (ret _) =>
      apply ends_with_ret; apply in_stop_order_nil
  | |- ends_with (in_stop_order k k) (gets _) =>
      apply ends_with_gets; apply in_stop_order_nil
  | |- ends_with (in_stop_order k k) (modify _) =>
      apply ends_with_modify; [apply in_stop_order_nil | intros; reflexivity]
  | |- ends_with (in_stop_order k k) (print _) =>
      apply ends_with_emit; apply in_stop_order_unranked; reflexivity
  | |- ends_with (in_stop_order k k) sleep =>
      apply ends_with_emit; apply in_stop_order_unranked; reflexivity
  | |- ends_with (in_stop_order k k) (emit _) =>
      apply ends_with_emit;
      first [apply in_stop_order_unranked; reflexivity
            | apply in_stop_order_ranked; reflexivity]
  | |- ends_with (in_stop_order k k) (ext _ _) =>
      apply ends_with_ext;
      first [apply in_stop_order_unranked; reflexivity
            | apply in_stop_order_ranked; reflexivity]
  | |- ends_with (in_stop_order k k) (if ?b then _ else _) => destruct b
  | |- ends_with (in_stop_order k k) (match ?x with _ => _ end) => destruct x
  end.

Section StopOrder.

Variable env : Env.

Lemma ordered_sta_if_isconnected k : ends_with (in_stop_order k k) (sta_if_isconnected env).
Proof. unfold sta_if_isconnected. repeat rank_step k. Qed.

Lemma ordered_ap_if_isconnected k : ends_with (in_stop_order k k) (ap_if_isconnected env).
Proof. unfold ap_if_isconnected. repeat rank_step k. Qed.

Lemma ordered_app_stop :
  ends_with (in_stop_order 1 1)
    (if sta_web_server env
     then bind (print "Stopping STA web server...") (fun _ => ext env AppStop)
     else ret tt).
Proof. repeat rank_step 1%nat. Qed.

Lemma ordered_disconnect_from_wifi :
  ends_with (in_stop_order 2 2) (disconnect_from_wifi env).
Proof.
  unfold disconnect_from_wifi, sta_if_isconnected, sta_if_active, sta_if_deinit.
  repeat rank_step 2%nat.
Qed.

Lemma ordered_stop_dns : ends_with (in_stop_order 3 3) stop_dns.
Proof. unfold stop_dns. repeat rank_step 3%nat. Qed.

Lemma ordered_stop_captive_portal_server :
  ends_with (in_stop_order 4 4) (stop_captive_portal_server env).
Proof. unfold stop_captive_portal_server. repeat rank_step 4%nat. Qed.

Lemma ordered_stop_ap : ends_with (in_stop_order 5 5) (stop_ap env).
Proof.
  unfold stop_ap, ap_if_isconnected, ap_if_config, ap_if_active, ap_if_deinit.
  repeat rank_step 5%nat.
Qed.

End StopOrder.

Lemma ordered_run_cleanup (env : Env) :
  ends_with (in_stop_order 1 5) (run_cleanup env).
Proof.
  unfold run_cleanup.
  apply (ordered_bind 1 1 5); [lia | lia | rank_step 1%nat | intros _].
  apply (ordered_bind 1 5 5); [lia | lia | | intros _; rank_step 5%nat].
  apply (ordered_try_except 1 5 5); [lia | lia | | intros e; rank_step 5%nat].
  apply (ordered_bind 1 1 5); [lia | lia | apply ordered_app_stop | intros _].
  apply (ordered_bind 1 1 5); [lia | lia | apply ordered_sta_if_isconnected | intros c].
  apply (ordered_bind 1 2 5); [lia | lia | | intros _].
  { apply (ordered_weaken 2 2); [lia | lia |].
    destruct c; [| rank_step 2%nat].
    apply (ordered_bind 2 2 2); [lia | lia | rank_step 2%nat | intros _].
    apply ordered_disconnect_from_wifi. }
  apply (ordered_bind 2 2 5); [lia | lia | apply ordered_ap_if_isconnected | intros a].
  destruct a; [| apply (ordered_weaken 5 5); [lia | lia | rank_step 5%nat]].
  apply (ordered_bind 2 2 5); [lia | lia | rank_step 2%nat | intros _].
  apply (ordered_bind 2 3 5); [lia | lia | | intros _].
  { apply (ordered_weaken 3 3); [lia | lia | apply ordered_stop_dns]. }
  apply (ordered_bind 3 4 5); [lia | lia | | intros _].
  { apply (ordered_weaken 4 4); [lia | lia | apply ordered_stop_captive_portal_server]. }
  apply (ordered_weaken 5 5); [lia | lia | apply ordered_stop_ap].
Qed.

(** Unfolding a run down to the state it builds. *)
Ltac exec :=
  cbv beta iota zeta delta
    [bind ret raise try_except try_finally gets modify emit print sleep ext
     sta_if_active sta_if_isconnected sta_if_deinit
     ap_if_config ap_if_active ap_if_deinit ap_if_isconnected
     stop_dns stop_ap stop_captive_portal_server disconnect_from_wifi
     log set_sta set_ap set_ap_config set_ip_address set_udp_server set_server
     sta_active sta_connected ap_active ap_connected ap_essid ap_key ap_netcfg
     ip_address server udp_server attempts rx tx trace negb andb].

Ltac exec_faults env :=
  repeat (exec;
          match goal with
          | |- context [match fault env ?op with _ => _ end] =>
              destruct (fault env op)
          end);
  exec.

Lemma run_cleanup_returns (env : Env) (s : State) :
  exists s', run_cleanup env s = (Ret tt, s').
Proof.
  destruct (ordered_run_cleanup env s) as (r & s' & t & E & Hnp & _).
  exists s'. rewrite E. f_equal.
  revert E. unfold run_cleanup.
  unfold bind at 1. cbn [print emit modify].
  unfold bind at 1.
  destruct (try_except _ _ _) as [[[] | e | ] s1] eqn:Htry.
  - cbn. now intros [= <- _].
  - exfalso. revert Htry. unfold try_except.
    destruct (bind _ _ _) as [[[] | e' | ] s2]; cbn; discriminate.
  - cbn. intros [= <- _]. congruence.
Qed.

Section StopAttempts.

Variable env : Env.

Ltac solve_attempt :=
  eexists _, _; split; [reflexivity |];
  split; [cbv beta iota delta [trace]; rewrite <- ?app_assoc; reflexivity |];
  cbn [app In]; repeat split; intros; try congruence; auto 10.

Lemma disconnect_from_wifi_attempt (s : State) :
  fault env StaIsConnected = None ->
  exists s' t,
    disconnect_from_wifi env s = (Ret tt, s')
    /\ trace s' = (trace s ++ t)%list
    /\ (sta_connected s = true -> In (Call (StaActive false)) t)
    /\ ap_connected s' = ap_connected s
    /\ udp_server s' = udp_server s
    /\ server s' = server s.
Proof.
  intros Hconn. unfold disconnect_from_wifi. unfold bind at 1.
  rewrite (sta_if_isconnected_ok env s Hconn). cbv beta iota.
  destruct (sta_connected s); exec_faults env; solve_attempt.
Qed.

Lemma stop_dns_attempt (s : State) :
  exists s' t,
    stop_dns s = (Ret tt, s')
    /\ trace s' = (trace s ++ t)%list
    /\ (udp_server s = true -> In SockClose t)
    /\ ap_connected s' = ap_connected s
    /\ server s' = server s.
Proof.
  unfold stop_dns. unfold bind at 1. cbv beta iota delta [gets].
  destruct (udp_server s); exec; [solve_attempt |].
  exists s, []. rewrite app_nil_r. repeat split. discriminate.
Qed.

Lemma stop_captive_portal_server_attempt (s : State) :
  exists s' t,
    stop_captive_portal_server env s = (Ret tt, s')
    /\ trace s' = (trace s ++ t)%list
    /\ (server s <> None -> In (Call ServerClose) t)
    /\ ap_connected s' = ap_connected s.
Proof.
  unfold stop_captive_portal_server, try_except. unfold bind at 1.
  cbv beta iota delta [gets].
  destruct (server s); exec_faults env; solve_attempt.
Qed.

Lemma stop_ap_attempt (s : State) :
  fault env ApIsConnected = None ->
  exists s' t,
    stop_ap env s = (Ret tt, s')
    /\ trace s' = (trace s ++ t)%list
    /\ (ap_connected s = true -> In (Call (ApConfig "" "")) t).
Proof.
  intros Hconn. unfold stop_ap. unfold bind at 1.
  rewrite (ap_if_isconnected_ok env s Hconn). cbv beta iota.
  destruct (ap_connected s); exec_faults env; solve_attempt.
Qed.

End StopAttempts.

Lemma run_cleanup_attempts (env : Env) (s : State) :
  fault env AppStop = None ->
  fault env StaIsConnected = None ->
  fault env ApIsConnected = None ->
  exists s' t,
    run_cleanup env s = (Ret tt, s')
    /\ trace s' = (trace s ++ t)%list
    /\ (sta_web_server env = true -> In (Call AppStop) t)
    /\ (sta_connected s = true -> In (Call (StaActive false)) t)
    /\ (ap_connected s = true ->
        (udp_server s = true -> In SockClose t)
        /\ (server s <> None -> In (Call ServerClose) t)
        /\ In (Call (ApConfig "" "")) t).
Proof.
  intros HA HS HP.
  (* the Application Server *)
  assert (Happ : exists tA sA,
             (if sta_web_server env
              then bind (print "Stopping STA web server...") (fun _ => ext env AppStop)
              else ret tt) (log (Print "Cleaning up resources...") s) = (Ret tt, sA)
             /\ trace sA = (trace s ++ Print "Cleaning up resources..." :: tA)%list
             /\ (sta_web_server env = true -> In (Call AppStop) tA)
             /\ sta_connected sA = sta_connected s /\ ap_connected sA = ap_connected s
             /\ udp_server sA = udp_server s /\ server sA = server s).
  { destruct (sta_web_server env).
    - eexists _, _. unfold bind, print, emit, modify. rewrite (ext_ok env _ _ HA).
      split; [reflexivity |]. cbn [trace log]. rewrite <- !app_assoc.
      split; [reflexivity |]. cbn. auto 10.
    - exists [], (log (Print "Cleaning up resources...") s).
      repeat split. discriminate. }
  destruct Happ as (tA & sA & EA & HtA & HinA & HstaA & HapA & HudpA & HsrvA).
  (* the station *)
  assert (Hsta : exists tS sS,
             (if sta_connected sA
              then bind (print "Disconnecting from WiFi...")
                        (fun _ => disconnect_from_wifi env)
              else ret tt) (log (Call StaIsConnected) sA) = (Ret tt, sS)
             /\ trace sS = (trace sA ++ Call StaIsConnected :: tS)%list
             /\ (sta_connected s = true -> In (Call (StaActive false)) tS)
             /\ ap_connected sS = ap_connected s
             /\ udp_server sS = udp_server s /\ server sS = server s).
  { rewrite HstaA. destruct (sta_connected s).
    - unfold bind, print, emit, modify.
      destruct (disconnect_from_wifi_attempt env
                  (log (Print "Disconnecting from WiFi...") (log (Call StaIsConnected) sA)) HS)
        as (sS & tS & ES & HtS & HinS & HapS & HudpS & HsrvS).
      rewrite ES. exists (Print "Disconnecting from WiFi..." :: tS), sS.
      split; [reflexivity |]. rewrite HtS. cbn [trace log]. rewrite <- !app_assoc.
      split; [reflexivity |]. cbn [In]. cbn [log ap_connected udp_server server] in *.
      repeat split; auto; congruence.
    - exists [], (log (Call StaIsConnected) sA).
      cbn [log trace ap_connected udp_server server]. repeat split; auto. discriminate. }
  destruct Hsta as (tS & sS & ES & HtS & HinS & HapS & HudpS & HsrvS).
  (* the access point services *)
  assert (Hap : exists tP sP,
             (if ap_connected sS
              then bind (print "Stopping access point services...")
                     (fun _ => bind stop_dns
                        (fun _ => bind (stop_captive_portal_server env)
                           (fun _ => stop_ap env)))
              else ret tt) (log (Call ApIsConnected) sS) = (Ret tt, sP)
             /\ trace sP = (trace sS ++ Call ApIsConnected :: tP)%list
             /\ (ap_connected s = true ->
                 (udp_server s = true -> In SockClose tP)
                 /\ (server s <> None -> In (Call ServerClose) tP)
                 /\ In (Call (ApConfig "" "")) tP)).
  { rewrite HapS. destruct (ap_connected s) eqn:Hapc.
    - unfold bind, print, emit, modify.
      destruct (stop_dns_attempt
                  (log (Print "Stopping access point services...") (log (Call ApIsConnected) sS)))
        as (s1 & t1 & E1 & Ht1 & Hin1 & Hap1 & Hsrv1).
      rewrite E1.
      destruct (stop_captive_portal_server_attempt env s1)
        as (s2 & t2 & E2 & Ht2 & Hin2 & Hap2).
      rewrite E2.
      destruct (stop_ap_attempt env s2 HP) as (s3 & t3 & E3 & Ht3 & Hin3).
      rewrite E3.
      exists (Print "Stopping access point services..." :: t1 ++ t2 ++ t3)%list, s3.
      split; [reflexivity |]. rewrite Ht3, Ht2, Ht1. cbn [trace log].
      rewrite <- !app_assoc. split; [reflexivity |].
      cbn [log ap_connected udp_server server] in *.
      intros _. repeat split.
      + intros Hudp. right. apply in_or_app. left. apply Hin1. congruence.
      + intros Hsrv. right. apply in_or_app. right. apply in_or_app. left.
        apply Hin2. congruence.
      + right. apply in_or_app. right. apply in_or_app. right.
        apply Hin3. congruence.
    - exists [], (log (Call ApIsConnected) sS). repeat split; discriminate. }
  destruct Hap as (tP & sP & EP & HtP & HinP).
  exists (log Sleep sP),
         (Print "Cleaning up resources..." :: tA ++ Call StaIsConnected :: tS
            ++ Call ApIsConnected :: tP ++ [Sleep])%list.
  split.
  - unfold run_cleanup, try_except.
    unfold bind at 1. cbv beta iota delta [print emit modify].
    unfold bind at 1. unfold bind at 1.
    change (bind (emit (Print "Stopping STA web server...")) (fun _ => ext env AppStop))
      with (bind (print "Stopping STA web server...") (fun _ => ext env AppStop)) in EA.
    unfold print, emit, modify in EA. rewrite EA. cbv beta iota.
    unfold bind at 1. rewrite (sta_if_isconnected_ok env sA HS). cbv beta iota.
    unfold bind at 1.
    unfold print, emit, modify in ES. rewrite ES. cbv beta iota.
    unfold bind at 1. rewrite (ap_if_isconnected_ok env sS HP). cbv beta iota.
    unfold print, emit, modify in EP. rewrite EP. reflexivity.
  - cbn [trace log]. rewrite HtP, HtS, HtA.
    split.
    { repeat (rewrite <- app_assoc; cbn [app]). reflexivity. }
    split; [| split].
    + intros Hweb. right. apply in_or_app. left. now apply HinA.
    + intros Hc. right. apply in_or_app. right. right. apply in_or_app. left.
      now apply HinS.
    + intros Hc. destruct (HinP Hc) as (H1 & H2 & H3).
      assert (Hsub : forall ev, In ev tP ->
                In ev (Print "Cleaning up resources..." :: tA ++ Call StaIsConnected :: tS
                       ++ Call ApIsConnected :: tP ++ [Sleep])%list).
      { intros ev Hin. right. apply in_or_app. right. right. apply in_or_app. right.
        right. apply in_or_app. now left. }
      repeat split; auto.
Qed.

(** C2 (as amended).  The shutdown block of [run] always returns.  The
    stop steps it makes come in the order Application Server, station
    disconnect, DNS Redirector, captive-portal listener, Access Point.
    They share one guard: when the Application Server stop and the two
    [isconnected()] checks do not fail, every step that is due is
    attempted, whatever fails inside the station disconnect, the listener
    stop or the access-point stop. *)
Theorem run_cleanup_order_and_guard (env : Env) (s : State) :
  exists s' t,
    run_cleanup env s = (Ret tt, s')
    /\ trace s' = (trace s ++ t)%list
    /\ in_stop_order 1 5 t
    /\ (fault env AppStop = None ->
        fault env StaIsConnected = None ->
        fault env ApIsConnected = None ->
        (sta_web_server env = true -> In (Call AppStop) t)
        /\ (sta_connected s = true -> In (Call (StaActive false)) t)
        /\ (ap_connected s = true ->
            (udp_server s = true -> In SockClose t)
            /\ (server s <> None -> In (Call ServerClose) t)
            /\ In (Call (ApConfig "" "")) t)).
Proof.
  destruct (ordered_run_cleanup env s) as (r & s' & t & E & _ & Ht & Hord).
  destruct (run_cleanup_returns env s) as (s0 & E0).
  assert (s0 = s' /\ r = Ret tt) as [-> ->] by (rewrite E in E0; now inversion E0).
  exists s', t. split; [exact E |]. split; [exact Ht |]. split; [exact Hord |].
  intros HA HS HP.
  destruct (run_cleanup_attempts env s HA HS HP) as (s1 & t1 & E1 & Ht1 & Hattempts).
  assert (s1 = s') as -> by (rewrite E in E1; now inversion E1).
  assert (t1 = t) as -> by (rewrite Ht in Ht1; now apply app_inv_head in Ht1).
  exact Hattempts.
Qed.

(** C2 (as stated) fails: when stopping the Application Server raises, the
    shutdown reports the error and makes no further stop step, although
    the station is connected and its disconnect is due. *)
Lemma run_cleanup_app_stop_failure_skips_the_rest :
  sta_web_server env_app_stop_fails = true
  /\ sta_connected station_online = true
  /\ trace (snd (run_cleanup env_app_stop_fails station_online))
     = [Print "Cleaning up resources..."; Print "Stopping STA web server...";
        Call AppStop; Print "Error during cleanup: server busy"; Sleep]
  /\ sta_connected (snd (run_cleanup env_app_stop_fails station_online)) = true.
Proof. repeat split. Qed.

(** ** Fallback *)

Ltac exec_all :=
  cbv beta iota zeta delta
    [bind ret raise try_except try_finally gets modify emit print sleep ext lift
     sta_if_active sta_if_connect sta_if_isconnected sta_if_ifconfig0 sta_if_deinit
     ap_if_config ap_if_active ap_if_set_ifconfig ap_if_ifconfig0 ap_if_deinit
     ap_if_isconnected await_link uos_listdir
     log set_sta set_attempts set_ap set_ap_config set_ap_netcfg set_ip_address
     set_udp_server set_server station services
     sta_active sta_connected ap_active ap_connected ap_essid ap_key ap_netcfg
     ip_address server udp_server attempts rx tx trace negb andb fst snd].

Section OutOfReach.

Variable env : Env.
Hypothesis Hout : out_of_reach env.

Lemma connect_attempts_fail (ssid password : string) (left : nat) :
  forall (n : Z) (s : State),
    sta_connected s = false ->
    exists s',
      connect_attempts env left n ssid password s = (Ret tt, s')
      /\ sta_connected s' = false
      /\ services s' = services s.
Proof.
  destruct Hout as [Hnf _ _ Hlink _].
  induction left as [| left IH]; intros n s Hs.
  - exists s. repeat split. exact Hs.
  - destruct s as [sa sc aa ac ae ak an ip srv udp att rx tx tr].
    cbn [sta_connected] in Hs. subst sc.
    cbn [connect_attempts].
    repeat (progress (exec_all; rewrite ?Hnf, ?Hlink)).
    match goal with
    | |- context [connect_attempts env left ?n' ssid password ?s1] =>
        destruct (IH n' s1 eq_refl) as (s' & E & Hc & Hserv)
    end.
    exists s'. split; [exact E |]. split; [exact Hc |]. exact Hserv.
Qed.

Lemma load_config_fail (s : State) :
  sta_connected s = false ->
  exists s',
    load_config env s = (Ret tt, s')
    /\ station s' = (false, false)
    /\ services s' = services s.
Proof.
  intros Hs. pose proof Hout as [Hnf Hfile Hssid Hlink _].
  destruct s as [sa sc aa ac ae ak an ip srv udp att rx tx tr].
  cbn [sta_connected] in Hs. subst sc.
  unfold load_config.
  repeat (progress (exec_all; rewrite ?Hnf, ?Hfile, ?Hssid)).
  match goal with
  | |- context [connect_attempts env 3 0 _ _ ?s1] =>
      destruct (connect_attempts_fail (stored_ssid env) (stored_password env) 3 0 s1 eq_refl)
        as (s' & E & Hc & Hserv)
  end.
  rewrite E.
  destruct s' as [sa' sc' aa' ac' ae' ak' an' ip' srv' udp' att' rx' tx' tr'].
  cbn [sta_connected] in Hc. subst sc'.
  repeat (progress (exec_all; rewrite ?Hnf)).
  eexists. split; [reflexivity |]. split; [reflexivity |].
  revert Hserv. exec_all. exact (fun H => H).
Qed.

Lemma start_ap_ok (s : State) :
  exists s',
    start_ap env s = (Ret tt, s')
    /\ station s' = station s
    /\ ap_active s' = true
    /\ ip_address s' = Some ap_ip_address
    /\ server s' = server s
    /\ udp_server s' = udp_server s.
Proof.
  pose proof Hout as [Hnf _ _ _ Hpw].
  destruct s as [sa sc aa ac ae ak an ip srv udp att rx tx tr].
  unfold start_ap.
  destruct (Nat.ltb_spec (String.length (ap_password env)) 8) as [Hlt | _]; [lia |].
  repeat (progress (exec_all; rewrite ?Hnf)).
  eexists. repeat split.
Qed.

Lemma forever_sleep_pending (fuel : nat) :
  forall s, exists s',
    forever fuel sleep s = (Pending, s')
    /\ station s' = station s
    /\ services s' = services s.
Proof.
  induction fuel as [| fuel IH]; intros s.
  - exists s. repeat split.
  - cbn [forever]. unfold bind.
    change (sleep s) with (@Ret unit tt, log Sleep s). cbv beta iota.
    destruct (IH (log Sleep s)) as (s' & E & Hsta & Hserv).
    exists s'. rewrite E. repeat split; assumption.
Qed.

Lemma start_captive_portal_server_pending (fuel : nat) (s : State) (ip : string) :
  ip_address s = Some ip -> truthy ip = true ->
  exists s',
    start_captive_portal_server env fuel s = (Pending, s')
    /\ station s' = station s
    /\ ap_active s' = ap_active s
    /\ ip_address s' = ip_address s
    /\ server s' = Some PortalListener
    /\ udp_server s' = udp_server s.
Proof.
  intros Hip Htruthy. pose proof Hout as [Hnf _ _ _ _].
  destruct s as [sa sc aa ac ae ak an ip0 srv udp att rx tx tr].
  cbn [ip_address] in Hip. subst ip0.
  unfold start_captive_portal_server.
  unfold bind at 1. cbv beta iota delta [gets ip_address]. rewrite Htruthy. cbn [negb].
  unfold try_except. unfold bind at 1. rewrite (ext_ok env _ _ (Hnf _)). cbv beta iota.
  unfold bind at 1. cbv beta iota delta [modify].
  unfold bind at 1. cbv beta iota delta [print emit modify].
  match goal with
  | |- context [forever fuel sleep ?s1] =>
      destruct (forever_sleep_pending fuel s1) as (s' & E & Hsta & Hserv)
  end.
  rewrite E. exists s'. split; [reflexivity |].
  destruct s' as [sa' sc' aa' ac' ae' ak' an' ip' srv' udp' att' rx' tx' tr'].
  revert Hsta Hserv. exec_all. intros [= -> ->] [= -> -> -> -> -> -> -> ->].
  repeat split.
Qed.

Lemma run_loop_blocks_in_portal (fuel : nat) (s : State) :
  sta_connected s = false ->
  exists s',
    run_loop env (S fuel) s = (Pending, s')
    /\ station s' = (false, false)
    /\ ap_active s' = true
    /\ ip_address s' = Some ap_ip_address
    /\ server s' = Some PortalListener
    /\ udp_server s' = udp_server s.
Proof.
  intros Hs. pose proof Hout as [Hnf _ _ _ _].
  cbn [run_loop].
  unfold bind at 1. rewrite (sta_if_isconnected_ok env s (Hnf _)). cbv beta iota.
  rewrite Hs. cbn [negb].
  unfold bind at 1. unfold bind at 1. cbv beta iota delta [print emit modify].
  unfold bind at 1.
  destruct (load_config_fail
              (log (Print "Station disconnected, attempting reconnection...")
                 (log (Call StaIsConnected) s)) Hs)
    as (s1 & E1 & Hsta1 & Hserv1).
  rewrite E1. cbv beta iota.
  unfold bind at 1. rewrite (sta_if_isconnected_ok env s1 (Hnf _)). cbv beta iota.
  assert (Hc1 : sta_connected s1 = false) by (now inversion Hsta1).
  rewrite Hc1. cbn [negb].
  unfold bind at 1. cbv beta iota delta [print emit modify].
  unfold bind at 1.
  match goal with
  | |- context [start_ap env ?s2] =>
      destruct (start_ap_ok s2) as (s3 & E3 & Hsta3 & Hap3 & Hip3 & Hsrv3 & Hudp3)
  end.
  rewrite E3. cbv beta iota.
  unfold bind at 1.
  destruct (start_captive_portal_server_pending fuel s3 ap_ip_address Hip3 eq_refl)
    as (s4 & E4 & Hsta4 & Hap4 & Hip4 & Hsrv4 & Hudp4).
  rewrite E4. cbv beta iota.
  exists s4. split; [reflexivity |].
  split; [rewrite Hsta4, Hsta3; exact Hsta1 |].
  split; [rewrite Hap4; exact Hap3 |].
  split; [rewrite Hip4; exact Hip3 |].
  split; [exact Hsrv4 |].
  rewrite Hudp4, Hudp3. cbn [log udp_server].
  revert Hserv1. unfold services. cbn [log udp_server]. now intros [= _ _ _ _ _ _ _ ->].
Qed.

End OutOfReach.

(** C1 (what the code does).  On a device whose saved network is out of
    reach, with no call failing and a valid access-point password, [run]
    makes its station attempts, deactivates the station, starts the
    access point and the captive-portal listener, and then stays inside
    [start_captive_portal_server] for as long as it is run: the call that
    would start the DNS Redirector is never reached, and the redirector
    has no socket. *)
Theorem run_fallback_never_starts_dns (env : Env) (s : State) (fuel : nat) :
  out_of_reach env ->
  sta_connected s = false ->
  exists s',
    run env (S fuel) s = (Pending, s')
    /\ station s' = (false, false)
    /\ ap_active s' = true
    /\ ip_address s' = Some ap_ip_address
    /\ server s' = Some PortalListener
    /\ udp_server s' = udp_server s.
Proof.
  intros Hout Hs. pose proof Hout as [Hnf _ _ _ _].
  unfold run, try_finally, try_except.
  unfold bind at 1. cbv beta iota delta [print emit modify].
  unfold bind at 1. rewrite (ext_ok env _ _ (Hnf _)). cbv beta iota.
  unfold bind at 1.
  destruct (load_config_fail env Hout
              (log (Call (Hostname (hostname env)))
                 (log (Print ("Goat - Network Manager Version " ++ VERSION)) s)) Hs)
    as (s1 & E1 & Hsta1 & Hserv1).
  rewrite E1. cbv beta iota.
  assert (Hc1 : sta_connected s1 = false) by (now inversion Hsta1).
  destruct (run_loop_blocks_in_portal env Hout fuel s1 Hc1)
    as (s2 & E2 & Hsta2 & Hap2 & Hip2 & Hsrv2 & Hudp2).
  rewrite E2. exists s2. split; [reflexivity |].
  repeat split; try assumption.
  rewrite Hudp2. revert Hserv1. unfold services. cbn [log udp_server].
  now intros [= _ _ _ _ _ _ _ ->].
Qed.

Lemma env0_out_of_reach : out_of_reach env0.
Proof. split; first [reflexivity | cbn; lia]. Qed.

Lemma run_fallback_never_starts_dns_witness :
  out_of_reach env0
  /\ sta_connected boot = false
  /\ exists s',
       run env0 3 boot = (Pending, s')
       /\ station s' = (false, false)
       /\ ap_active s' = true
       /\ ip_address s' = Some ap_ip_address
       /\ server s' = Some PortalListener
       /\ udp_server s' = udp_server boot.
Proof.
  split; [exact env0_out_of_reach |]. split; [reflexivity |].
  exact (run_fallback_never_starts_dns env0 boot 2 env0_out_of_reach eq_refl).
Defined.

(** * Further properties of the code *)

(** ** States that differ by their trace only *)

Lemma log_append_trace (ev : Event) (t : list Event) (s : State) :
  log ev (append_trace t s) = append_trace (t ++ [ev]) s.
Proof. unfold log, append_trace. cbn. now rewrite app_assoc. Qed.

Lemma log_as_append (ev : Event) (s : State) : log ev s = append_trace [ev] s.
Proof. reflexivity. Qed.

Lemma append_trace_nil (s : State) : append_trace [] s = s.
Proof. destruct s as [sa sc aa ac ae ak an ip srv udp att rx tx tr]. unfold append_trace. cbn. now rewrite app_nil_r. Qed.

Lemma append_trace_app (t1 t2 : list Event) (s : State) :
  append_trace t2 (append_trace t1 s) = append_trace (t1 ++ t2) s.
Proof. unfold append_trace. cbn. now rewrite app_assoc. Qed.

(** Turning a chain of [log]s into one [append_trace]. *)
Ltac as_append :=
  repeat rewrite log_as_append; repeat rewrite append_trace_app; cbn [app].

(** ** load_config *)

(** X1. Without a saved configuration file [load_config] reports that
    none was found and does nothing else: no call reaches the radio or the
    configuration store, and no fallback is started. *)
Theorem load_config_without_file (env : Env) (s : State) :
  fault env (Listdir config_directory) = None ->
  mem config_file (files env) = false ->
  load_config env s
  = (Ret tt,
     append_trace [Call (Listdir config_directory);
                   Print "No saved network configuration found."] s).
Proof.
  intros Hlist Hfile. unfold load_config, try_except, uos_listdir.
  unfold bind. rewrite (ext_ok env _ s Hlist). cbv beta iota delta [ret].
  rewrite Hfile. cbv beta iota delta [print emit modify].
  as_append. reflexivity.
Qed.

(** Running a program on a state given by its fields, when the calls
    named by the rewrite hypotheses do not fail. *)
Ltac exec_x :=
  exec_all;
  cbv beta iota zeta delta
    [append_trace sta_active sta_connected ap_active ap_connected ap_essid
     ap_key ap_netcfg ip_address server udp_server attempts rx tx trace].

Ltac same_state := exec_x; rewrite <- ?app_assoc; cbn [app]; reflexivity.

(** X2. With a configuration file whose SSID is empty [load_config]
    reports it and makes no connection attempt: the configuration is read,
    the station interface is not touched. *)
Theorem load_config_empty_ssid (env : Env) (s : State) :
  (forall op, fault env op = None) ->
  mem config_file (files env) = true ->
  truthy (stored_ssid env) = false ->
  load_config env s
  = (Ret tt,
     append_trace
       [Call (Listdir config_directory);
        Call (CfgNew config_directory config_file);
        Call CfgRead;
        Call (CfgGet "network" "ssid");
        Call (CfgGet "network" "password");
        Print "No SSID provided in configuration. Cannot connect to a network."] s).
Proof.
  intros Hnf Hfile Hssid. destruct s as [sa sc aa ac ae ak an ip srv udp att rx tx tr]. unfold load_config.
  repeat (progress (exec_all; rewrite ?Hnf, ?Hfile, ?Hssid)).
  same_state.
Qed.

(** ** save_config *)

(** X3. [save_config] never raises and changes nothing on the device:
    whatever the configuration store does, the state after the call is the
    state before it with a longer trace. *)
Theorem save_config_is_harmless (env : Env) (ssid password : string) (s : State) :
  exists t, save_config env ssid password s = (Ret tt, append_trace t s).
Proof.
  destruct s as [sa sc aa ac ae ak an ip srv udp att rx tx tr]. unfold save_config.
  exec_faults env; exec_all; eexists; same_state.
Qed.

(** X4. When the configuration store works, [save_config] reads the
    stored configuration, sets the ssid and the password of the section
    [network], in this order, and writes the file. *)
Theorem save_config_writes_both (env : Env) (ssid password : string) (s : State) :
  (forall op, fault env op = None) ->
  save_config env ssid password s
  = (Ret tt,
     append_trace
       [Call (CfgNew config_directory config_file);
        Call CfgRead;
        Call (CfgSet "network" "ssid" ssid);
        Call (CfgSet "network" "password" password);
        Call CfgWrite;
        Print "Network configuration saved."] s).
Proof.
  intros Hnf. destruct s as [sa sc aa ac ae ak an ip srv udp att rx tx tr]. unfold save_config.
  repeat (progress (exec_all; rewrite ?Hnf)).
  same_state.
Qed.

(** ** stop_ap and disconnect_from_wifi *)

(** X5. [stop_ap] looks at [ap_if.isconnected()], not at the radio: with
    no client connected it reports that the access point is not enabled
    and changes nothing, so an active access point stays active. *)
Theorem stop_ap_without_client (env : Env) (s : State) :
  fault env ApIsConnected = None ->
  ap_connected s = false ->
  stop_ap env s
  = (Ret tt,
     append_trace [Call ApIsConnected;
                   Print "The access point is not currently enabled."] s).
Proof.
  intros Hconn Hc. unfold stop_ap. unfold bind at 1.
  rewrite (ap_if_isconnected_ok env s Hconn). cbv beta iota. rewrite Hc.
  cbv beta iota delta [negb print emit modify]. as_append. reflexivity.
Qed.

(** X6. With a client connected and no call failing, [stop_ap] clears the
    SSID and the password of the access point, deactivates it and forgets
    the stored IP address; the station interface, the listener handle and
    the DNS socket are left alone. *)
Theorem stop_ap_with_client (env : Env) (s : State) :
  (forall op, fault env op = None) ->
  ap_connected s = true ->
  exists s',
    stop_ap env s = (Ret tt, s')
    /\ ap_active s' = false /\ ap_connected s' = false
    /\ ap_essid s' = "" /\ ap_key s' = ""
    /\ ip_address s' = None
    /\ station s' = station s
    /\ server s' = server s
    /\ udp_server s' = udp_server s.
Proof.
  intros Hnf Hc. destruct s as [sa sc aa ac ae ak an ip srv udp att rx tx tr]. cbn [ap_connected] in Hc. subst.
  unfold stop_ap.
  repeat (progress (exec_all; rewrite ?Hnf)).
  eexists. split; [reflexivity |]. exec_x. repeat split.
Qed.

(** X7. [disconnect_from_wifi] on a station that is not connected reports
    it and changes nothing, even if the station interface is active. *)
Theorem disconnect_when_not_connected (env : Env) (s : State) :
  fault env StaIsConnected = None ->
  sta_connected s = false ->
  disconnect_from_wifi env s
  = (Ret tt,
     append_trace [Call StaIsConnected; Print "The network is not connected."] s).
Proof.
  intros Hconn Hc. unfold disconnect_from_wifi. unfold bind at 1.
  rewrite (sta_if_isconnected_ok env s Hconn). cbv beta iota. rewrite Hc.
  cbv beta iota delta [negb print emit modify]. as_append. reflexivity.
Qed.

(** X8. [disconnect_from_wifi] on a connected station, with no call
    failing, deactivates the station interface and forgets the stored IP
    address; the access point, the listener handle and the DNS socket are
    left alone. *)
Theorem disconnect_when_connected (env : Env) (s : State) :
  (forall op, fault env op = None) ->
  sta_connected s = true ->
  exists s',
    disconnect_from_wifi env s = (Ret tt, s')
    /\ station s' = (false, false)
    /\ ip_address s' = None
    /\ ap_active s' = ap_active s /\ ap_connected s' = ap_connected s
    /\ server s' = server s
    /\ udp_server s' = udp_server s.
Proof.
  intros Hnf Hc. destruct s as [sa sc aa ac ae ak an ip srv udp att rx tx tr]. cbn [sta_connected] in Hc. subst.
  unfold disconnect_from_wifi.
  repeat (progress (exec_all; rewrite ?Hnf)).
  eexists. split; [reflexivity |]. exec_x. repeat split.
Qed.

(** ** The listener and the DNS socket *)

(** X9. [stop_captive_portal_server] never raises and changes nothing on
    the device; in particular [self.server] keeps the handle it held.
    Without a handle it only reports that the server is stopped; with one
    it closes it. *)
Theorem stop_captive_portal_server_is_harmless (env : Env) (s : State) :
  exists t,
    stop_captive_portal_server env s = (Ret tt, append_trace t s)
    /\ match server s with
       | None => t = [Print "Server already stopped."]
       | Some _ => In (Call ServerClose) t
       end.
Proof.
  destruct s as [sa sc aa ac ae ak an ip [h |] udp att rx tx tr];
    unfold stop_captive_portal_server;
    exec_faults env; exec_all; eexists; (split; [same_state |]); cbn; auto.
Qed.

(** X10. [stop_dns] closes the socket and forgets it; a second call finds
    no socket and does nothing at all. *)
Theorem stop_dns_idempotent (s : State) :
  exists s1,
    stop_dns s = (Ret tt, s1)
    /\ udp_server s1 = false
    /\ stop_dns s1 = (Ret tt, s1).
Proof.
  destruct s as [sa sc aa ac ae ak an ip srv [|] att rx tx tr];
    eexists; (split; [reflexivity |]); split; reflexivity.
Qed.

(** X11. Without a stored IP address [start_captive_portal_server] starts
    no listener: it reports that no address is assigned and returns. *)
Theorem start_captive_portal_server_without_ip (env : Env) (fuel : nat) (s : State) :
  default "" (ip_address s) = "" ->
  start_captive_portal_server env fuel s
  = (Ret tt,
     append_trace [Print "AP IP address not assigned. Cannot start server."] s).
Proof.
  intros Hip. unfold start_captive_portal_server. unfold bind.
  cbv beta iota delta [gets].
  destruct (ip_address s) as [ip |]; simpl in Hip; [subst ip | ];
    cbv beta iota delta [truthy negb String.eqb print emit modify];
    as_append; reflexivity.
Qed.

(** X12. When the listener cannot be started, [start_captive_portal_server]
    reports the error and returns; [self.server] keeps what it held. *)
Theorem start_captive_portal_server_failure
    (env : Env) (fuel : nat) (s : State) (ip : string) (e : exn) :
  ip_address s = Some ip -> truthy ip = true ->
  fault env (StartServer ip captive_portal_http_port) = Some e ->
  start_captive_portal_server env fuel s
  = (Ret tt,
     append_trace
       [Call (StartServer ip captive_portal_http_port);
        Print ("Error starting the captive portal server: " ++ str_exn e)] s).
Proof.
  intros Hip Ht Hfault. unfold start_captive_portal_server. unfold bind at 1.
  cbv beta iota delta [gets]. rewrite Hip, Ht. cbv beta iota delta [negb].
  unfold try_except. unfold bind at 1. unfold ext. rewrite Hfault.
  cbv beta iota delta [print emit modify]. as_append. reflexivity.
Qed.

(** ** The connection attempts of load_config *)

Section Attempts.

Variable env : Env.

(** Case analysis on whatever a stuck run waits for, except the recursive
    call. *)
Ltac split_run :=
  repeat (unfold sta_web_server_run; exec_all;
          match goal with
          | |- context [match fault env ?op with _ => _ end] => destruct (fault env op)
          | |- context [if link_up env ?n then _ else _] => destruct (link_up env n)
          | |- context [if sta_web_server env then _ else _] => destruct (sta_web_server env)
          end);
  unfold sta_web_server_run; exec_all.

Lemma connect_attempts_bounded (ssid password : string) (left : nat) :
  forall (n : Z) (s : State),
    (attempts (snd (connect_attempts env left n ssid password s))
     <= attempts s + left)%nat.
Proof.
  induction left as [| left IH]; intros n s.
  - cbn. lia.
  - destruct s as [sa sc aa ac ae ak an ip srv udp att rx tx tr].
    cbn [connect_attempts]. destruct sc; split_run;
      try (cbn; lia);
      match goal with
      | |- context [connect_attempts env left ?n' ssid password ?s1] =>
          specialize (IH n' s1);
          destruct (connect_attempts env left n' ssid password s1) as [[[] | ? |] s'];
          destruct s'; cbn in *; lia
      end.
Qed.

(** X13. [load_config] never issues more than 3 calls of [connect()],
    whatever fails and whatever the network does: the retry counter is
    bounded. *)
Theorem load_config_at_most_three_attempts (s : State) :
  (attempts (snd (load_config env s)) <= attempts s + 3)%nat.
Proof.
  destruct s as [sa sc aa ac ae ak an ip srv udp att rx tx tr].
  unfold load_config.
  destruct (mem config_file (files env)) eqn:Hfile;
    destruct (truthy (stored_ssid env)) eqn:Hssid;
    repeat (progress (split_run; rewrite ?Hfile, ?Hssid));
    try (cbn; lia);
    match goal with
    | |- context [connect_attempts env 3 0 ?ssid ?password ?s1] =>
        pose proof (connect_attempts_bounded ssid password 3 0 s1) as Hb;
        destruct (connect_attempts env 3 0 ssid password s1) as [[[] | ? |] s'];
        destruct s' as [sa' sc' aa' ac' ae' ak' an' ip' srv' udp' att' rx' tx' tr'];
        destruct sc'; split_run; cbn in *; lia
    end.
Qed.

End Attempts.

Section Reachable.

Variable env : Env.
Hypothesis Hnf : forall op, fault env op = None.

Lemma connect_attempts_success (ssid password : string) (left : nat) :
  forall (k : nat) (n : Z) (s : State),
    (1 <= k <= left)%nat ->
    sta_connected s = false ->
    (forall j, (1 <= j < k)%nat -> link_up env (j + attempts s) = false) ->
    link_up env (k + attempts s) = true ->
    exists s',
      connect_attempts env left n ssid password s = (Ret tt, s')
      /\ station s' = (true, true)
      /\ ip_address s' = Some (sta_ip env)
      /\ attempts s' = (k + attempts s)%nat
      /\ server s' = (if sta_web_server env then Some AppServer else server s)
      /\ ap_active s' = ap_active s
      /\ udp_server s' = udp_server s.
Proof.
  induction left as [| left IH]; intros k n s Hk Hs Hfail Hup; [lia |].
  destruct s as [sa sc aa ac ae ak an ip srv udp att rx tx tr].
  cbn [sta_connected attempts] in *. subst sc.
  destruct (Nat.eq_dec k 1%nat) as [-> | Hne].
  - cbn [Nat.add] in Hup. cbn [connect_attempts].
    repeat (progress (exec_all; rewrite ?Hnf, ?Hup)).
    destruct (sta_web_server env); unfold sta_web_server_run;
      repeat (progress (exec_all; rewrite ?Hnf));
      eexists; (split; [reflexivity |]); exec_x; repeat split.
  - assert (H1 : link_up env (S att) = false) by (apply (Hfail 1%nat); lia).
    cbn [connect_attempts].
    repeat (progress (exec_all; rewrite ?Hnf, ?H1)).
    match goal with
    | |- context [connect_attempts env left ?n' ssid password ?s1] =>
        destruct (IH (k - 1)%nat n' s1) as (s' & E & Hsta & Hip & Hatt & Hsrv & Hap & Hudp)
    end.
    + lia.
    + reflexivity.
    + intros j Hj. cbn [attempts].
      replace (j + S att)%nat with (S j + att)%nat by lia. apply Hfail. lia.
    + cbn [attempts]. replace (k - 1 + S att)%nat with (k + att)%nat by lia. exact Hup.
    + exists s'. split; [exact E |].
      destruct s'. cbn in *. repeat split; first [assumption | lia].
Qed.

Lemma load_config_connects (k : nat) (s : State) :
  (1 <= k <= 3)%nat ->
  mem config_file (files env) = true ->
  truthy (stored_ssid env) = true ->
  sta_connected s = false ->
  (forall j, (1 <= j < k)%nat -> link_up env (j + attempts s) = false) ->
  link_up env (k + attempts s) = true ->
  exists s',
    load_config env s = (Ret tt, s')
    /\ station s' = (true, true)
    /\ ip_address s' = Some (sta_ip env)
    /\ attempts s' = (k + attempts s)%nat
    /\ server s' = (if sta_web_server env then Some AppServer else server s)
    /\ ap_active s' = ap_active s
    /\ udp_server s' = udp_server s.
Proof.
  intros Hk Hfile Hssid Hs Hfail Hup.
  destruct s as [sa sc aa ac ae ak an ip srv udp att rx tx tr].
  cbn [sta_connected attempts] in *. subst sc.
  unfold load_config.
  repeat (progress (exec_all; rewrite ?Hnf, ?Hfile, ?Hssid)).
  match goal with
  | |- context [connect_attempts env 3 0 ?ssid ?password ?s1] =>
      destruct (connect_attempts_success ssid password 3 k 0 s1 Hk eq_refl Hfail Hup)
        as (s' & E & Hsta & Hip & Hatt & Hsrv & Hap & Hudp)
  end.
  rewrite E.
  destruct s' as [sa' sc' aa' ac' ae' ak' an' ip' srv' udp' att' rx' tx' tr'].
  revert Hsta Hip Hatt Hsrv Hap Hudp. exec_x. intros [= -> ->] -> -> -> -> ->.
  repeat (progress (exec_all; rewrite ?Hnf)).
  eexists. split; [reflexivity |]. exec_x. repeat split.
Qed.

(** X14. When no call fails and the saved network answers the [k]-th
    attempt (1, 2 or 3), [load_config] stops trying at that attempt: it
    has called [connect()] exactly [k] times, the station is connected,
    the stored IP address is the station's, the station web server is
    started if there is one, and the access point and the DNS socket are
    as they were. *)
Theorem load_config_connects_on_attempt (k : nat) (s : State) :
  (1 <= k <= 3)%nat ->
  mem config_file (files env) = true ->
  truthy (stored_ssid env) = true ->
  sta_connected s = false ->
  (forall j, (1 <= j < k)%nat -> link_up env (j + attempts s) = false) ->
  link_up env (k + attempts s) = true ->
  exists s',
    load_config env s = (Ret tt, s')
    /\ station s' = (true, true)
    /\ ip_address s' = Some (sta_ip env)
    /\ attempts s' = (k + attempts s)%nat
    /\ server s' = (if sta_web_server env then Some AppServer else server s)
    /\ ap_active s' = ap_active s
    /\ udp_server s' = udp_server s.
Proof. exact (load_config_connects k s). Qed.

(** While the station is connected the loop of [run] only polls. *)
Lemma run_loop_connected (fuel : nat) :
  forall s, sta_connected s = true ->
    exists s',
      run_loop env fuel s = (Pending, s')
      /\ station s' = station s
      /\ services s' = services s
      /\ attempts s' = attempts s.
Proof.
  induction fuel as [| fuel IH]; intros s Hs.
  - exists s. repeat split.
  - destruct s as [sa sc aa ac ae ak an ip srv udp att rx tx tr].
    cbn [sta_connected] in Hs. subst sc.
    cbn [run_loop].
    repeat (progress (exec_all; rewrite ?Hnf)).
    match goal with
    | |- context [run_loop env fuel ?s1] =>
        destruct (IH s1 eq_refl) as (s' & E & Hsta & Hserv & Hatt)
    end.
    exists s'. split; [exact E |]. split; [exact Hsta |]. split; [exact Hserv | exact Hatt].
Qed.

(** X30. On a device whose saved network answers the first attempt, with
    no call failing, [run] connects and then only polls the link for as
    long as it is run: the station stays connected with its address
    stored, the station web server is started if there is one, and
    neither the access point nor the DNS socket is brought up. *)
Theorem run_stays_on_saved_network (fuel : nat) (s : State) :
  mem config_file (files env) = true ->
  truthy (stored_ssid env) = true ->
  sta_connected s = false ->
  link_up env (S (attempts s)) = true ->
  exists s',
    run env fuel s = (Pending, s')
    /\ station s' = (true, true)
    /\ ip_address s' = Some (sta_ip env)
    /\ attempts s' = S (attempts s)
    /\ server s' = (if sta_web_server env then Some AppServer else server s)
    /\ ap_active s' = ap_active s
    /\ udp_server s' = udp_server s.
Proof.
  intros Hfile Hssid Hs Hup.
  unfold run, try_finally, try_except.
  unfold bind at 1. cbv beta iota delta [print emit modify].
  unfold bind at 1. rewrite (ext_ok env _ _ (Hnf _)). cbv beta iota.
  unfold bind at 1.
  match goal with
  | |- context [load_config env ?s0] =>
      destruct (load_config_connects 1 s0) as (s1 & E1 & Hsta1 & Hip1 & Hatt1 & Hsrv1 & Hap1 & Hudp1);
        [lia | exact Hfile | exact Hssid | exact Hs | intros j Hj; lia | exact Hup |]
  end.
  rewrite E1. cbv beta iota.
  assert (Hc1 : sta_connected s1 = true) by (now inversion Hsta1).
  destruct (run_loop_connected fuel s1 Hc1) as (s2 & E2 & Hsta2 & Hserv2 & Hatt2).
  rewrite E2. exists s2. split; [reflexivity |].
  destruct s1 as [sa1 sc1 aa1 ac1 ae1 ak1 an1 ip1 srv1 udp1 att1 rx1 tx1 tr1].
  destruct s2 as [sa2 sc2 aa2 ac2 ae2 ak2 an2 ip2 srv2 udp2 att2 rx2 tx2 tr2].
  destruct s as [sa sc aa ac ae ak an ip srv udp att rx tx tr].
  revert Hsta1 Hip1 Hatt1 Hsrv1 Hap1 Hudp1 Hsta2 Hserv2 Hatt2. exec_x.
  intros [= -> ->] -> -> -> -> -> [= -> ->] [= -> _ _ _ _ -> -> ->] ->.
  repeat split.
Qed.

End Reachable.

Lemma ends_connect_attempts (env : Env) (ssid password : string) (left : nat) :
  forall n, ends (connect_attempts env left n ssid password).
Proof.
  pose proof (ends_sta_if_active env).
  pose proof (ends_sta_if_isconnected env).
  pose proof (ends_await_link env).
  pose proof (ends_sta_web_server_run env).
  induction left as [| left IH]; intros n; cbn [connect_attempts];
    unfold sta_if_connect, sta_if_ifconfig0; ends_tac.
Qed.

(** X15. Provided [sta_if.active(False)] itself does not fail,
    [load_config] with a saved network always returns normally, whatever
    else fails, and it leaves the station interface either connected or
    deactivated. *)
Theorem load_config_connected_or_deactivated (env : Env) (s : State) :
  fault env (StaActive false) = None ->
  mem config_file (files env) = true ->
  truthy (stored_ssid env) = true ->
  exists s',
    load_config env s = (Ret tt, s')
    /\ (sta_connected s' = true \/ sta_active s' = false).
Proof.
  intros Hact Hfile Hssid.
  destruct s as [sa sc aa ac ae ak an ip srv udp att rx tx tr].
  unfold load_config.
  repeat (exec_all; rewrite ?Hact, ?Hfile, ?Hssid;
          match goal with
          | |- context [match fault env ?op with _ => _ end] => destruct (fault env op)
          end);
    exec_all; rewrite ?Hact; exec_all;
    try (eexists; split; [reflexivity |]; right; reflexivity).
  all: match goal with
       | |- context [connect_attempts ?ev 3 0 ?ssid ?password ?s1] =>
           destruct (ends_connect_attempts ev ssid password 3 0 s1)
             as (r & s' & t & E & Hnp & _);
           rewrite E
       end.
  all: destruct s' as [sa' sc' aa' ac' ae' ak' an' ip' srv' udp' att' rx' tx' tr'].
  all: destruct r as [[] | ? |]; [| | congruence].
  all: destruct sc'.
  all: repeat (exec_all; rewrite ?Hact;
               match goal with
               | |- context [match fault ?ev ?op with _ => _ end] => destruct (fault ev op)
               end).
  all: exec_all; rewrite ?Hact; exec_all.
  all: eexists; (split; [reflexivity |]); first [left; reflexivity | right; reflexivity].
Qed.

(** ** Routing *)

(** X16. A request that contains the text of a probe route gets the fixed
    response of the first such route in the handler's order, before any
    later route is considered, and the device is not touched: the state
    after the request is the state before it plus the read, the response
    and the closing of the connection. *)
Theorem handle_request_probe
    (env : Env) (reader : bytes) (request response : string) (s : State) :
  fault env (ReaderRead 1024) = None ->
  decode env (firstn 1024 reader) = inr request ->
  first_route probe_routes request = Some response ->
  fault env (WriterWrite (encode env response)) = None ->
  fault env WriterDrain = None ->
  handle_request env reader s
  = (Ret tt,
     append_trace
       [Call (ReaderRead 1024);
        Print ("Request: " ++ request);
        Call (WriterWrite (encode env response));
        Call WriterDrain;
        WriterClose; WriterWaitClosed] s).
Proof.
  intros Hread Hdecode Hroute Hwrite Hdrain.
  unfold handle_request, try_finally, try_except.
  unfold bind at 1. rewrite (ext_ok env _ s Hread). cbv beta iota.
  unfold bind at 1. rewrite Hdecode. cbv beta iota delta [lift ret].
  unfold bind at 1. cbv beta iota delta [print emit modify].
  unfold bind at 1.
  cbn [first_route probe_routes] in Hroute.
  repeat match type of Hroute with
         | (if contains ?r request then _ else _) = _ =>
             destruct (contains r request)
         end;
    try discriminate Hroute;
    injection Hroute as <-;
    cbv beta iota delta [ret]; unfold bind;
    rewrite (ext_ok env _ _ Hwrite), (ext_ok env _ _ Hdrain);
    cbv beta iota delta [emit modify]; as_append; reflexivity.
Qed.

(** X17. A request that names none of the eight routes gets the index
    page: [200 OK], content type [text/html], and the page of
    [serve_index]; apart from listing the configuration directory the
    device is not touched. *)
Theorem handle_request_default_route
    (env : Env) (reader : bytes) (request : string) (s : State) :
  fault env (ReaderRead 1024) = None ->
  decode env (firstn 1024 reader) = inr request ->
  first_route probe_routes request = None ->
  existsb (fun route => contains route request) action_routes = false ->
  fault env (Listdir config_directory) = None ->
  fault env (WriterWrite
               (encode env (html_header ++ index_page (mem config_file (files env)))))
    = None ->
  fault env WriterDrain = None ->
  handle_request env reader s
  = (Ret tt,
     append_trace
       [Call (ReaderRead 1024);
        Print ("Request: " ++ request);
        Call (Listdir config_directory);
        Call (WriterWrite
                (encode env (html_header ++ index_page (mem config_file (files env)))));
        Call WriterDrain;
        WriterClose; WriterWaitClosed] s).
Proof.
  intros Hread Hdecode Hprobe Haction Hlist Hwrite Hdrain.
  unfold handle_request, try_finally, try_except.
  unfold bind at 1. rewrite (ext_ok env _ s Hread). cbv beta iota.
  unfold bind at 1. rewrite Hdecode. cbv beta iota delta [lift ret].
  unfold bind at 1. cbv beta iota delta [print emit modify].
  unfold bind at 1.
  cbn [first_route probe_routes] in Hprobe.
  repeat match type of Hprobe with
         | (if contains ?r request then _ else _) = _ =>
             destruct (contains r request); [discriminate Hprobe |]
         end.
  cbn [existsb action_routes] in Haction.
  repeat (apply orb_false_iff in Haction as [? Haction]).
  repeat match goal with
         | H : contains _ request = false |- _ => rewrite H; clear H
         end.
  unfold bind at 1. unfold serve_index, uos_listdir. unfold bind at 1. unfold bind at 1.
  rewrite (ext_ok env _ _ Hlist). cbv beta iota delta [ret].
  destruct (mem config_file (files env));
    [change (html_template "Goat - Captive Portal" _) with (index_page true)
    |change (html_template "Goat - Captive Portal" _) with (index_page false)].
  all: change (cat ["HTTP/1.1 200 OK"; cr; nl; "Content-Type: text/html"; cr; nl; cr; nl])
         with html_header.
  all: unfold bind; rewrite (ext_ok _ _ _ Hwrite), (ext_ok _ _ _ Hdrain).
  all: cbv beta iota delta [emit modify]; as_append; reflexivity.
Qed.

(** ** Network scan *)

Lemma string_app_assoc (a b c : string) : ((a ++ b) ++ c)%string = (a ++ (b ++ c))%string.
Proof.
  induction a as [| x a IH]; [reflexivity |].
  change (String x ((a ++ b) ++ c) = String x (a ++ (b ++ c)))%string.
  f_equal. exact IH.
Qed.

Lemma string_app_nil_r (a : string) : (a ++ "")%string = a.
Proof.
  induction a as [| x a IH]; [reflexivity |].
  change (String x (a ++ "") = String x a)%string.
  f_equal. exact IH.
Qed.

(** The forms are added to the text built so far. *)
Lemma render_networks_prefix (env : Env) (networks : list (bytes * Z)) :
  forall html,
    render_networks env networks html
    = ((html ++ fst (render_networks env networks ""))%string,
       snd (render_networks env networks "")).
Proof.
  induction networks as [| [name rssi] rest IH]; intros html; cbn [render_networks].
  - cbn [fst snd]. now rewrite string_app_nil_r.
  - destruct (decode env name) as [e | ssid].
    + cbn [fst snd]. now rewrite string_app_nil_r.
    + change ("" ++ scan_form ssid rssi)%string with (scan_form ssid rssi).
      rewrite (IH (html ++ scan_form ssid rssi)%string), (IH (scan_form ssid rssi)).
      cbn [fst snd]. now rewrite string_app_assoc.
Qed.

(** X18. Whatever the scan does, [scan_networks] returns the scan page
    and leaves the station interface deactivated, provided the two calls
    of [sta_if.active] do not fail; a station that was connected is no
    longer connected.  The access point, the listener and the DNS socket
    are left alone. *)
Theorem scan_networks_leaves_station_off (env : Env) (s : State) :
  fault env (StaActive true) = None ->
  fault env (StaActive false) = None ->
  exists listing s',
    scan_networks env s = (Ret (scan_page listing), s')
    /\ station s' = (false, false)
    /\ services s' = services s.
Proof.
  intros Hon Hoff.
  destruct s as [sa sc aa ac ae ak an ip srv udp att rx tx tr].
  unfold scan_networks, sta_if_scan. fold scan_intro. fold scan_footer.
  destruct sc; exec_all; rewrite Hon; exec_all.
  all: destruct (fault env StaScan) as [e |].
  all: try (rewrite (render_networks_prefix env (scan_result env) scan_intro);
            destruct (render_networks env (scan_result env) "") as [forms [e |]]).
  all: exec_all; rewrite Hoff; exec_all.
  all: unfold scan_page; rewrite <- ?(string_app_assoc scan_intro).
  all: eexists _, _; (split; [reflexivity |]); split; reflexivity.
Qed.

Lemma render_networks_all (env : Env) (name : bytes -> string)
    (networks : list (bytes * Z)) :
  (forall raw, In raw networks -> decode env (fst raw) = inr (name (fst raw))) ->
  render_networks env networks ""
  = (cat (map (fun raw => scan_form (name (fst raw)) (snd raw)) networks), None).
Proof.
  induction networks as [| [raw rssi] rest IH]; intros Hall; [reflexivity |].
  cbn [render_networks map].
  pose proof (Hall (raw, rssi) (or_introl eq_refl)) as Hraw. cbn [fst] in Hraw.
  rewrite Hraw. cbn [fst snd].
  change ("" ++ scan_form (name raw) rssi)%string with (scan_form (name raw) rssi).
  rewrite render_networks_prefix, IH by (intros r Hr; apply Hall; now right).
  reflexivity.
Qed.

(** X19. When the scan succeeds and every network name decodes, the scan
    page lists every network found, in the order of the scan, each as a
    form that posts its SSID to [/connect] and shows its signal strength. *)
Theorem scan_networks_lists_every_network
    (env : Env) (name : bytes -> string) (s : State) :
  fault env (StaActive true) = None ->
  fault env (StaActive false) = None ->
  fault env StaScan = None ->
  (forall raw, In raw (scan_result env) -> decode env (fst raw) = inr (name (fst raw))) ->
  fst (scan_networks env s)
  = Ret (scan_page
           (cat (map (fun raw => scan_form (name (fst raw)) (snd raw))
                   (scan_result env)))).
Proof.
  intros Hon Hoff Hscan Hall.
  destruct s as [sa sc aa ac ae ak an ip srv udp att rx tx tr].
  unfold scan_networks, sta_if_scan. fold scan_intro. fold scan_footer.
  exec_all. rewrite Hon. exec_all. rewrite Hscan. exec_all.
  rewrite (render_networks_prefix env (scan_result env) scan_intro).
  rewrite (render_networks_all env name (scan_result env) Hall).
  exec_all. rewrite Hoff. exec_all. reflexivity.
Qed.

(** X20. When the scan itself raises, the page is still rendered, with the
    error in place of the listing. *)
Theorem scan_networks_reports_scan_error (env : Env) (e : exn) (s : State) :
  fault env (StaActive true) = None ->
  fault env (StaActive false) = None ->
  fault env StaScan = Some e ->
  fst (scan_networks env s) = Ret (scan_page (scan_error e)).
Proof.
  intros Hon Hoff Hscan.
  destruct s as [sa sc aa ac ae ak an ip srv udp att rx tx tr].
  unfold scan_networks, sta_if_scan. fold scan_intro. fold scan_footer.
  exec_all. rewrite Hon. exec_all. rewrite Hscan. exec_all.
  rewrite Hoff. exec_all. reflexivity.
Qed.

(** ** Connect action *)

Ltac in_list :=
  cbn [In]; repeat first [left; reflexivity | right].

(** X21. A connect request with an SSID and a password, on a device whose
    access point has a client, when no call fails and the link comes up:
    the Connected page is returned, the credentials of the form are saved,
    the listener is closed, the DNS socket is closed and forgotten, the
    access point is deactivated, and the station web server is started if
    there is one.  The stored IP address, set to the station's address on
    connection, is cleared again by the access-point stop. *)
Theorem connect_to_wifi_success (env : Env) (request : string) (s : State) :
  (forall op, fault env op = None) ->
  truthy (form_ssid request) = true ->
  truthy (form_password request) = true ->
  sta_connected s = false ->
  link_up env (S (attempts s)) = true ->
  ap_connected s = true ->
  exists s' t,
    connect_to_wifi env request s = (Ret (connected_page (form_ssid request)), s')
    /\ station s' = (true, true)
    /\ ap_active s' = false /\ ap_connected s' = false
    /\ udp_server s' = false
    /\ ip_address s' = None
    /\ server s' = (if sta_web_server env then Some AppServer else server s)
    /\ trace s' = (trace s ++ t)%list
    /\ In (Call (CfgSet "network" "ssid" (form_ssid request))) t
    /\ In (Call (CfgSet "network" "password" (form_password request))) t
    /\ (server s <> None -> In (Call ServerClose) t)
    /\ (udp_server s = true -> In SockClose t).
Proof.
  intros Hnf Hssid Hpw Hs Hup Hap.
  destruct s as [sa sc aa ac ae ak an ip srv udp att rx tx tr].
  cbn [sta_connected attempts ap_connected] in *. subst sc ac.
  unfold connect_to_wifi. fold (form_ssid request) (form_password request).
  rewrite Hssid, Hpw. cbn [andb].
  generalize (form_ssid request) (form_password request). intros ssid password.
  unfold save_config, stop_fallback_services, stop_captive_portal_server,
    stop_dns, stop_ap, sta_web_server_run.
  exec_all. rewrite ?Hnf. rewrite ?Hup. exec_all.
  destruct srv as [h |]; exec_all.
  all: destruct udp; exec_all.
  all: destruct (sta_web_server env); exec_all.
  all: match goal with |- exists s' t, (_, ?st) = _ /\ _ => exists st end.
  all: eexists.
  all: split; [reflexivity |]; exec_all.
  all: repeat match goal with |- _ /\ _ => split end.
  all: lazymatch goal with
       | |- (_ ++ _)%list = (_ ++ _)%list => rewrite <- !app_assoc; cbn [app]; reflexivity
       | |- In _ _ => in_list
       | |- _ = _ => reflexivity
       | |- ?a <> ?a -> _ => let H := fresh in intros H; exfalso; apply H; reflexivity
       | |- false = true -> _ => let H := fresh in intros H; discriminate H
       | |- _ -> _ => intros _; in_list
       end.
Qed.

(** X22. A connect request with an SSID and a password whose network does
    not answer, when no call fails: the Connection Failed page is
    returned, the station interface is deactivated again, the access
    point, the listener and the DNS socket stay as they were, and the only
    calls made are [active], [connect] and [isconnected] on the station
    interface, so nothing is saved. *)
Theorem connect_to_wifi_link_fails (env : Env) (request : string) (s : State) :
  (forall op, fault env op = None) ->
  truthy (form_ssid request) = true ->
  truthy (form_password request) = true ->
  sta_connected s = false ->
  link_up env (S (attempts s)) = false ->
  exists s',
    connect_to_wifi env request s
    = (Ret (connection_failed_page (form_ssid request)), s')
    /\ station s' = (false, false)
    /\ services s' = services s
    /\ exists t,
         trace s' = (trace s ++ t)%list
         /\ forall op, In (Call op) t ->
              In op [StaActive true;
                     StaConnect (form_ssid request) (form_password request);
                     StaIsConnected;
                     StaActive false].
Proof.
  intros Hnf Hssid Hpw Hs Hup.
  destruct s as [sa sc aa ac ae ak an ip srv udp att rx tx tr].
  cbn [sta_connected attempts] in *. subst sc.
  unfold connect_to_wifi. fold (form_ssid request) (form_password request).
  rewrite Hssid, Hpw. cbn [andb].
  generalize (form_ssid request) (form_password request). intros ssid password.
  exec_all. rewrite ?Hnf. rewrite ?Hup. exec_all.
  match goal with |- exists s', (_, ?st) = _ /\ _ => exists st end.
  split; [reflexivity |]. exec_all.
  split; [reflexivity |]. split; [reflexivity |].
  eexists. split; [rewrite <- !app_assoc; reflexivity |].
  intros op Hin. cbn [In app] in Hin |- *.
  repeat (destruct Hin as [Hin | Hin];
          [first [discriminate Hin | injection Hin as <-; auto 10] |]).
  destruct Hin.
Qed.

(** ** Reconnect action *)

(** X23. [reconnect_to_wifi] without a saved configuration file returns
    the Configuration Error page and touches nothing: it lists the
    configuration directory, asks the station whether it is connected, and
    makes no connection attempt. *)
Theorem reconnect_to_wifi_without_file (env : Env) (request : string) (s : State) :
  fault env (Listdir config_directory) = None ->
  fault env StaIsConnected = None ->
  mem config_file (files env) = false ->
  sta_connected s = false ->
  reconnect_to_wifi env request s
  = (Ret configuration_error_page,
     append_trace [Call (Listdir config_directory); Call StaIsConnected] s).
Proof.
  intros Hlist Hconn Hfile Hs.
  destruct s as [sa sc aa ac ae ak an ip srv udp att rx tx tr].
  cbn [sta_connected] in Hs. subst sc.
  unfold reconnect_to_wifi.
  exec_all. rewrite Hlist. exec_all. rewrite Hfile. exec_all.
  rewrite Hconn. exec_all. unfold configuration_error_page.
  f_equal. same_state.
Qed.

(** X24. [reconnect_to_wifi] with a saved network that does not answer,
    when no call fails: after the attempts of [load_config] the
    Reconnection Failed page is returned, the station interface is
    deactivated, and the access point, the listener and the DNS socket
    stay as they were. *)
Theorem reconnect_to_wifi_out_of_reach (env : Env) (request : string) (s : State) :
  out_of_reach env ->
  sta_connected s = false ->
  exists s',
    reconnect_to_wifi env request s = (Ret reconnection_failed_page, s')
    /\ station s' = (false, false)
    /\ services s' = services s.
Proof.
  intros Hout Hs. pose proof Hout as [Hnf Hfile _ _ _].
  destruct s as [sa sc aa ac ae ak an ip srv udp att rx tx tr].
  cbn [sta_connected] in Hs. subst sc.
  unfold reconnect_to_wifi.
  repeat (progress (exec_all; rewrite ?Hnf, ?Hfile)).
  match goal with
  | |- context [load_config env ?s0] =>
      destruct (load_config_fail env Hout s0 eq_refl) as (s1 & E1 & Hsta1 & Hserv1)
  end.
  rewrite E1.
  destruct s1 as [sa1 sc1 aa1 ac1 ae1 ak1 an1 ip1 srv1 udp1 att1 rx1 tx1 tr1].
  revert Hsta1 Hserv1. exec_all. intros [= -> ->] Hserv1.
  repeat (progress (exec_all; rewrite ?Hnf)).
  eexists. split; [reflexivity |]. exec_all.
  split; [reflexivity | exact Hserv1].
Qed.

(** ** run *)

(** X25. No exception escapes [run]: whatever fails, at start-up, in the
    loop or during the shutdown, [run] either returns normally or is still
    running. *)
Theorem run_never_raises (env : Env) (fuel : nat) (s : State) :
  fst (run env fuel s) = Ret tt \/ fst (run env fuel s) = Pending.
Proof.
  unfold run, try_finally.
  match goal with
  | |- context [try_except ?body ?handler s] =>
      destruct (try_except body handler s) as [[[] | e' |] s1] eqn:E
  end.
  - destruct (run_cleanup_returns env s1) as (s2 & E2). rewrite E2. left. reflexivity.
  - exfalso. revert E. unfold try_except.
    match goal with
    | |- context [match ?m s with _ => _ end] => destruct (m s) as [[[] | e0 |] s0]
    end; discriminate.
  - right. reflexivity.
Qed.

(** ** start_ap *)

(** X26. With a password of 8 characters or more and no call failing,
    [start_ap] sets the SSID and the password first, then activates the
    access point, gives it the fixed address 192.168.4.1/255.255.255.0 and
    stores that address; the station interface, the listener handle and
    the DNS socket are left alone. *)
Theorem start_ap_configures (env : Env) (s : State) :
  (forall op, fault env op = None) ->
  (8 <= String.length (ap_password env))%nat ->
  exists s',
    start_ap env s = (Ret tt, s')
    /\ ap_active s' = true
    /\ ap_essid s' = ap_ssid env /\ ap_key s' = ap_password env
    /\ ap_netcfg s' = ("192.168.4.1", "255.255.255.0", "192.168.4.1", "192.168.4.1")
    /\ ip_address s' = Some "192.168.4.1"
    /\ station s' = station s
    /\ server s' = server s
    /\ udp_server s' = udp_server s
    /\ trace s'
       = (trace s ++
          [Call (ApConfig (ap_ssid env) (ap_password env));
           Call (ApActive true);
           Call (ApSetIfconfig ("192.168.4.1", "255.255.255.0", "192.168.4.1", "192.168.4.1"));
           Call ApIfconfig;
           Print (cat ["Access point started. SSID: "; ap_ssid env; ", IP: "; "192.168.4.1"])])%list.
Proof.
  intros Hnf Hpw.
  destruct s as [sa sc aa ac ae ak an ip srv udp att rx tx tr].
  unfold start_ap.
  destruct (Nat.ltb_spec (String.length (ap_password env)) 8) as [Hlt | _]; [lia |].
  repeat (progress (exec_all; rewrite ?Hnf)).
  eexists. split; [reflexivity |]. exec_x.
  repeat match goal with |- _ /\ _ => split end; try reflexivity.
  rewrite <- !app_assoc. reflexivity.
Qed.

(** ** Names in DNS queries *)

Lemma firstn_length_app {A} (l r : list A) : firstn (List.length l) (l ++ r)%list = l.
Proof. induction l as [| x l IH]; cbn; [now destruct r | now rewrite IH]. Qed.

Lemma skipn_length_app {A} (l r : list A) : skipn (List.length l) (l ++ r)%list = r.
Proof. induction l as [| x l IH]; cbn; [reflexivity | exact IH]. Qed.

Lemma length_byte_to_N (n : nat) :
  (n <= 255)%nat -> Byte.to_N (length_byte n) = N.of_nat n.
Proof.
  intros Hn. unfold length_byte.
  destruct (Byte.of_N (N.of_nat n)) as [b |] eqn:E.
  - cbn. now apply Byte.to_of_N.
  - apply Byte.of_N_None_iff in E. lia.
Qed.

Lemma decode_labels_wire (env : Env) (name : bytes -> string) (rest : bytes) (s : State)
    (labels : list bytes) :
  Forall (fun l => (1 <= List.length l <= 255)%nat /\ decode env l = inr (name l)) labels ->
  forall fuel, (List.length labels <= fuel)%nat ->
    decode_labels env fuel (wire_name labels ++ rest)%list s = (Ret (map name labels), s).
Proof.
  induction 1 as [| l ls [Hlen Hdec] _ IH]; intros fuel Hfuel.
  - destruct fuel; reflexivity.
  - destruct fuel as [| fuel]; [cbn in Hfuel; lia |].
    unfold wire_name. cbn [flat_map]. rewrite <- !app_assoc. cbn [app].
    cbn [decode_labels].
    rewrite (length_byte_to_N (List.length l)) by lia.
    destruct (N.eqb_spec (N.of_nat (List.length l)) 0) as [E | _]; [lia |].
    rewrite Nat2N.id, firstn_length_app, skipn_length_app, Hdec.
    unfold bind, lift, ret.
    match goal with
    | |- context [decode_labels env fuel ?section s] =>
        replace section with (wire_name ls ++ rest)%list
          by (unfold wire_name; now rewrite <- app_assoc)
    end.
    rewrite IH by (cbn in Hfuel; lia). reflexivity.
Qed.

(** X27. [_decode_domain_name] reads a name in wire form: for labels of 1
    to 255 bytes that decode, each behind its length byte and followed by
    a zero byte, it returns the decoded labels joined by dots, whatever
    follows the zero byte, and it reads and changes nothing else. *)
Theorem decode_domain_name_of_wire_name
    (env : Env) (name : bytes -> string) (labels : list bytes) (rest : bytes) (s : State) :
  Forall (fun l => (1 <= List.length l <= 255)%nat /\ decode env l = inr (name l)) labels ->
  _decode_domain_name env (wire_name labels ++ rest)%list s
  = (Ret (join_dot (map name labels)), s).
Proof.
  intros Hall. unfold _decode_domain_name, bind.
  rewrite (decode_labels_wire env name rest s labels Hall); [reflexivity |].
  unfold wire_name. rewrite !length_app.
  clear Hall. induction labels as [| l ls IH]; cbn [flat_map List.length]; [lia |].
  rewrite length_app in *. cbn [List.length] in *. lia.
Qed.

(** ** The loop of the DNS redirector *)

Lemma sends_app (t1 t2 : list Event) : sends (t1 ++ t2) = (sends t1 ++ sends t2)%list.
Proof.
  induction t1 as [| ev t1 IH]; [reflexivity |].
  destruct ev; cbn; rewrite IH; reflexivity.
Qed.

(** Decoding a name depends on the bytes only. *)
Lemma decode_labels_pure (env : Env) (fuel : nat) :
  forall rest s,
    decode_labels env fuel rest s = (fst (decode_labels env fuel rest boot), s).
Proof.
  induction fuel as [| fuel IH]; intros [| len after] s; cbn [decode_labels];
    try reflexivity.
  - destruct (N.eqb (Byte.to_N len) 0); reflexivity.
  - destruct (N.eqb (Byte.to_N len) 0); [reflexivity |].
    unfold bind, lift.
    destruct (decode env _) as [e | part]; [reflexivity |].
    unfold ret.
    rewrite (IH (skipn (N.to_nat (Byte.to_N len)) after) s).
    destruct (decode_labels env fuel _ boot) as [[parts | e | ] sb]; reflexivity.
Qed.

Lemma decode_domain_name_pure (env : Env) (section : bytes) (s : State) :
  _decode_domain_name env section s = (fst (_decode_domain_name env section boot), s).
Proof.
  unfold _decode_domain_name, bind.
  rewrite (decode_labels_pure env _ section s).
  destruct (decode_labels env _ section boot) as [[parts | e | ] sb]; reflexivity.
Qed.

(** [handle_dns_query] always returns, with an answer that depends on the
    datagram only, and it sends nothing itself. *)
Lemma handle_dns_query_pure (env : Env) (data : bytes) (s : State) :
  exists t,
    handle_dns_query env data s = (Ret (answer_of env data), append_trace t s)
    /\ sends t = [].
Proof.
  pose proof (decode_domain_name_ends env (skipn 12 data) boot) as Hends.
  unfold answer_of, handle_dns_query, try_except, bind.
  rewrite (decode_domain_name_pure env (skipn 12 data) s).
  pose proof (decode_domain_name_pure env (skipn 12 data) boot) as Hb.
  destruct (_decode_domain_name env (skipn 12 data) boot) as [r sb].
  cbn [fst] in *. injection Hb as ->.
  destruct r as [name | e |]; [| | congruence].
  - destruct (inet_aton env dns_ip) as [e | ip];
      cbv beta iota delta [print emit modify lift raise ret fst];
      eexists; (split; [as_append; reflexivity | reflexivity]).
  - cbv beta iota delta [print emit modify lift raise ret fst].
    eexists; (split; [as_append; reflexivity | reflexivity]).
Qed.

(** With nothing to read, [_receive_from] keeps waiting. *)
Lemma receive_from_idle (fuel : nat) :
  forall s, udp_server s = true -> rx s = [] ->
    exists s',
      _receive_from fuel s = (Pending, s')
      /\ udp_server s' = true
      /\ sends (trace s') = sends (trace s).
Proof.
  induction fuel as [| fuel IH]; intros s Hudp Hrx.
  - exists s. repeat split. exact Hudp.
  - cbn [_receive_from]. unfold try_except, bind, recvfrom. rewrite Hudp, Hrx.
    unfold on_would_block. cbn [is_eagain Z.eqb Pos.eqb]. unfold bind.
    change (sleep (log SockRecvfrom s)) with (@Ret unit tt, log Sleep (log SockRecvfrom s)).
    cbv beta iota.
    destruct (IH (log Sleep (log SockRecvfrom s)) Hudp Hrx) as (s' & E & Hudp' & Hsends).
    exists s'. split; [exact E |]. split; [exact Hudp' |].
    rewrite Hsends. cbn [log trace]. rewrite !sends_app. cbn. now rewrite !app_nil_r.
Qed.

(** One round of the loop on a datagram that has arrived. *)
Lemma dns_round_serves (env : Env) (fuel : nat) (data : bytes) (a : addr)
    (rest : list Rx) (s : State) :
  udp_server s = true -> tx s = [] -> rx s = RxData data a :: rest ->
  exists s',
    dns_round env (S fuel) s = (Ret tt, s')
    /\ udp_server s' = true /\ tx s' = [] /\ rx s' = rest
    /\ sends (trace s')
       = (sends (trace s)
          ++ (if nonempty data then [(answer_of env data, a)] else []))%list.
Proof.
  intros Hudp Htx Hrx. unfold dns_round, try_except. unfold bind at 1.
  rewrite (receive_from_step fuel s (RxData data a) rest Hudp Hrx). cbv beta iota.
  destruct data as [| b data].
  - eexists. split; [reflexivity |]. cbn [set_rx log udp_server tx rx trace nonempty].
    repeat split; try assumption. rewrite sends_app. reflexivity.
  - unfold bind at 1. cbv beta iota delta [print emit modify].
    unfold bind at 1.
    match goal with
    | |- context [handle_dns_query env ?d ?s1] =>
        destruct (handle_dns_query_pure env d s1) as (t & E & Ht)
    end.
    rewrite E. cbv beta iota.
    cbn [_send_to]. unfold try_except, sendto.
    cbn [append_trace log set_rx udp_server tx]. rewrite Hudp, Htx.
    eexists. split; [reflexivity |].
    cbn [append_trace log set_rx udp_server tx rx trace nonempty].
    repeat split; try assumption.
    rewrite !sends_app, Ht. cbn. now rewrite !app_nil_r.
Qed.

(** The loop on a socket on which the given datagrams wait: every one of
    them is served, then the loop waits for more. *)
Lemma dns_rounds (env : Env) (fuel : nat) (n : nat) :
  forall (queries : list (bytes * addr)) (s : State),
    udp_server s = true -> tx s = [] ->
    rx s = map (fun q => RxData (fst q) (snd q)) queries ->
    (List.length queries <= n)%nat ->
    (List.length queries <= fuel)%nat ->
    exists s',
      forever n (dns_round env fuel) s = (Pending, s')
      /\ udp_server s' = true
      /\ sends (trace s')
         = (sends (trace s)
            ++ map (fun q => (answer_of env (fst q), snd q))
                 (filter (fun q => nonempty (fst q)) queries))%list.
Proof.
  induction n as [| n IH]; intros queries s Hudp Htx Hrx Hn Hfuel.
  - destruct queries; [| cbn in Hn; lia].
    exists s. cbn. rewrite app_nil_r. auto.
  - cbn [forever]. unfold bind.
    destruct queries as [| [data a] queries].
    + destruct (receive_from_idle fuel s Hudp Hrx) as (s' & E & Hudp' & Hsends).
      unfold dns_round, try_except. unfold bind. rewrite E.
      exists s'. cbn. rewrite app_nil_r. auto.
    + destruct fuel as [| fuel]; [cbn in Hfuel; lia |].
      cbn [map fst snd] in Hrx.
      destruct (dns_round_serves env fuel data a _ s Hudp Htx Hrx)
        as (s1 & E1 & Hudp1 & Htx1 & Hrx1 & Hsends1).
      rewrite E1.
      destruct (IH queries s1 Hudp1 Htx1 Hrx1) as (s' & E & Hudp' & Hsends');
        [cbn in Hn; lia | cbn in Hfuel; lia |].
      exists s'. split; [exact E |]. split; [exact Hudp' |].
      rewrite Hsends', Hsends1. cbn [filter fst].
      destruct data; cbn [nonempty map fst snd]; rewrite <- app_assoc; reflexivity.
Qed.

(** X28. Once its socket is bound, the DNS redirector answers every
    non-empty datagram that arrives with the answer of [handle_dns_query]
    for it, sent to the address the datagram came from, in the order of
    arrival; empty datagrams get no answer; and it goes on listening
    (it does not return, and the socket stays open). *)
Theorem start_dns_answers_every_datagram
    (env : Env) (fuel : nat) (queries : list (bytes * addr)) (s : State) :
  fault env SockCreate = None ->
  fault env (SockSetBlocking false) = None ->
  fault env (SockBind (dns_ip, dns_port)) = None ->
  rx s = map (fun q => RxData (fst q) (snd q)) queries ->
  tx s = [] ->
  (List.length queries <= fuel)%nat ->
  exists s',
    start_dns env fuel s = (Pending, s')
    /\ udp_server s' = true
    /\ sends (trace s')
       = (sends (trace s)
          ++ map (fun q => (answer_of env (fst q), snd q))
               (filter (fun q => nonempty (fst q)) queries))%list.
Proof.
  intros Hcreate Hblock Hbind Hrx Htx Hfuel.
  unfold start_dns, try_finally, try_except.
  unfold bind at 1. rewrite (ext_ok env _ s Hcreate). cbv beta iota.
  unfold bind at 1. cbv beta iota delta [modify].
  unfold bind at 1. rewrite (ext_ok env _ _ Hblock). cbv beta iota.
  unfold bind at 1. rewrite (ext_ok env _ _ Hbind). cbv beta iota.
  unfold bind at 1. cbv beta iota delta [print emit modify].
  match goal with
  | |- context [forever fuel ?body ?s1] =>
      change body with (dns_round env fuel);
      destruct (dns_rounds env fuel fuel queries s1) as (s' & E & Hudp' & Hsends');
        [reflexivity | exact Htx | exact Hrx | exact Hfuel | exact Hfuel |]
  end.
  rewrite E. exists s'. split; [reflexivity |]. split; [exact Hudp' |].
  rewrite Hsends'. cbn [log set_udp_server trace]. rewrite !sends_app. cbn.
  now rewrite !app_nil_r.
Qed.

(** X29. When the socket cannot be bound, [start_dns] reports the error,
    closes the socket and returns; the closed socket stays in
    [self.udp_server], so a later [stop_dns] closes it a second time. *)
Theorem start_dns_bind_failure (env : Env) (fuel : nat) (e : exn) (s : State) :
  fault env SockCreate = None ->
  fault env (SockSetBlocking false) = None ->
  fault env (SockBind (dns_ip, dns_port)) = Some e ->
  start_dns env fuel s
  = (Ret tt,
     set_udp_server true
       (append_trace
          [Call SockCreate; Call (SockSetBlocking false);
           Call (SockBind (dns_ip, dns_port));
           Print ("Error starting DNS server: " ++ str_exn e);
           SockClose; Print "DNS server socket closed."] s)).
Proof.
  intros Hcreate Hblock Hbind.
  destruct s as [sa sc aa ac ae ak an ip srv udp att rx tx tr].
  unfold start_dns.
  exec_all. rewrite Hcreate. exec_all. rewrite Hblock. exec_all.
  rewrite Hbind. exec_all. unfold set_udp_server. same_state.
Qed.

(** ** The properties on concrete devices *)

Lemma load_config_without_file_witness :
  fault env_fresh (Listdir config_directory) = None
  /\ mem config_file (files env_fresh) = false
  /\ load_config env_fresh boot
     = (Ret tt,
        append_trace [Call (Listdir config_directory);
                      Print "No saved network configuration found."] boot).
Proof.
  split; [reflexivity |]. split; [reflexivity |].
  exact (load_config_without_file env_fresh boot eq_refl eq_refl).
Defined.

Lemma load_config_empty_ssid_witness :
  (forall op, fault env_empty_ssid op = None)
  /\ mem config_file (files env_empty_ssid) = true
  /\ truthy (stored_ssid env_empty_ssid) = false
  /\ load_config env_empty_ssid boot
     = (Ret tt,
        append_trace
          [Call (Listdir config_directory);
           Call (CfgNew config_directory config_file);
           Call CfgRead;
           Call (CfgGet "network" "ssid");
           Call (CfgGet "network" "password");
           Print "No SSID provided in configuration. Cannot connect to a network."] boot).
Proof.
  split; [intros op; reflexivity |]. split; [reflexivity |]. split; [reflexivity |].
  exact (load_config_empty_ssid env_empty_ssid boot (fun _ => eq_refl) eq_refl eq_refl).
Defined.

Lemma save_config_writes_both_witness :
  (forall op, fault env0 op = None)
  /\ save_config env0 "home" "secret" boot
     = (Ret tt,
        append_trace
          [Call (CfgNew config_directory config_file);
           Call CfgRead;
           Call (CfgSet "network" "ssid" "home");
           Call (CfgSet "network" "password" "secret");
           Call CfgWrite;
           Print "Network configuration saved."] boot).
Proof.
  split; [intros op; reflexivity |].
  exact (save_config_writes_both env0 "home" "secret" boot (fun _ => eq_refl)).
Defined.

Lemma stop_ap_without_client_witness :
  fault env0 ApIsConnected = None
  /\ ap_connected ap_waiting = false
  /\ stop_ap env0 ap_waiting
     = (Ret tt,
        append_trace [Call ApIsConnected;
                      Print "The access point is not currently enabled."] ap_waiting).
Proof.
  split; [reflexivity |]. split; [reflexivity |].
  exact (stop_ap_without_client env0 ap_waiting eq_refl eq_refl).
Defined.

Lemma stop_ap_with_client_witness :
  (forall op, fault env0 op = None)
  /\ ap_connected portal_serving = true
  /\ exists s',
       stop_ap env0 portal_serving = (Ret tt, s')
       /\ ap_active s' = false /\ ap_connected s' = false
       /\ ap_essid s' = "" /\ ap_key s' = ""
       /\ ip_address s' = None
       /\ station s' = station portal_serving
       /\ server s' = server portal_serving
       /\ udp_server s' = udp_server portal_serving.
Proof.
  split; [intros op; reflexivity |]. split; [reflexivity |].
  exact (stop_ap_with_client env0 portal_serving (fun _ => eq_refl) eq_refl).
Defined.

Lemma disconnect_when_not_connected_witness :
  fault env0 StaIsConnected = None
  /\ sta_connected station_up = false
  /\ disconnect_from_wifi env0 station_up
     = (Ret tt,
        append_trace [Call StaIsConnected; Print "The network is not connected."]
          station_up).
Proof.
  split; [reflexivity |]. split; [reflexivity |].
  exact (disconnect_when_not_connected env0 station_up eq_refl eq_refl).
Defined.

Lemma disconnect_when_connected_witness :
  (forall op, fault env0 op = None)
  /\ sta_connected station_online = true
  /\ exists s',
       disconnect_from_wifi env0 station_online = (Ret tt, s')
       /\ station s' = (false, false)
       /\ ip_address s' = None
       /\ ap_active s' = ap_active station_online
       /\ ap_connected s' = ap_connected station_online
       /\ server s' = server station_online
       /\ udp_server s' = udp_server station_online.
Proof.
  split; [intros op; reflexivity |]. split; [reflexivity |].
  exact (disconnect_when_connected env0 station_online (fun _ => eq_refl) eq_refl).
Defined.

Lemma start_captive_portal_server_without_ip_witness :
  default "" (ip_address boot) = ""
  /\ start_captive_portal_server env0 4 boot
     = (Ret tt,
        append_trace [Print "AP IP address not assigned. Cannot start server."] boot).
Proof.
  split; [reflexivity |].
  exact (start_captive_portal_server_without_ip env0 4 boot eq_refl).
Defined.

Lemma start_captive_portal_server_failure_witness :
  ip_address ap_waiting = Some "192.168.4.1"
  /\ truthy "192.168.4.1" = true
  /\ fault env_listen_fails (StartServer "192.168.4.1" captive_portal_http_port)
     = Some (OSError 98 "EADDRINUSE")
  /\ start_captive_portal_server env_listen_fails 4 ap_waiting
     = (Ret tt,
        append_trace
          [Call (StartServer "192.168.4.1" captive_portal_http_port);
           Print ("Error starting the captive portal server: "
                  ++ str_exn (OSError 98 "EADDRINUSE"))] ap_waiting).
Proof.
  split; [reflexivity |]. split; [reflexivity |]. split; [reflexivity |].
  exact (start_captive_portal_server_failure env_listen_fails 4 ap_waiting
           "192.168.4.1" (OSError 98 "EADDRINUSE") eq_refl eq_refl eq_refl).
Defined.

Lemma load_config_connects_on_attempt_witness :
  (forall op, fault env_second_attempt op = None)
  /\ (1 <= 2 <= 3)%nat
  /\ mem config_file (files env_second_attempt) = true
  /\ truthy (stored_ssid env_second_attempt) = true
  /\ sta_connected boot = false
  /\ (forall j, (1 <= j < 2)%nat -> link_up env_second_attempt (j + attempts boot) = false)
  /\ link_up env_second_attempt (2 + attempts boot) = true
  /\ exists s',
       load_config env_second_attempt boot = (Ret tt, s')
       /\ station s' = (true, true)
       /\ ip_address s' = Some (sta_ip env_second_attempt)
       /\ attempts s' = (2 + attempts boot)%nat
       /\ server s' = (if sta_web_server env_second_attempt
                       then Some AppServer else server boot)
       /\ ap_active s' = ap_active boot
       /\ udp_server s' = udp_server boot.
Proof.
  assert (Hk : (1 <= 2 <= 3)%nat) by lia.
  assert (Hfail : forall j, (1 <= j < 2)%nat ->
                    link_up env_second_attempt (j + attempts boot) = false).
  { intros j Hj. assert (j = 1%nat) as -> by lia. reflexivity. }
  split; [intros op; reflexivity |]. split; [exact Hk |].
  split; [reflexivity |]. split; [reflexivity |]. split; [reflexivity |].
  split; [exact Hfail |]. split; [reflexivity |].
  exact (load_config_connects_on_attempt env_second_attempt (fun _ => eq_refl) 2 boot
           Hk eq_refl eq_refl eq_refl Hfail eq_refl).
Defined.

Lemma load_config_connected_or_deactivated_witness :
  fault env0 (StaActive false) = None
  /\ mem config_file (files env0) = true
  /\ truthy (stored_ssid env0) = true
  /\ exists s',
       load_config env0 station_up = (Ret tt, s')
       /\ (sta_connected s' = true \/ sta_active s' = false).
Proof.
  split; [reflexivity |]. split; [reflexivity |]. split; [reflexivity |].
  exact (load_config_connected_or_deactivated env0 station_up eq_refl eq_refl eq_refl).
Defined.

Lemma handle_request_probe_witness :
  fault env0 (ReaderRead 1024) = None
  /\ decode env0 (firstn 1024 (ascii_encode probe_with_connect_request))
     = inr probe_with_connect_request
  /\ first_route probe_routes probe_with_connect_request
     = Some (cat ["HTTP/1.1 204 No Content"; cr; nl; cr; nl])
  /\ fault env0 (WriterWrite (encode env0 (cat ["HTTP/1.1 204 No Content"; cr; nl; cr; nl])))
     = None
  /\ fault env0 WriterDrain = None
  /\ handle_request env0 (ascii_encode probe_with_connect_request) portal_serving
     = (Ret tt,
        append_trace
          [Call (ReaderRead 1024);
           Print ("Request: " ++ probe_with_connect_request);
           Call (WriterWrite (encode env0 (cat ["HTTP/1.1 204 No Content"; cr; nl; cr; nl])));
           Call WriterDrain;
           WriterClose; WriterWaitClosed] portal_serving).
Proof.
  split; [reflexivity |]. split; [reflexivity |]. split; [reflexivity |].
  split; [reflexivity |]. split; [reflexivity |].
  exact (handle_request_probe env0 (ascii_encode probe_with_connect_request)
           probe_with_connect_request (cat ["HTTP/1.1 204 No Content"; cr; nl; cr; nl])
           portal_serving eq_refl eq_refl eq_refl eq_refl eq_refl).
Defined.

Lemma handle_request_default_route_witness :
  fault env0 (ReaderRead 1024) = None
  /\ decode env0 (firstn 1024 (ascii_encode index_request)) = inr index_request
  /\ first_route probe_routes index_request = None
  /\ existsb (fun route => contains route index_request) action_routes = false
  /\ fault env0 (Listdir config_directory) = None
  /\ fault env0 (WriterWrite
                   (encode env0 (html_header ++ index_page (mem config_file (files env0)))))
     = None
  /\ fault env0 WriterDrain = None
  /\ handle_request env0 (ascii_encode index_request) portal_serving
     = (Ret tt,
        append_trace
          [Call (ReaderRead 1024);
           Print ("Request: " ++ index_request);
           Call (Listdir config_directory);
           Call (WriterWrite
                   (encode env0 (html_header ++ index_page (mem config_file (files env0)))));
           Call WriterDrain;
           WriterClose; WriterWaitClosed] portal_serving).
Proof.
  split; [reflexivity |]. split; [reflexivity |]. split; [reflexivity |].
  split; [reflexivity |]. split; [reflexivity |]. split; [reflexivity |].
  split; [reflexivity |].
  exact (handle_request_default_route env0 (ascii_encode index_request) index_request
           portal_serving eq_refl eq_refl eq_refl eq_refl eq_refl eq_refl eq_refl).
Defined.

Lemma scan_networks_leaves_station_off_witness :
  fault env_two_networks (StaActive true) = None
  /\ fault env_two_networks (StaActive false) = None
  /\ exists listing s',
       scan_networks env_two_networks station_online = (Ret (scan_page listing), s')
       /\ station s' = (false, false)
       /\ services s' = services station_online.
Proof.
  split; [reflexivity |]. split; [reflexivity |].
  exact (scan_networks_leaves_station_off env_two_networks station_online eq_refl eq_refl).
Defined.

Lemma scan_networks_lists_every_network_witness :
  fault env_two_networks (StaActive true) = None
  /\ fault env_two_networks (StaActive false) = None
  /\ fault env_two_networks StaScan = None
  /\ (forall raw, In raw (scan_result env_two_networks) ->
        decode env_two_networks (fst raw) = inr (string_of_list_byte (fst raw)))
  /\ fst (scan_networks env_two_networks boot)
     = Ret (scan_page
              (cat (map (fun raw => scan_form (string_of_list_byte (fst raw)) (snd raw))
                      (scan_result env_two_networks)))).
Proof.
  assert (Hall : forall raw, In raw (scan_result env_two_networks) ->
                   decode env_two_networks (fst raw) = inr (string_of_list_byte (fst raw))).
  { intros raw [<- | [<- | []]]; reflexivity. }
  split; [reflexivity |]. split; [reflexivity |]. split; [reflexivity |].
  split; [exact Hall |].
  exact (scan_networks_lists_every_network env_two_networks string_of_list_byte boot
           eq_refl eq_refl eq_refl Hall).
Defined.

Lemma scan_networks_reports_scan_error_witness :
  fault env_scan_fails (StaActive true) = None
  /\ fault env_scan_fails (StaActive false) = None
  /\ fault env_scan_fails StaScan = Some (OSError 16 "EBUSY")
  /\ fst (scan_networks env_scan_fails boot)
     = Ret (scan_page (scan_error (OSError 16 "EBUSY"))).
Proof.
  split; [reflexivity |]. split; [reflexivity |]. split; [reflexivity |].
  exact (scan_networks_reports_scan_error env_scan_fails (OSError 16 "EBUSY") boot
           eq_refl eq_refl eq_refl).
Defined.

Lemma connect_to_wifi_success_witness :
  (forall op, fault env_home_web op = None)
  /\ truthy (form_ssid connect_request) = true
  /\ truthy (form_password connect_request) = true
  /\ sta_connected portal_serving = false
  /\ link_up env_home_web (S (attempts portal_serving)) = true
  /\ ap_connected portal_serving = true
  /\ exists s' t,
       connect_to_wifi env_home_web connect_request portal_serving
       = (Ret (connected_page (form_ssid connect_request)), s')
       /\ station s' = (true, true)
       /\ ap_active s' = false /\ ap_connected s' = false
       /\ udp_server s' = false
       /\ ip_address s' = None
       /\ server s' = (if sta_web_server env_home_web
                       then Some AppServer else server portal_serving)
       /\ trace s' = (trace portal_serving ++ t)%list
       /\ In (Call (CfgSet "network" "ssid" (form_ssid connect_request))) t
       /\ In (Call (CfgSet "network" "password" (form_password connect_request))) t
       /\ (server portal_serving <> None -> In (Call ServerClose) t)
       /\ (udp_server portal_serving = true -> In SockClose t).
Proof.
  assert (Hssid : truthy (form_ssid connect_request) = true) by (vm_compute; reflexivity).
  assert (Hpw : truthy (form_password connect_request) = true) by (vm_compute; reflexivity).
  split; [intros op; reflexivity |]. split; [exact Hssid |]. split; [exact Hpw |].
  split; [reflexivity |]. split; [reflexivity |]. split; [reflexivity |].
  exact (connect_to_wifi_success env_home_web connect_request portal_serving
           (fun _ => eq_refl) Hssid Hpw eq_refl eq_refl eq_refl).
Defined.

Lemma connect_to_wifi_link_fails_witness :
  (forall op, fault env0 op = None)
  /\ truthy (form_ssid connect_request) = true
  /\ truthy (form_password connect_request) = true
  /\ sta_connected portal_serving = false
  /\ link_up env0 (S (attempts portal_serving)) = false
  /\ exists s',
       connect_to_wifi env0 connect_request portal_serving
       = (Ret (connection_failed_page (form_ssid connect_request)), s')
       /\ station s' = (false, false)
       /\ services s' = services portal_serving
       /\ exists t,
            trace s' = (trace portal_serving ++ t)%list
            /\ forall op, In (Call op) t ->
                 In op [StaActive true;
                        StaConnect (form_ssid connect_request) (form_password connect_request);
                        StaIsConnected;
                        StaActive false].
Proof.
  assert (Hssid : truthy (form_ssid connect_request) = true) by (vm_compute; reflexivity).
  assert (Hpw : truthy (form_password connect_request) = true) by (vm_compute; reflexivity).
  split; [intros op; reflexivity |]. split; [exact Hssid |]. split; [exact Hpw |].
  split; [reflexivity |]. split; [reflexivity |].
  exact (connect_to_wifi_link_fails env0 connect_request portal_serving
           (fun _ => eq_refl) Hssid Hpw eq_refl eq_refl).
Defined.

Lemma reconnect_to_wifi_without_file_witness :
  fault env_fresh (Listdir config_directory) = None
  /\ fault env_fresh StaIsConnected = None
  /\ mem config_file (files env_fresh) = false
  /\ sta_connected portal_serving = false
  /\ reconnect_to_wifi env_fresh reconnect_request portal_serving
     = (Ret configuration_error_page,
        append_trace [Call (Listdir config_directory); Call StaIsConnected] portal_serving).
Proof.
  split; [reflexivity |]. split; [reflexivity |]. split; [reflexivity |].
  split; [reflexivity |].
  exact (reconnect_to_wifi_without_file env_fresh reconnect_request portal_serving
           eq_refl eq_refl eq_refl eq_refl).
Defined.

Lemma reconnect_to_wifi_out_of_reach_witness :
  out_of_reach env0
  /\ sta_connected portal_serving = false
  /\ exists s',
       reconnect_to_wifi env0 reconnect_request portal_serving
       = (Ret reconnection_failed_page, s')
       /\ station s' = (false, false)
       /\ services s' = services portal_serving.
Proof.
  split; [exact env0_out_of_reach |]. split; [reflexivity |].
  exact (reconnect_to_wifi_out_of_reach env0 reconnect_request portal_serving
           env0_out_of_reach eq_refl).
Defined.

Lemma start_ap_configures_witness :
  (forall op, fault env0 op = None)
  /\ (8 <= String.length (ap_password env0))%nat
  /\ exists s',
       start_ap env0 boot = (Ret tt, s')
       /\ ap_active s' = true
       /\ ap_essid s' = ap_ssid env0 /\ ap_key s' = ap_password env0
       /\ ap_netcfg s' = ("192.168.4.1", "255.255.255.0", "192.168.4.1", "192.168.4.1")
       /\ ip_address s' = Some "192.168.4.1"
       /\ station s' = station boot
       /\ server s' = server boot
       /\ udp_server s' = udp_server boot
       /\ trace s'
          = (trace boot ++
             [Call (ApConfig (ap_ssid env0) (ap_password env0));
              Call (ApActive true);
              Call (ApSetIfconfig ("192.168.4.1", "255.255.255.0", "192.168.4.1", "192.168.4.1"));
              Call ApIfconfig;
              Print (cat ["Access point started. SSID: "; ap_ssid env0; ", IP: "; "192.168.4.1"])])%list.
Proof.
  assert (Hpw : (8 <= String.length (ap_password env0))%nat) by (cbn; lia).
  split; [intros op; reflexivity |]. split; [exact Hpw |].
  exact (start_ap_configures env0 boot (fun _ => eq_refl) Hpw).
Defined.

Lemma decode_domain_name_of_wire_name_witness :
  Forall (fun l => (1 <= List.length l <= 255)%nat
                   /\ decode env0 l = inr (string_of_list_byte l)) labels_www
  /\ _decode_domain_name env0 (wire_name labels_www ++ question_tail)%list boot
     = (Ret (join_dot (map string_of_list_byte labels_www)), boot).
Proof.
  assert (Hall : Forall (fun l => (1 <= List.length l <= 255)%nat
                                  /\ decode env0 l = inr (string_of_list_byte l))
                   labels_www).
  { repeat constructor; cbn; lia. }
  split; [exact Hall |].
  exact (decode_domain_name_of_wire_name env0 string_of_list_byte labels_www
           question_tail boot Hall).
Defined.

Lemma start_dns_answers_every_datagram_witness :
  fault env0 SockCreate = None
  /\ fault env0 (SockSetBlocking false) = None
  /\ fault env0 (SockBind (dns_ip, dns_port)) = None
  /\ rx datagrams_waiting = map (fun q => RxData (fst q) (snd q)) two_datagrams
  /\ tx datagrams_waiting = []
  /\ (List.length two_datagrams <= 2)%nat
  /\ exists s',
       start_dns env0 2 datagrams_waiting = (Pending, s')
       /\ udp_server s' = true
       /\ sends (trace s')
          = (sends (trace datagrams_waiting)
             ++ map (fun q => (answer_of env0 (fst q), snd q))
                  (filter (fun q => nonempty (fst q)) two_datagrams))%list.
Proof.
  assert (Hlen : (List.length two_datagrams <= 2)%nat) by (cbn; lia).
  split; [reflexivity |]. split; [reflexivity |]. split; [reflexivity |].
  split; [reflexivity |]. split; [reflexivity |]. split; [exact Hlen |].
  exact (start_dns_answers_every_datagram env0 2 two_datagrams datagrams_waiting
           eq_refl eq_refl eq_refl eq_refl eq_refl Hlen).
Defined.

Lemma start_dns_bind_failure_witness :
  fault env_bind_fails SockCreate = None
  /\ fault env_bind_fails (SockSetBlocking false) = None
  /\ fault env_bind_fails (SockBind (dns_ip, dns_port)) = Some (OSError 98 "EADDRINUSE")
  /\ start_dns env_bind_fails 4 boot
     = (Ret tt,
        set_udp_server true
          (append_trace
             [Call SockCreate; Call (SockSetBlocking false);
              Call (SockBind (dns_ip, dns_port));
              Print ("Error starting DNS server: " ++ str_exn (OSError 98 "EADDRINUSE"));
              SockClose; Print "DNS server socket closed."] boot)).
Proof.
  split; [reflexivity |]. split; [reflexivity |]. split; [reflexivity |].
  exact (start_dns_bind_failure env_bind_fails 4 (OSError 98 "EADDRINUSE") boot
           eq_refl eq_refl eq_refl).
Defined.

Lemma run_stays_on_saved_network_witness :
  (forall op, fault env_home op = None)
  /\ mem config_file (files env_home) = true
  /\ truthy (stored_ssid env_home) = true
  /\ sta_connected boot = false
  /\ link_up env_home (S (attempts boot)) = true
  /\ exists s',
       run env_home 5 boot = (Pending, s')
       /\ station s' = (true, true)
       /\ ip_address s' = Some (sta_ip env_home)
       /\ attempts s' = S (attempts boot)
       /\ server s' = (if sta_web_server env_home then Some AppServer else server boot)
       /\ ap_active s' = ap_active boot
       /\ udp_server s' = udp_server boot.
Proof.
  split; [intros op; reflexivity |]. split; [reflexivity |]. split; [reflexivity |].
  split; [reflexivity |]. split; [reflexivity |].
  exact (run_stays_on_saved_network env_home (fun _ => eq_refl) 5 boot
           eq_refl eq_refl eq_refl eq_refl).
Defined.
